(** * Resumable weather crawl (etl/main.py): model and properties

    A shallow embedding of the crawl/merge controller of [etl/main.py]:
    the per-window retry loop [fetch_block], the reshaping of a 200-OK
    payload, the per-region resume computation, the window loop, the
    merge-and-persist block and the two RATE_LIMIT_HARD handlers.

    Conventions.
    - A calendar date is a [Z]: days since 1970-01-01.  A timestamp is a
      [Z]: seconds since 1970-01-01 00:00.  Python's bounded [date] range
      (years 1..9999) is not modelled.
    - A data frame is its ordered column list plus its rows; a row is read
      by column name, an absent name reads as NaN.  Frames with repeated
      column names are not represented.
    - [pd.to_datetime(..., errors="coerce")] on values that are not yet
      timestamps is the parameter [parse], taken cell by cell.
    - The network and the random generator are parameters: [server] answers
      the k-th call of [session_global.get], [entropy] feeds [random.randint].
    - Every call of [session_global.get], every integer [time.sleep] of
      [fetch_block], every [to_csv] and the prints the properties speak of
      are recorded, in order, in the trace of the world. *)

From Stdlib Require Import ZArith List String Ascii Bool Lia.
From Stdlib Require Import Sorted Permutation.
From Stdlib Require OrderedTypeEx.
Import ListNotations.

Open Scope string_scope.
Open Scope list_scope.
Open Scope Z_scope.

(** ** Cells, rows and frames *)

Inductive cell : Type :=
| Num (z : Z)          (* a number *)
| Text (s : string)    (* a str *)
| Stamp (t : Z)        (* a pandas Timestamp *)
| Day (d : Z)          (* a datetime.date *)
| NA.                  (* NaN / NaT / None *)

Definition Row : Type := list (string * cell).

Record Frame : Type := mkFrame { columns : list string; rows : list Row }.

(** [pd.DataFrame()] *)
Definition empty_frame : Frame := mkFrame [] [].

(** [df.empty]: some axis has length 0. *)
Definition empty (df : Frame) : bool :=
  match columns df, rows df with
  | [], _ => true
  | _, [] => true
  | _, _ => false
  end.

Definition cell_eqb (a b : cell) : bool :=
  match a, b with
  | Num x, Num y => x =? y
  | Text x, Text y => String.eqb x y
  | Stamp x, Stamp y => x =? y
  | Day x, Day y => x =? y
  | NA, NA => true
  | _, _ => false
  end.

Definition mem (c : string) (l : list string) : bool := existsb (String.eqb c) l.

(** [row[c]] *)
Fixpoint get (c : string) (r : Row) : cell :=
  match r with
  | [] => NA
  | (k, v) :: r' => if String.eqb k c then v else get c r'
  end.

(** [row[c] = v] *)
Fixpoint set (c : string) (v : cell) (r : Row) : Row :=
  match r with
  | [] => [(c, v)]
  | (k, x) :: r' => if String.eqb k c then (k, v) :: r' else (k, x) :: set c v r'
  end.

(** [df[c] = f(row)]: an existing column is overwritten in place, a new
    one is appended. *)
Definition assign (c : string) (f : Row -> cell) (df : Frame) : Frame :=
  mkFrame (if mem c (columns df) then columns df else columns df ++ [c])
          (map (fun r => set c (f r) r) (rows df)).

(** [df.drop(columns=[c])] *)
Definition drop_column (c : string) (df : Frame) : Frame :=
  mkFrame (filter (fun k => negb (String.eqb k c)) (columns df))
          (map (filter (fun kv : string * cell => negb (String.eqb (fst kv) c))) (rows df)).

Fixpoint lookup (k : string) (m : list (string * string)) : option string :=
  match m with
  | [] => None
  | (a, b) :: m' => if String.eqb a k then Some b else lookup k m'
  end.

Definition renamed (m : list (string * string)) (k : string) : string :=
  match lookup k m with Some k' => k' | None => k end.

(** [df.rename(columns=m)] *)
Definition rename (m : list (string * string)) (df : Frame) : Frame :=
  mkFrame (map (renamed m) (columns df))
          (map (map (fun kv : string * cell => (renamed m (fst kv), snd kv))) (rows df)).

(** [left.merge(right, on=key, how="left")]: every left row, in order,
    paired with each right row holding the same key (null keys match each
    other); a left row without a match is kept alone.  A column other
    than the key that both sides have gets the suffixes [_x] and [_y]. *)
Definition suffixed (other : list string) (key suffix c : string) : string :=
  if negb (String.eqb c key) && mem c other then String.append c suffix else c.

Definition merge_left (key : string) (left right : Frame) : Frame :=
  let lname := suffixed (columns right) key "_x" in
  let rname := suffixed (columns left) key "_y" in
  let not_key := fun kv : string * cell => negb (String.eqb (fst kv) key) in
  let lrow := fun r : Row => map (fun kv => (lname (fst kv), snd kv)) r in
  let rrow := fun r : Row => map (fun kv => (rname (fst kv), snd kv)) (filter not_key r) in
  mkFrame
    (map lname (columns left)
       ++ map rname (filter (fun c => negb (String.eqb c key)) (columns right)))
    (flat_map
       (fun l =>
          match filter (fun r => cell_eqb (get key r) (get key l)) (rows right) with
          | [] => [lrow l]
          | ms => map (fun r => lrow l ++ rrow r) ms
          end)
       (rows left)).

(** [pd.concat([a, b], ignore_index=True)]: rows of [a] then rows of [b];
    columns of [a], then those of [b] not yet listed. *)
Definition concat2 (a b : Frame) : Frame :=
  mkFrame (columns a ++ filter (fun c => negb (mem c (columns a))) (columns b))
          (rows a ++ rows b).

(** [pd.concat(dfs, ignore_index=True)] for a non-empty list. *)
Fixpoint concat_from (acc : Frame) (dfs : list Frame) : Frame :=
  match dfs with
  | [] => acc
  | d :: ds => concat_from (concat2 acc d) ds
  end.

Definition concat (dfs : list Frame) : Frame :=
  match dfs with
  | [] => empty_frame
  | d :: ds => concat_from d ds
  end.

(** ** Timestamps *)

(** [ts.date()] *)
Definition date_of (t : Z) : Z := t / 86400.

(** [Series.dt.date], cell by cell. *)
Definition dt_date (c : cell) : cell :=
  match c with
  | Stamp t => Day (date_of t)
  | _ => NA
  end.

Definition digit (n : Z) : ascii := ascii_of_nat (48 + Z.to_nat n).

Definition two_digits (n : Z) : string :=
  String (digit (n / 10)) (String (digit (n mod 10)) EmptyString).

(** [Series.dt.strftime("%H:%M")], cell by cell. *)
Definition strftime_HM (c : cell) : cell :=
  match c with
  | Stamp t => Text (String.append (two_digits ((t mod 86400) / 3600))
                            (String.append ":" (two_digits ((t mod 3600) / 60))))
  | _ => NA
  end.

(** ** Column maps (section 5 of the script) *)

Definition COLUMN_MAP : list (string * string) :=
  [ ("temperature_2m", "Nhiệt độ (°C)");
    ("relative_humidity_2m", "Độ ẩm tương đối (%)");
    ("dew_point_2m", "Điểm sương (°C)");
    ("apparent_temperature", "Nhiệt độ cảm nhận (°C)");
    ("pressure_msl", "Áp suất mực biển (hPa)");
    ("surface_pressure", "Áp suất bề mặt (hPa)");
    ("precipitation", "Lượng mưa (mm)");
    ("cloud_cover", "Độ phủ mây (%)");
    ("cloud_cover_low", "Mây thấp (%)");
    ("cloud_cover_mid", "Mây trung (%)");
    ("cloud_cover_high", "Mây cao (%)");
    ("wind_speed_10m", "Tốc độ gió 10m (m/s)");
    ("wind_speed_100m", "Tốc độ gió 100m (m/s)");
    ("wind_direction_10m", "Hướng gió 10m (°)");
    ("wind_direction_100m", "Hướng gió 100m (°)");
    ("wind_gusts_10m", "Tốc độ gió giật 10m (m/s)");
    ("weather_code", "Mã thời tiết");
    ("shortwave_radiation", "Bức xạ ngắn (W/m2)");
    ("sunshine_duration", "Thời gian nắng (s)");
    ("et0_fao_evapotranspiration", "Bốc hơi tham chiếu FAO giờ (mm)");
    ("vapour_pressure_deficit", "Thiếu hụt áp suất hơi (kPa)") ].

Definition DAILY_COLUMN_MAP : list (string * string) :=
  [ ("weather_code", "Mã thời tiết ngày");
    ("temperature_2m_max", "Nhiệt độ tối đa ngày (°C)");
    ("temperature_2m_min", "Nhiệt độ tối thiểu ngày (°C)");
    ("temperature_2m_mean", "Nhiệt độ trung bình ngày (°C)");
    ("apparent_temperature_max", "Nhiệt độ cảm nhận tối đa ngày (°C)");
    ("apparent_temperature_min", "Nhiệt độ cảm nhận tối thiểu ngày (°C)");
    ("apparent_temperature_mean", "Nhiệt độ cảm nhận trung bình ngày (°C)");
    ("precipitation_sum", "Tổng lượng mưa ngày (mm)");
    ("precipitation_hours", "Số giờ có mưa (h)");
    ("daylight_duration", "Thời lượng ban ngày (s)");
    ("sunshine_duration", "Tổng thời gian nắng ngày (s)");
    ("shortwave_radiation_sum", "Tổng bức xạ ngắn ngày (W/m2)");
    ("wind_speed_10m_max", "Tốc độ gió 10m tối đa ngày (m/s)");
    ("wind_gusts_10m_max", "Tốc độ gió giật 10m tối đa ngày (m/s)");
    ("wind_direction_10m_dominant", "Hướng gió ưu thế 10m (°)");
    ("relative_humidity_2m_mean", "Độ ẩm trung bình ngày (%)");
    ("dew_point_2m_mean", "Điểm sương trung bình ngày (°C)");
    ("cloud_cover_mean", "Mây trung bình (%)");
    ("surface_pressure_mean", "Áp suất bề mặt trung bình (hPa)");
    ("et0_fao_evapotranspiration", "Bốc hơi tham chiếu FAO ngày (mm)");
    ("sunrise", "Giờ mặt trời mọc");
    ("sunset", "Giờ mặt trời lặn") ].

Definition special_cols : list string := ["Mã thời tiết"; "Mã thời tiết ngày"].

(** ** Exceptions, requests, responses, events *)

Inductive exn : Type :=
| RuntimeError (msg : string)
| KeyError (key : string).

(** The query of one [session_global.get]: coordinates (in 1e-4 degree, as
    [round(_, 4)] stores them) and the two dates that [strftime("%Y-%m-%d")]
    prints; the other parameters are constants. *)
Record request : Type := mkRequest {
  latitude : Z; longitude : Z; start_date : Z; end_date : Z
}.

(** The two tables [pd.DataFrame(data["hourly"])] and
    [pd.DataFrame(data["daily"])] of a decoded body.  A body that is not
    JSON, lacks one of the two objects or holds arrays of unequal lengths
    makes these calls raise; such bodies are not represented. *)
Record payload : Type := mkPayload { hourly : Frame; daily : Frame }.

Inductive response : Type :=
| ConnectionError                          (* [session_global.get] raised *)
| Http (status : Z) (body : payload).

Inductive event : Type :=
| Block (s e : Z)            (* print "→ Block s → e", one per window *)
| Get (q : request)          (* one call of [session_global.get] *)
| Sleep (seconds : Z)        (* [time.sleep] inside [fetch_block] *)
| Pause (lo hi : Z)          (* [time.sleep(random.uniform(lo, hi))] *)
| Collected (df : Frame)     (* [df_blocks.append(df_blk)] *)
| ToCsv (df : Frame)         (* [df_vn.to_csv(out_vn_path, ...)] *)
| Print (msg : string).      (* the closing prints of the script *)

(** ** The program state and its monad

    [df_vn] and [df_blocks] are the script's variables of those names; a
    raised exception leaves them as they are, as in Python. *)

Record World : Type := mkWorld {
  df_vn : Frame;
  df_blocks : list Frame;
  trace : list event;
  asked : nat;      (* calls of [session_global.get] so far *)
  drawn : nat       (* calls of [random.randint] so far *)
}.

Definition M (A : Type) : Type := World -> (exn + A) * World.

Definition ret {A} (a : A) : M A := fun w => (inr a, w).

Definition bind {A B} (c : M A) (k : A -> M B) : M B :=
  fun w =>
    match c w with
    | (inr a, w') => k a w'
    | (inl e, w') => (inl e, w')
    end.

Definition raise {A} (e : exn) : M A := fun w => (inl e, w).

(** [try: c  except ... as e: h e] *)
Definition catch {A} (c : M A) (h : exn -> M A) : M A :=
  fun w =>
    match c w with
    | (inr a, w') => (inr a, w')
    | (inl e, w') => h e w'
    end.

Notation "x <- c ;; k" := (bind c (fun x => k))
  (at level 61, c at next level, right associativity).
Notation "c ;; k" := (bind c (fun _ => k))
  (at level 61, right associativity).

Definition log (e : event) : M unit :=
  fun w => (inr tt, mkWorld (df_vn w) (df_blocks w) (trace w ++ [e]) (asked w) (drawn w)).

Definition read_df_vn : M Frame := fun w => (inr (df_vn w), w).
Definition read_df_blocks : M (list Frame) := fun w => (inr (df_blocks w), w).

Definition write_df_vn (df : Frame) : M unit :=
  fun w => (inr tt, mkWorld df (df_blocks w) (trace w) (asked w) (drawn w)).

Definition write_df_blocks (l : list Frame) : M unit :=
  fun w => (inr tt, mkWorld (df_vn w) l (trace w) (asked w) (drawn w)).

Definition lift {A} (r : exn + A) : M A :=
  match r with inl e => raise e | inr a => ret a end.

(** [range(1, n + 1)] *)
Definition range1 (n : nat) : list Z := map Z.of_nat (seq 1 n).

(** [needle in s] on strings *)
Definition contains (needle s : string) : bool :=
  match String.index 0 needle s with Some _ => true | None => false end.

(** [date(2000, 1, 1)] *)
Definition start_all : Z := 10957.

(** ** Row keys and their order *)

Definition key (r : Row) : cell * cell := (get "Tinh_thanh" r, get "Datetime" r).

Definition key_eqb (a b : cell * cell) : bool :=
  cell_eqb (fst a) (fst b) && cell_eqb (snd a) (snd b).

Definition cell_rank (c : cell) : Z :=
  match c with Num _ => 0 | Text _ => 1 | Stamp _ => 2 | Day _ => 3 | NA => 4 end.

(** The order [sort_values] uses inside one column: numbers by value,
    strings by code point, timestamps by time, nulls last.  Columns of
    mixed types (where pandas raises TypeError) are ordered by kind. *)
Definition cell_compare (a b : cell) : comparison :=
  match a, b with
  | Num x, Num y => x ?= y
  | Text x, Text y => String.compare x y
  | Stamp x, Stamp y => x ?= y
  | Day x, Day y => x ?= y
  | _, _ => cell_rank a ?= cell_rank b
  end.

Definition cell_leb (a b : cell) : bool :=
  match cell_compare a b with Gt => false | _ => true end.

(** Rows compared by ([Tinh_thanh], [Datetime]). *)
Definition key_leb (r1 r2 : Row) : bool :=
  match cell_compare (get "Tinh_thanh" r1) (get "Tinh_thanh" r2) with
  | Lt => true
  | Gt => false
  | Eq => cell_leb (get "Datetime" r1) (get "Datetime" r2)
  end.

(** ** Cleaning steps of the merge block *)

(** [df.drop_duplicates(subset=["Tinh_thanh", "Datetime"])]: the first row
    of every key stays. *)
Fixpoint drop_duplicates_from (seen : list (cell * cell)) (rs : list Row) : list Row :=
  match rs with
  | [] => []
  | r :: rs' =>
      if existsb (key_eqb (key r)) seen
      then drop_duplicates_from seen rs'
      else r :: drop_duplicates_from (key r :: seen) rs'
  end.

Definition drop_duplicates (df : Frame) : Frame :=
  mkFrame (columns df) (drop_duplicates_from [] (rows df)).

Definition is_na (c : cell) : bool := match c with NA => true | _ => false end.

(** [df.dropna(subset=["Datetime"])] *)
Definition dropna (df : Frame) : Frame :=
  mkFrame (columns df) (filter (fun r => negb (is_na (get "Datetime" r))) (rows df)).

Fixpoint insert_row (r : Row) (l : list Row) : list Row :=
  match l with
  | [] => [r]
  | x :: l' => if key_leb r x then r :: l else x :: insert_row r l'
  end.

Fixpoint sort_rows (l : list Row) : list Row :=
  match l with
  | [] => []
  | r :: l' => insert_row r (sort_rows l')
  end.

(** [df.sort_values(["Tinh_thanh", "Datetime"])] (a stable sort). *)
Definition sort_values (df : Frame) : Frame :=
  mkFrame (columns df) (sort_rows (rows df)).

(** The column block shared by [fetch_block] (l.229-243) and both merge
    blocks (l.366-379, l.403-416).  [cols] names every column of [df], so
    [df[cols]] permutes the columns and leaves each row's values; it raises
    KeyError when [Tinh_thanh] or [Datetime] is not a column. *)
Definition ordered_cols (df : Frame) : list string :=
  ["Tinh_thanh"]
    ++ filter (fun sc => mem sc (columns df)) special_cols
    ++ filter (fun c => negb (mem c (["Tinh_thanh"; "Datetime"] ++ special_cols))) (columns df)
    ++ ["Datetime"].

Definition reorder_columns (df : Frame) : exn + Frame :=
  if negb (mem "Tinh_thanh" (columns df)) then inl (KeyError "Tinh_thanh")
  else if negb (mem "Datetime" (columns df)) then inl (KeyError "Datetime")
  else inr (mkFrame (ordered_cols df) (rows df)).

(** ** Sample inputs

    A toy reading of times (a number is a count of seconds, anything else
    does not parse), a payload for one day and a few servers. *)
Module Demo.

Definition parse (c : cell) : option Z :=
  match c with Num z => Some z | _ => None end.

Definition entropy (k : nat) : Z := 77 + Z.of_nat k.

Definition hour_record (t : Z) : Row :=
  [("time", Num t); ("temperature_2m", Num 25); ("weather_code", Num 3)].

Definition day_record (d : Z) : Row :=
  [("time", Num (d * 86400)); ("weather_code", Num 61);
   ("temperature_2m_max", Num 31); ("sunrise", Num (d * 86400 + 5 * 3600 + 7 * 60))].

(** The first [n] hours of day [d] and the day itself. *)
Definition day_payload (d : Z) (n : nat) : payload :=
  mkPayload
    (mkFrame ["time"; "temperature_2m"; "weather_code"]
       (map (fun h => hour_record (d * 86400 + 3600 * Z.of_nat h)) (seq 0 n)))
    (mkFrame ["time"; "weather_code"; "temperature_2m_max"; "sunrise"] [day_record d]).

Definition no_payload : payload := mkPayload empty_frame empty_frame.

Definition answer (q : request) : response := Http 200 (day_payload (start_date q) 2).

Definition always_ok (k : nat) (q : request) : response := answer q.

Definition always_429 (k : nat) (q : request) : response := Http 429 no_payload.

(** 429 on the first two calls, then 200. *)
Definition throttled_twice (k : nat) (q : request) : response :=
  if (k <? 2)%nat then Http 429 no_payload else answer q.

(** 200 on the first call, 429 ever after. *)
Definition throttled_after_one (k : nat) (q : request) : response :=
  match k with O => answer q | S _ => Http 429 no_payload end.

Definition forbidden (k : nat) (q : request) : response := Http 403 no_payload.

Definition regions : list (string * Z * Z) :=
  [("An Giang", 105216, 1051259); ("Bắc Giang", 212731, 1061946)].

(** A file with one row of An Giang at 00:00 of day [d]. *)
Definition file_with (d : Z) : option Frame :=
  Some (mkFrame ["Tinh_thanh"; "Nhiệt độ (°C)"; "Datetime"]
          [[("Tinh_thanh", Text "An Giang"); ("Nhiệt độ (°C)", Num 24);
            ("Datetime", Num (d * 86400))]]).

(** A 200 answer with both tables and no row. *)
Definition blank : payload :=
  mkPayload (mkFrame ["time"; "temperature_2m"] []) (mkFrame ["time"; "sunrise"] []).

Definition always_blank (k : nat) (q : request) : response := Http 200 blank.

(** A 200 answer whose hourly table has no [time] column. *)
Definition malformed : payload :=
  mkPayload (mkFrame ["temperature_2m"] [[("temperature_2m", Num 25)]])
            (mkFrame ["time"] []).

Definition always_malformed (k : nat) (q : request) : response := Http 200 malformed.

(** A 200 answer with the variables the request names ([hourly] and
    [daily] of the query), one hour and its day. *)
Definition requested : payload :=
  mkPayload
    (mkFrame ("time" :: map fst COLUMN_MAP)
       [("time", Num 3600) :: map (fun kv => (fst kv, Num 1)) COLUMN_MAP])
    (mkFrame ("time" :: map fst DAILY_COLUMN_MAP)
       [("time", Num 0) :: map (fun kv => (fst kv, Num 2)) DAILY_COLUMN_MAP]).

(** A dataset with one row of An Giang at 00:00 of day [d]. *)
Definition held (d : Z) : Frame :=
  mkFrame ["Tinh_thanh"; "Datetime"]
    [[("Tinh_thanh", Text "An Giang"); ("Datetime", Stamp (d * 86400))]].

(** Three rows out of order, two of them under one key. *)
Definition untidy : Frame :=
  mkFrame ["Datetime"; "Nhiệt độ (°C)"; "Tinh_thanh"]
    [[("Datetime", Stamp 7200); ("Nhiệt độ (°C)", Num 24); ("Tinh_thanh", Text "An Giang")];
     [("Datetime", Stamp 3600); ("Nhiệt độ (°C)", Num 23); ("Tinh_thanh", Text "An Giang")];
     [("Datetime", Stamp 7200); ("Nhiệt độ (°C)", Num 99); ("Tinh_thanh", Text "An Giang")]].

End Demo.

Section Crawler.

(** What [pd.to_datetime(_, errors="coerce")] makes of a value that is not
    a timestamp yet: [None] is NaT. *)
Variable parse : cell -> option Z.

(** The answer to the k-th call of [session_global.get]. *)
Variable server : nat -> request -> response.

(** The raw outcome of the k-th call of [random.randint]. *)
Variable entropy : nat -> Z.

(** [yesterday = today - timedelta(days=1)] *)
Variable yesterday : Z.

Definition to_datetime (c : cell) : cell :=
  match c with
  | Stamp t => Stamp t
  | NA => NA
  | _ => match parse c with Some t => Stamp t | None => NA end
  end.

(** [df["Datetime"] = pd.to_datetime(df["Datetime"], errors="coerce")] *)
Definition coerce_datetime (df : Frame) : Frame :=
  assign "Datetime" (fun r => to_datetime (get "Datetime" r)) df.

(** Lines 397-416 (and 360-379): dedup, coerce, dropna, sort, reorder.
    [drop_duplicates] raises KeyError when a key column is missing. *)
Definition tidy (df : Frame) : exn + Frame :=
  if negb (mem "Tinh_thanh" (columns df)) then inl (KeyError "Tinh_thanh")
  else if negb (mem "Datetime" (columns df)) then inl (KeyError "Datetime")
  else reorder_columns (sort_values (dropna (coerce_datetime (drop_duplicates df)))).

(** ** [fetch_block] *)

(** The 200-OK branch, l.194-245. *)
Definition hourly_frame (data : payload) (tinh_thanh : string) : Frame :=
  let df_h := hourly data in
  let df_h := assign "Datetime" (fun r => to_datetime (get "time" r)) df_h in
  let df_h := drop_column "time" df_h in
  let df_h := rename COLUMN_MAP df_h in
  let df_h := assign "Tinh_thanh" (fun _ => Text tinh_thanh) df_h in
  assign "Date" (fun r => dt_date (get "Datetime" r)) df_h.

(** Lines 210-218.  When [rename] has put two columns under the name [c],
    [df_d[c]] is a frame and [pd.to_datetime] raises ValueError; frames with
    repeated names are not represented. *)
Definition hm_column (c : string) (df : Frame) : Frame :=
  if mem c (columns df)
  then assign c (fun r => strftime_HM (to_datetime (get c r))) df
  else df.

Definition daily_frame (data : payload) : Frame :=
  let df_d := daily data in
  let df_d := assign "Date" (fun r => dt_date (to_datetime (get "time" r))) df_d in
  let df_d := drop_column "time" df_d in
  let df_d := rename DAILY_COLUMN_MAP df_d in
  let df_d := hm_column "Giờ mặt trời mọc" df_d in
  hm_column "Giờ mặt trời lặn" df_d.

Definition reshape (data : payload) (tinh_thanh : string) : exn + Frame :=
  if negb (mem "time" (columns (hourly data))) then inl (KeyError "time")
  else if negb (mem "time" (columns (daily data))) then inl (KeyError "time")
  else
    let df := merge_left "Date" (hourly_frame data tinh_thanh) (daily_frame data) in
    let df := drop_column "Date" df in
    reorder_columns df.

Definition http_get (q : request) : M response :=
  fun w => (inr (server (asked w) q),
            mkWorld (df_vn w) (df_blocks w) (trace w ++ [Get q]) (S (asked w)) (drawn w)).

(** [random.randint(a, b)]: an integer of [a..b]. *)
Definition randint (a b : Z) : M Z :=
  fun w => (inr (a + entropy (drawn w) mod (b - a + 1)),
            mkWorld (df_vn w) (df_blocks w) (trace w) (asked w) (S (drawn w))).

(** [time.sleep(seconds)].  Python raises ValueError on a negative wait;
    that is not modelled: the waits of [fetch_block] are not negative when
    [base_wait_429] is not (see [attempt_loop_sleep_range]). *)
Definition sleep (seconds : Z) : M unit := log (Sleep seconds).

Definition is_5xx (status : Z) : bool :=
  (status =? 500) || (status =? 502) || (status =? 503) || (status =? 504).

(** The [for attempt in range(1, max_attempts + 1)] loop; the empty list
    is the code after the loop (l.265-267). *)
Fixpoint attempt_loop (q : request) (tinh_thanh : string) (base_wait_429 : Z)
         (attempts : list Z) : M (option Frame) :=
  match attempts with
  | [] => raise (RuntimeError "RATE_LIMIT_HARD")
  | attempt :: later =>
      r <- http_get q ;;
      match r with
      | ConnectionError =>
          sleep (10 * attempt) ;;
          attempt_loop q tinh_thanh base_wait_429 later
      | Http status data =>
          if status =? 200 then
            df <- lift (reshape data tinh_thanh) ;;
            ret (Some df)
          else if status =? 429 then
            jitter <- randint 0 60 ;;
            sleep (base_wait_429 * attempt + jitter) ;;
            attempt_loop q tinh_thanh base_wait_429 later
          else if is_5xx status then
            sleep (20 * attempt) ;;
            attempt_loop q tinh_thanh base_wait_429 later
          else ret None
      end
  end.

Definition fetch_block (lat lon start_ end_ : Z) (tinh_thanh : string)
           (max_attempts : nat) (base_wait_429 : Z) : M (option Frame) :=
  attempt_loop (mkRequest lat lon start_ end_) tinh_thanh base_wait_429 (range1 max_attempts).

(** ** The crawl (section 8 of the script) *)

(** Loading the consolidated file, l.277-289; [csv] is what [pd.read_csv]
    returned, [None] when the file does not exist.  A file [pd.read_csv]
    cannot read (it raises, EmptyDataError on a file of 0 bytes) is not
    represented. *)
Definition load (csv : option Frame) : exn + Frame :=
  match csv with
  | Some df =>
      if mem "Datetime" (columns df) then
        let df := dropna (coerce_datetime df) in
        if mem "Tinh_thanh" (columns df) then inr (sort_values df)
        else inl (KeyError "Tinh_thanh")
      else inr empty_frame
  | None => inr empty_frame
  end.

Fixpoint latest (ts : list cell) : option Z :=
  match ts with
  | [] => None
  | c :: ts' =>
      match c, latest ts' with
      | Stamp t, Some m => Some (Z.max t m)
      | Stamp t, None => Some t
      | _, m => m
      end
  end.

(** The per-region start date, l.302-314.  Python's [date] ends at
    9999-12-31, where [+ timedelta(days=1)] raises OverflowError; dates are
    unbounded here. *)
Definition resume_date (df : Frame) (tinh : string) : Z :=
  if negb (empty df)
     && existsb (fun r => cell_eqb (get "Tinh_thanh" r) (Text tinh)) (rows df)
  then
    let df_tinh := mkFrame (columns df)
                     (filter (fun r => cell_eqb (get "Tinh_thanh" r) (Text tinh)) (rows df)) in
    let df_tinh := dropna (coerce_datetime df_tinh) in
    if negb (empty df_tinh) then
      match latest (map (get "Datetime") (rows df_tinh)) with
      | Some t => date_of t + 1
      | None => start_all
      end
    else start_all
  else start_all.

(** One turn of the [while cur <= yesterday] loop, l.329-344. *)
Definition window_step (lat lon : Z) (tinh : string) (cur block_end : Z) : M unit :=
  log (Block cur block_end) ;;
  df_blk <- fetch_block lat lon cur block_end tinh 6 60 ;;
  match df_blk with
  | Some df =>
      if negb (empty df) then
        blocks <- read_df_blocks ;;
        write_df_blocks (blocks ++ [df]) ;;
        log (Collected df)
      else ret tt
  | None => ret tt
  end ;;
  log (Pause 5 10).

(** The [while cur <= yesterday] loop, l.327-344.  [fuel] bounds the
    number of turns; [window_loop_fuel] shows that the bound the caller
    passes is never reached. *)
Fixpoint window_loop (fuel : nat) (lat lon : Z) (tinh : string) (cur : Z) : M unit :=
  match fuel with
  | O => ret tt
  | S fuel' =>
      if cur <=? yesterday then
        let block_end := Z.min (cur + 365) yesterday in
        window_step lat lon tinh cur block_end ;;
        window_loop fuel' lat lon tinh (block_end + 1)
      else ret tt
  end.

(** The windows that loop walks through, by themselves. *)
Fixpoint windows (fuel : nat) (cur : Z) : list (Z * Z) :=
  match fuel with
  | O => []
  | S fuel' =>
      if cur <=? yesterday then
        let block_end := Z.min (cur + 365) yesterday in
        (cur, block_end) :: windows fuel' (block_end + 1)
      else []
  end.

Definition windows_from (start_date : Z) : list (Z * Z) :=
  windows (Z.to_nat (yesterday - start_date + 1)) start_date.

(** [df_vn = df_new if df_vn.empty else pd.concat([df_vn, df_new])] *)
Definition absorb_blocks : M unit :=
  blocks <- read_df_blocks ;;
  df <- read_df_vn ;;
  let df_new := concat blocks in
  write_df_vn (if empty df then df_new else concat2 df df_new).

Definition tidy_and_save : M unit :=
  df <- read_df_vn ;;
  cleaned <- lift (tidy df) ;;
  write_df_vn cleaned ;;
  log (ToCsv cleaned).

(** The RATE_LIMIT_HARD handler of the window loop, l.346-385. *)
Definition on_runtime_error (e : exn) : M unit :=
  match e with
  | RuntimeError msg =>
      if contains "RATE_LIMIT_HARD" msg then
        blocks <- read_df_blocks ;;
        match blocks with [] => ret tt | _ => absorb_blocks end ;;
        df <- read_df_vn ;;
        (if negb (empty df) then tidy_and_save else ret tt) ;;
        raise e
      else raise e
  | _ => raise e
  end.

(** Lines 388-421: merge the region's blocks into the file. *)
Definition merge_and_persist : M unit :=
  blocks <- read_df_blocks ;;
  match blocks with
  | [] => ret tt
  | _ => absorb_blocks ;; tidy_and_save
  end.

(** The body of [for idx, row in loc_df.iterrows()], l.296-426. *)
Definition crawl_region (row : string * Z * Z) : M unit :=
  let '(tinh, lat, lon) := row in
  df <- read_df_vn ;;
  let start_date := resume_date df tinh in
  if start_date >? yesterday then ret tt
  else
    write_df_blocks [] ;;
    catch (window_loop (Z.to_nat (yesterday - start_date + 1)) lat lon tinh start_date)
          on_runtime_error ;;
    merge_and_persist ;;
    log (Pause 40 80).

Fixpoint crawl_all (loc_df : list (string * Z * Z)) : M unit :=
  match loc_df with
  | [] => ret tt
  | row :: more => crawl_region row ;; crawl_all more
  end.

Definition msg_rerun : string :=
  "⛔ CHƯƠNG TRÌNH DỪNG DO RATE_LIMIT_HARD. HÃY CHẠY LẠI SAU ÍT LÂU.".
Definition msg_other : string := "⛔ DỪNG DO LỖI KHÁC".
Definition msg_done : string := "🎉 HOÀN TẤT CRAWL TOÀN BỘ VIỆT NAM!".

(** The outer [try ... except RuntimeError ... else ...], l.293-436. *)
Definition crawl_guarded (loc_df : list (string * Z * Z)) : M unit :=
  catch (crawl_all loc_df ;; log (Print msg_done))
        (fun e =>
           match e with
           | RuntimeError msg =>
               if contains "RATE_LIMIT_HARD" msg
               then log (Print msg_rerun)
               else log (Print msg_other)
           | _ => raise e
           end).

Definition initial (df : Frame) : World := mkWorld df [] [] O O.

(** The whole script from section 8 on: the exit status of the process and
    the final world.  A caught exception lets the script run to its end
    (status 0); an uncaught one ends it with a traceback (status 1). *)
Definition main (csv : option Frame) (loc_df : list (string * Z * Z)) : Z * World :=
  match load csv with
  | inl _ => (1, initial empty_frame)
  | inr df =>
      match crawl_guarded loc_df (initial df) with
      | (inr _, w) => (0, w)
      | (inl _, w) => (1, w)
      end
  end.

(** What the file at [out_vn_path] holds: the frame of the last [to_csv],
    [None] while the script has not written it. *)
Fixpoint last_saved (t : list event) : option Frame :=
  match t with
  | [] => None
  | e :: t' =>
      match last_saved t' with
      | Some df => Some df
      | None => match e with ToCsv df => Some df | _ => None end
      end
  end.

(** ** Reading the trace *)

Fixpoint gets (t : list event) : list request :=
  match t with
  | [] => []
  | Get q :: t' => q :: gets t'
  | _ :: t' => gets t'
  end.

Fixpoint blocks_of (t : list event) : list (Z * Z) :=
  match t with
  | [] => []
  | Block s e :: t' => (s, e) :: blocks_of t'
  | _ :: t' => blocks_of t'
  end.

Fixpoint collected (t : list event) : list Frame :=
  match t with
  | [] => []
  | Collected df :: t' => df :: collected t'
  | _ :: t' => collected t'
  end.

(** An answer after which [fetch_block] tries again. *)
Definition retryable (r : response) : bool :=
  match r with
  | ConnectionError => true
  | Http status _ => (status =? 429) || is_5xx status
  end.

(** The world after [evs] were recorded, [a] requests sent and [d] random
    numbers drawn. *)
Definition advance (w : World) (evs : list event) (a d : nat) : World :=
  mkWorld (df_vn w) (df_blocks w) (trace w ++ evs) (a + asked w) (d + drawn w).

(** ** Shapes the properties speak of *)



(** An event a fetch of [q] may record. *)
Definition from_fetch (q : request) (e : event) : Prop :=
  e = Get q \/ exists s, e = Sleep s.

Definition stamped (r : Row) : bool :=
  match get "Datetime" r with Stamp _ => true | _ => false end.

Definition timed (r : Row) : bool :=
  match get "Datetime" r with Stamp _ | NA => true | _ => false end.

Definition keyed (df : Frame) : Prop :=
  mem "Tinh_thanh" (columns df) = true /\ mem "Datetime" (columns df) = true.

(** What [df_vn] is at every point of the crawl: every timestamp is a
    Timestamp, and the key columns exist unless there is no row. *)
Definition dataset_ok (df : Frame) : Prop :=
  Forall (fun r => stamped r = true) (rows df) /\ (rows df = [] \/ keyed df).

(** What a frame of [df_blocks] is: a non-empty frame with the key
    columns whose [Datetime] column came out of [pd.to_datetime]. *)
Definition fragment_ok (df : Frame) : Prop :=
  Forall (fun r => timed r = true) (rows df) /\ keyed df /\ empty df = false.

(** A frame the window loop keeps: non-empty and reshaped from a payload. *)
Definition fetched (tinh : string) (df : Frame) : Prop :=
  empty df = false /\ exists data, reshape data tinh = inr df.

Definition key_le (a b : Row) : Prop := key_leb a b = true.

(** The first row of [rs] whose key is [k]. *)
Definition first_with (k : cell * cell) (rs : list Row) : option Row :=
  find (fun r => key_eqb (key r) k) rs.

(** The column order the script keeps: [Tinh_thanh], the code columns
    that exist, the other columns, [Datetime]. *)
Definition column_order (cols : list string) : Prop :=
  exists mid,
    cols = ["Tinh_thanh"] ++ filter (fun sc => mem sc cols) special_cols
                          ++ mid ++ ["Datetime"]
    /\ Forall (fun c => ~ In c (["Tinh_thanh"; "Datetime"] ++ special_cols)) mid.

(** What a merged dataset looks like. *)
Definition tidy_form (df : Frame) : Prop :=
  NoDup (map key (rows df))
  /\ Forall (fun r => stamped r = true) (rows df)
  /\ StronglySorted key_le (rows df)
  /\ column_order (columns df).

(** [c] is a key of the row. *)
Definition bound (c : string) (r : Row) : bool := mem c (map fst r).

(** What the hourly steps of l.197-202 make of one row of the payload. *)
Definition hourly_row (tinh_thanh : string) (r : Row) : Row :=
  let r1 := set "Datetime" (to_datetime (get "time" r)) r in
  let r2 := filter (fun kv : string * cell => negb (String.eqb (fst kv) "time")) r1 in
  let r3 := map (fun kv : string * cell => (renamed COLUMN_MAP (fst kv), snd kv)) r2 in
  let r4 := set "Tinh_thanh" (Text tinh_thanh) r3 in
  set "Date" (dt_date (get "Datetime" r4)) r4.

(** What the daily steps of l.205-218 make of one row of the payload. *)
Definition daily_row (data : payload) (r : Row) : Row :=
  let r1 := set "Date" (dt_date (to_datetime (get "time" r))) r in
  let r2 := filter (fun kv : string * cell => negb (String.eqb (fst kv) "time")) r1 in
  let r3 := map (fun kv : string * cell => (renamed DAILY_COLUMN_MAP (fst kv), snd kv)) r2 in
  let df3 := rename DAILY_COLUMN_MAP
               (drop_column "time"
                  (assign "Date" (fun r => dt_date (to_datetime (get "time" r))) (daily data))) in
  let hm := fun (c : string) (cols : list string) (x : Row) =>
              if mem c cols then set c (strftime_HM (to_datetime (get c x))) x else x in
  hm "Giờ mặt trời lặn" (columns (hm_column "Giờ mặt trời mọc" df3))
     (hm "Giờ mặt trời mọc" (columns df3) r3).

(** [df_vn] after the blocks of a region were merged in (l.389-394 and
    l.352-356). *)
Definition merged (df : Frame) (blocks : list Frame) : Frame :=
  if empty df then concat blocks else concat2 df (concat blocks).

(** Every row the run has had in hand: the loaded file's rows and the
    rows of every frame appended to [df_blocks]. *)
Definition pool (loaded : Frame) (t : list event) : list Row :=
  rows loaded ++ flat_map rows (collected t).

(** Every frame written to the file has the merged form. *)
Definition saves_tidy (t : list event) : Prop :=
  Forall (fun e => match e with ToCsv df => tidy_form df | _ => True end) t.

(** The timestamps the dataset holds for one region. *)
Definition stamps_of (df : Frame) (tinh : string) : list Z :=
  flat_map (fun r =>
              if cell_eqb (get "Tinh_thanh" r) (Text tinh)
              then match to_datetime (get "Datetime" r) with Stamp t => [t] | _ => [] end
              else [])
           (rows df).

(** The bounds every request keeps. *)
Definition bounded (q : request) : Prop :=
  start_date q <= end_date q /\ end_date q <= yesterday /\ end_date q - start_date q <= 365.

(** What holds of the world at every point between two regions. *)
Definition steady (w : World) : Prop :=
  dataset_ok (df_vn w) /\ saves_tidy (trace w) /\ Forall bounded (gets (trace w)).

(** The dataset in memory accounts for every row the run has had in hand,
    and holds nothing else. *)
Definition accounted (loaded : Frame) (w : World) : Prop :=
  (forall r, In r (pool loaded (trace w)) -> stamped r = true ->
             exists r', In r' (rows (df_vn w)) /\ key r' = key r)
  /\ (forall r', In r' (rows (df_vn w)) -> In r' (pool loaded (trace w)))
  /\ (last_saved (trace w) = None \/ last_saved (trace w) = Some (df_vn w)).

(** The largest of [t :: ts]. *)
Fixpoint maximum (t : Z) (ts : list Z) : Z :=
  match ts with
  | [] => t
  | x :: xs => Z.max t (maximum x xs)
  end.

(** The cells an output row of [reshape] takes from the hourly row [l] and
    from the daily row [r]: the row after the steps of its table, under
    the names the merge gives, without the join key. *)
Definition hourly_part (data : payload) (tinh_thanh : string) (l : Row) : Row :=
  filter (fun kv : string * cell => negb (String.eqb (fst kv) "Date"))
    (map (fun kv : string * cell =>
            (suffixed (columns (daily_frame data)) "Date" "_x" (fst kv), snd kv))
       (hourly_row tinh_thanh l)).

Definition daily_part (data : payload) (tinh_thanh : string) (r : Row) : Row :=
  filter (fun kv : string * cell => negb (String.eqb (fst kv) "Date"))
    (map (fun kv : string * cell =>
            (suffixed (columns (hourly_frame data tinh_thanh)) "Date" "_y" (fst kv), snd kv))
       (filter (fun kv : string * cell => negb (String.eqb (fst kv) "Date"))
          (daily_row data r))).

(** The frame the handler looks at after taking in the blocks. *)
Definition at_hard_stop (w : World) : Frame :=
  match df_blocks w with
  | [] => df_vn w
  | _ => merged (df_vn w) (df_blocks w)
  end.

(** ** Further readings of the trace and of a fetch *)

Fixpoint sleeps (t : list event) : list Z :=
  match t with
  | [] => []
  | Sleep s :: t' => s :: sleeps t'
  | _ :: t' => sleeps t'
  end.

Definition total (l : list Z) : Z := fold_right Z.add 0 l.

(** What [fetch_block] returns on an answer it does not retry: the
    reshaped frame for a 200, "no data" for any other status. *)
Definition outcome (tinh_thanh : string) (r : response) : exn + option Frame :=
  match r with
  | Http status data =>
      if status =? 200
      then match reshape data tinh_thanh with
           | inr df => inr (Some df)
           | inl x => inl x
           end
      else inr None
  | ConnectionError => inr None
  end.

(** A cell as [strftime("%H:%M")] leaves it: null, or two digits of hours,
    a colon and two digits of minutes. *)
Definition hh_mm (c : cell) : Prop :=
  c = NA
  \/ exists h m, 0 <= h < 24 /\ 0 <= m < 60
                 /\ c = Text (String.append (two_digits h)
                                (String.append ":" (two_digits m))).

(** The file and the dataset in memory between two regions of a run that
    has not been stopped: nothing collected, nothing written and the
    dataset as loaded, or the file holds the dataset. *)
Definition synced (loaded : Frame) (w : World) : Prop :=
  (collected (trace w) = [] /\ last_saved (trace w) = None /\ df_vn w = loaded)
  \/ (collected (trace w) <> [] /\ last_saved (trace w) = Some (df_vn w)).

(** No name occurs twice. *)
Fixpoint distinct (l : list string) : bool :=
  match l with
  | [] => true
  | c :: l' => negb (mem c l') && distinct l'
  end.

(** * Properties *)

(** ** The retry loop *)

Lemma advance_advance w evs1 a1 d1 evs2 a2 d2 :
  advance (advance w evs1 a1 d1) evs2 a2 d2
  = advance w (evs1 ++ evs2) (a2 + a1) (d2 + d1).
Proof.
  unfold advance; simpl. rewrite <- app_assoc, !Nat.add_assoc. reflexivity.
Qed.

Lemma randint_range a b raw : a <= b -> a <= a + raw mod (b - a + 1) <= b.
Proof.
  intros Hab.
  assert (0 <= raw mod (b - a + 1) < b - a + 1) by (apply Z.mod_pos_bound; lia).
  lia.
Qed.

Lemma attempt_connection_error q tinh base attempt later w :
  server (asked w) q = ConnectionError ->
  attempt_loop q tinh base (attempt :: later) w
  = attempt_loop q tinh base later (advance w [Get q; Sleep (10 * attempt)] 1 0).
Proof.
  intros H. simpl. unfold bind, http_get, sleep, log. rewrite H. simpl.
  unfold advance. simpl. rewrite <- app_assoc. reflexivity.
Qed.

Lemma attempt_429 q tinh base attempt later w body :
  server (asked w) q = Http 429 body ->
  attempt_loop q tinh base (attempt :: later) w
  = attempt_loop q tinh base later
      (advance w [Get q; Sleep (base * attempt + (0 + entropy (drawn w) mod (60 - 0 + 1)))] 1 1).
Proof.
  intros H. simpl. unfold bind, http_get, randint, sleep, log. rewrite H. simpl.
  unfold advance. simpl. rewrite <- app_assoc. reflexivity.
Qed.

Lemma attempt_5xx q tinh base attempt later w status body :
  server (asked w) q = Http status body -> is_5xx status = true ->
  attempt_loop q tinh base (attempt :: later) w
  = attempt_loop q tinh base later (advance w [Get q; Sleep (20 * attempt)] 1 0).
Proof.
  intros H H5. simpl. unfold bind, http_get, sleep, log. rewrite H. simpl.
  assert ((status =? 200) = false) as ->.
  { unfold is_5xx in H5. apply Z.eqb_neq. intros ->. discriminate. }
  assert ((status =? 429) = false) as ->.
  { unfold is_5xx in H5. apply Z.eqb_neq. intros ->. discriminate. }
  rewrite H5. unfold advance. simpl. rewrite <- app_assoc. reflexivity.
Qed.

Lemma attempt_200 q tinh base attempt later w data :
  server (asked w) q = Http 200 data ->
  attempt_loop q tinh base (attempt :: later) w
  = (match reshape data tinh with inr df => inr (Some df) | inl e => inl e end,
     advance w [Get q] 1 0).
Proof.
  intros H. simpl. unfold bind, http_get, lift. rewrite H. simpl.
  destruct (reshape data tinh); reflexivity.
Qed.

Lemma attempt_other q tinh base attempt later w status body :
  server (asked w) q = Http status body ->
  status <> 200 -> retryable (Http status body) = false ->
  attempt_loop q tinh base (attempt :: later) w = (inr None, advance w [Get q] 1 0).
Proof.
  intros H H200 Hr. simpl in Hr. apply orb_false_iff in Hr as [H429 H5].
  simpl. unfold bind, http_get. rewrite H. simpl.
  apply Z.eqb_neq in H200. rewrite H200, H429, H5. reflexivity.
Qed.

(** A raised RuntimeError means every attempt of the list met a
    retryable answer. *)
Lemma attempt_loop_raises q tinh base attempts :
  forall w m w',
    attempt_loop q tinh base attempts w = (inl (RuntimeError m), w') ->
    forall k, (k < List.length attempts)%nat -> retryable (server (k + asked w) q) = true.
Proof.
  induction attempts as [|n later IH]; intros w m w' H k Hk; simpl in Hk; [lia|].
  destruct (server (asked w) q) as [|status body] eqn:E.
  - rewrite (attempt_connection_error _ _ _ _ _ _ E) in H.
    destruct k as [|k]; [simpl; rewrite E; reflexivity|].
    specialize (IH _ _ _ H k ltac:(lia)). simpl in IH.
    replace (S k + asked w)%nat with (k + S (asked w))%nat by lia. exact IH.
  - destruct (Z.eq_dec status 200) as [->|N200].
    + rewrite (attempt_200 _ _ _ _ _ _ _ E) in H.
      unfold reshape in H.
      destruct (negb (mem "time" (columns (hourly body)))); [discriminate|].
      destruct (negb (mem "time" (columns (daily body)))); [discriminate|].
      unfold reorder_columns in H.
      repeat match type of H with
             | context [if ?b then _ else _] => destruct b
             end; discriminate.
    + destruct (retryable (Http status body)) eqn:R.
      * assert (exists d secs,
                  attempt_loop q tinh base (n :: later) w
                  = attempt_loop q tinh base later (advance w [Get q; Sleep secs] 1 d))
          as (d & secs & Hstep).
        { simpl in R. apply orb_true_iff in R as [R|R].
          - apply Z.eqb_eq in R; subst status.
            eexists _, _. apply (attempt_429 _ _ _ _ _ _ _ E).
          - eexists _, _. apply (attempt_5xx _ _ _ _ _ _ _ _ E R). }
        rewrite Hstep in H.
        destruct k as [|k]; [simpl; rewrite E; exact R|].
        specialize (IH _ _ _ H k ltac:(lia)). simpl in IH.
        replace (S k + asked w)%nat with (k + S (asked w))%nat by lia. exact IH.
      * rewrite (attempt_other _ _ _ _ _ _ _ _ E N200 R) in H. discriminate.
Qed.

(** Retryable answers all along the list end in RATE_LIMIT_HARD, after
    one request per attempt. *)
Lemma attempt_loop_exhausted q tinh base attempts :
  forall w,
    (forall k, (k < List.length attempts)%nat -> retryable (server (k + asked w) q) = true) ->
    exists w',
      attempt_loop q tinh base attempts w = (inl (RuntimeError "RATE_LIMIT_HARD"), w')
      /\ asked w' = (List.length attempts + asked w)%nat
      /\ gets (trace w') = gets (trace w) ++ repeat q (List.length attempts)
      /\ df_vn w' = df_vn w /\ df_blocks w' = df_blocks w.
Proof.
  induction attempts as [|n later IH]; intros w H.
  - exists w. simpl. rewrite app_nil_r. repeat split; reflexivity.
  - assert (R : retryable (server (asked w) q) = true) by (apply (H O); simpl; lia).
    assert (exists d secs,
              attempt_loop q tinh base (n :: later) w
              = attempt_loop q tinh base later (advance w [Get q; Sleep secs] 1 d))
      as (d & secs & Hstep).
    { destruct (server (asked w) q) as [|status body] eqn:E.
      - eexists _, _. apply (attempt_connection_error _ _ _ _ _ _ E).
      - simpl in R. apply orb_true_iff in R as [R|R].
        + apply Z.eqb_eq in R; subst status.
          eexists _, _. apply (attempt_429 _ _ _ _ _ _ _ E).
        + eexists _, _. apply (attempt_5xx _ _ _ _ _ _ _ _ E R). }
    destruct (IH (advance w [Get q; Sleep secs] 1 d)) as (w' & Hrun & Ha & Hg & Hv & Hb).
    { intros k Hk. simpl.
      replace (k + S (asked w))%nat with (S k + asked w)%nat by lia.
      apply H. simpl. lia. }
    exists w'. rewrite Hstep, Hrun. simpl in *.
    repeat split; try assumption; try lia.
    rewrite Hg. clear.
    induction (trace w) as [|e t IHt]; simpl; [reflexivity|].
    destruct e; simpl; rewrite ?IHt; reflexivity.
Qed.

Lemma gets_app a b : gets (a ++ b) = gets a ++ gets b.
Proof.
  induction a as [|e a IH]; simpl; [reflexivity|].
  destruct e; simpl; rewrite ?IH; reflexivity.
Qed.

Lemma blocks_of_app a b : blocks_of (a ++ b) = blocks_of a ++ blocks_of b.
Proof.
  induction a as [|e a IH]; simpl; [reflexivity|].
  destruct e; simpl; rewrite ?IH; reflexivity.
Qed.

Lemma collected_app a b : collected (a ++ b) = collected a ++ collected b.
Proof.
  induction a as [|e a IH]; simpl; [reflexivity|].
  destruct e; simpl; rewrite ?IH; reflexivity.
Qed.

(** C3.  A 429 on attempt [n] is followed by one sleep of [60 * n] plus a
    jitter of 0..60 seconds and then by the rest of the attempts; with the
    answers 429, 429, 200 a fetch sleeps twice, 60..120 s and 120..180 s,
    sends three requests and returns the frame reshaped from the third
    answer. *)
Theorem backoff_on_429 :
  (forall q tinh attempt later w body,
      server (asked w) q = Http 429 body ->
      exists jitter,
        0 <= jitter <= 60 /\
        attempt_loop q tinh 60 (attempt :: later) w
        = attempt_loop q tinh 60 later
            (advance w [Get q; Sleep (60 * attempt + jitter)] 1 1))
  /\
  (forall lat lon s e tinh w b1 b2 data,
      server (asked w) (mkRequest lat lon s e) = Http 429 b1 ->
      server (S (asked w)) (mkRequest lat lon s e) = Http 429 b2 ->
      server (S (S (asked w))) (mkRequest lat lon s e) = Http 200 data ->
      exists s1 s2,
        60 <= s1 <= 120 /\ 120 <= s2 <= 180 /\
        fetch_block lat lon s e tinh 6 60 w
        = (match reshape data tinh with inr df => inr (Some df) | inl x => inl x end,
           advance w [Get (mkRequest lat lon s e); Sleep s1;
                      Get (mkRequest lat lon s e); Sleep s2;
                      Get (mkRequest lat lon s e)] 3 2)).
Proof.
  split.
  - intros q tinh attempt later w body H.
    exists (0 + entropy (drawn w) mod (60 - 0 + 1)). split.
    + apply randint_range. lia.
    + apply (attempt_429 _ _ _ _ _ _ _ H).
  - intros lat lon s e tinh w b1 b2 data H1 H2 H3.
    set (q := mkRequest lat lon s e) in *.
    exists (60 * 1 + (0 + entropy (drawn w) mod (60 - 0 + 1))),
           (60 * 2 + (0 + entropy (S (drawn w)) mod (60 - 0 + 1))).
    pose proof (randint_range 0 60 (entropy (drawn w)) ltac:(lia)).
    pose proof (randint_range 0 60 (entropy (S (drawn w))) ltac:(lia)).
    split; [lia|]. split; [lia|].
    unfold fetch_block. fold q. change (range1 6) with [1; 2; 3; 4; 5; 6].
    rewrite (attempt_429 _ _ _ _ _ _ _ H1).
    rewrite (attempt_429 q tinh 60 2 _ _ b2) by exact H2.
    rewrite (attempt_200 q tinh 60 3 _ _ data) by exact H3.
    rewrite !advance_advance. reflexivity.
Qed.

(** C4.  A status outside 200, 429, 500, 502, 503, 504 ends the fetch at
    once with "no data" (one request, no sleep, no further attempt) and the
    window loop goes on to the next window; a fetch raises RATE_LIMIT_HARD
    exactly when all six attempts met a 429, a 5xx or a connection
    failure. *)
Theorem asymmetric_failure_classes :
  (forall q tinh base attempt later w status body,
      server (asked w) q = Http status body ->
      ~ In status [200; 429; 500; 502; 503; 504] ->
      attempt_loop q tinh base (attempt :: later) w = (inr None, advance w [Get q] 1 0))
  /\
  (forall fuel lat lon tinh cur w w1,
      cur <= yesterday ->
      fetch_block lat lon cur (Z.min (cur + 365) yesterday) tinh 6 60
        (advance w [Block cur (Z.min (cur + 365) yesterday)] 0 0) = (inr None, w1) ->
      window_loop (S fuel) lat lon tinh cur w
      = window_loop fuel lat lon tinh (Z.min (cur + 365) yesterday + 1)
          (advance w1 [Pause 5 10] 0 0))
  /\
  (forall lat lon s e tinh w,
      (forall k, (k < 6)%nat -> retryable (server (k + asked w) (mkRequest lat lon s e)) = true)
      <->
      (exists w', fetch_block lat lon s e tinh 6 60 w
                  = (inl (RuntimeError "RATE_LIMIT_HARD"), w'))).
Proof.
  split; [|split].
  - intros q tinh base attempt later w status body H Hn.
    apply (attempt_other _ _ _ _ _ _ _ _ H).
    + intros ->. apply Hn. simpl. auto.
    + simpl. unfold is_5xx.
      repeat match goal with
             | |- context [?a =? ?b] =>
                 destruct (Z.eqb_spec a b); [exfalso; apply Hn; simpl; subst; auto 10|]
             end.
      reflexivity.
  - intros fuel lat lon tinh cur w w1 Hle H.
    simpl. apply Z.leb_le in Hle. rewrite Hle.
    unfold window_step.
    unfold advance in H. simpl in H.
    unfold bind at 1. unfold bind at 1. unfold log at 1.
    unfold bind at 1. rewrite H.
    unfold bind, ret, log, advance. simpl. reflexivity.
  - intros lat lon s e tinh w. split.
    + intros H.
      destruct (attempt_loop_exhausted (mkRequest lat lon s e) tinh 60 (range1 6) w H)
        as (w' & Hrun & _).
      exists w'. exact Hrun.
    + intros [w' H] k Hk.
      apply (attempt_loop_raises _ _ _ _ _ _ _ H). exact Hk.
Qed.

(** ** The windows *)


Lemma windows_bounds fuel :
  forall cur s e, In (s, e) (windows fuel cur) ->
                  cur <= s /\ s <= e /\ e <= yesterday /\ e - s <= 365.
Proof.
  induction fuel as [|fuel IH]; intros cur s e H; simpl in H; [contradiction|].
  destruct (Z.leb_spec cur yesterday); simpl in H; [|contradiction].
  destruct H as [H|H].
  - inversion H; subst. lia.
  - apply IH in H. lia.
Qed.


Lemma windows_enough f1 :
  forall f2 cur,
    (Z.to_nat (yesterday - cur + 1) <= f1)%nat ->
    (Z.to_nat (yesterday - cur + 1) <= f2)%nat ->
    windows f1 cur = windows f2 cur.
Proof.
  induction f1 as [|f1 IH]; intros f2 cur H1 H2.
  - destruct f2 as [|f2]; [reflexivity|]. simpl.
    destruct (Z.leb_spec cur yesterday); [lia | reflexivity].
  - simpl. destruct (Z.leb_spec cur yesterday) as [Hc|Hc].
    + destruct f2 as [|f2]; [lia|]. simpl.
      apply Z.leb_le in Hc. rewrite Hc. apply Z.leb_le in Hc.
      f_equal. apply IH; lia.
    + destruct f2 as [|f2]; [reflexivity|]. simpl.
      apply Z.leb_gt in Hc. rewrite Hc. reflexivity.
Qed.

Lemma windows_fuel fuel cur :
  (Z.to_nat (yesterday - cur + 1) <= fuel)%nat -> windows fuel cur = windows_from cur.
Proof.
  intros H. unfold windows_from. apply windows_enough; lia.
Qed.

(** ** What one fetch and one window leave behind *)

Lemma advance_nil w : advance w [] 0 0 = w.
Proof. destruct w. unfold advance. simpl. rewrite app_nil_r. reflexivity. Qed.

Lemma last_saved_app a b :
  last_saved (a ++ b)
  = match last_saved b with Some df => Some df | None => last_saved a end.
Proof.
  induction a as [|e a IH]; simpl.
  - destruct (last_saved b); reflexivity.
  - rewrite IH. destruct (last_saved b); reflexivity.
Qed.

Lemma fetch_events q new :
  Forall (from_fetch q) new ->
  Forall (eq q) (gets new) /\ blocks_of new = [] /\ collected new = []
  /\ last_saved new = None.
Proof.
  induction 1 as [|e new He _ (IH1 & IH2 & IH3 & IH4)]; simpl.
  - repeat split; constructor.
  - destruct He as [->|[s ->]]; simpl; rewrite ?IH4; repeat split; auto.
Qed.

Lemma attempt_cases q tinh base n later w :
  (exists secs d,
      attempt_loop q tinh base (n :: later) w
      = attempt_loop q tinh base later (advance w [Get q; Sleep secs] 1 d))
  \/ attempt_loop q tinh base (n :: later) w = (inr None, advance w [Get q] 1 0)
  \/ (exists data,
         attempt_loop q tinh base (n :: later) w
         = (match reshape data tinh with inr df => inr (Some df) | inl x => inl x end,
            advance w [Get q] 1 0)).
Proof.
  destruct (server (asked w) q) as [|status body] eqn:E.
  - left. eexists _, _. apply (attempt_connection_error _ _ _ _ _ _ E).
  - destruct (Z.eq_dec status 200) as [->|N200].
    + right; right. exists body. apply (attempt_200 _ _ _ _ _ _ _ E).
    + destruct (retryable (Http status body)) eqn:R.
      * left. simpl in R. apply orb_true_iff in R as [R|R].
        -- apply Z.eqb_eq in R; subst status.
           eexists _, _. apply (attempt_429 _ _ _ _ _ _ _ E).
        -- eexists _, _. apply (attempt_5xx _ _ _ _ _ _ _ _ E R).
      * right; left. apply (attempt_other _ _ _ _ _ _ _ _ E N200 R).
Qed.

Lemma reshape_raises data tinh e : reshape data tinh = inl e -> exists k, e = KeyError k.
Proof.
  unfold reshape, reorder_columns.
  repeat match goal with
         | |- context [if ?b then _ else _] => destruct b
         end; intros H; inversion H; eauto.
Qed.

Lemma attempt_loop_spec q tinh base attempts :
  forall w res w',
    attempt_loop q tinh base attempts w = (res, w') ->
    exists new a d,
      w' = advance w new a d
      /\ Forall (from_fetch q) new
      /\ (forall df, res = inr (Some df) -> exists data, reshape data tinh = inr df)
      /\ (forall e, res = inl e ->
                    e = RuntimeError "RATE_LIMIT_HARD" \/ exists k, e = KeyError k).
Proof.
  induction attempts as [|n later IH]; intros w res w' H.
  - simpl in H. inversion H; subst. exists [], O, O.
    rewrite advance_nil. repeat split; [constructor | discriminate |].
    intros e He. inversion He. auto.
  - destruct (attempt_cases q tinh base n later w) as [(secs & d & Hs)|[Hs|(data & Hs)]];
      rewrite Hs in H.
    + apply IH in H as (new & a & d' & -> & Hall & Hres & Hexn).
      exists ([Get q; Sleep secs] ++ new), (a + 1)%nat, (d' + d)%nat.
      rewrite advance_advance. repeat split; auto.
      constructor; [left; reflexivity|]. constructor; [right; eauto | exact Hall].
    + inversion H; subst. exists [Get q], 1%nat, O.
      repeat split; try discriminate. constructor; [left; reflexivity | constructor].
    + inversion H; subst. exists [Get q], 1%nat, O.
      repeat split.
      * constructor; [left; reflexivity | constructor].
      * intros df Hdf. exists data. destruct (reshape data tinh); inversion Hdf; reflexivity.
      * intros e He. right. destruct (reshape data tinh) eqn:R; inversion He; subst.
        eapply reshape_raises; eauto.
Qed.

Lemma window_step_spec lat lon tinh cur block_end w res w' :
  window_step lat lon tinh cur block_end w = (res, w') ->
  exists new,
    trace w' = trace w ++ new
    /\ df_vn w' = df_vn w
    /\ df_blocks w' = df_blocks w ++ collected new
    /\ blocks_of new = [(cur, block_end)]
    /\ Forall (eq (mkRequest lat lon cur block_end)) (gets new)
    /\ last_saved new = None
    /\ Forall (fetched tinh) (collected new)
    /\ (forall e, res = inl e ->
                  e = RuntimeError "RATE_LIMIT_HARD" \/ exists k, e = KeyError k).
Proof.
  unfold window_step. unfold bind at 1. unfold log at 1. unfold bind at 1.
  destruct (fetch_block lat lon cur block_end tinh 6 60 _) as [r w2] eqn:F.
  unfold fetch_block in F.
  apply attempt_loop_spec in F as (new & a & d & -> & Hall & Hres & Hexn).
  destruct (fetch_events _ _ Hall) as (Hg & Hb & Hc & Hs).
  destruct r as [e|[df|]].
  - intros H; inversion H; subst; clear H.
    exists (Block cur block_end :: new). simpl.
    rewrite Hb, Hc, Hs, app_nil_r, <- app_assoc. simpl.
    repeat split; auto. intros e' He'. inversion He'; subst. auto.
  - destruct (empty df) eqn:Em; simpl.
    + unfold bind, ret, log. simpl. intros H; inversion H; subst; clear H.
      exists (Block cur block_end :: new ++ [Pause 5 10]). simpl.
      rewrite blocks_of_app, collected_app, gets_app, last_saved_app, Hb, Hc, Hs.
      simpl. rewrite !app_nil_r, <- !app_assoc. simpl.
      repeat split; auto; discriminate.
    + unfold bind, ret, log, read_df_blocks, write_df_blocks. simpl.
      intros H; inversion H; subst; clear H.
      exists (Block cur block_end :: new ++ [Collected df; Pause 5 10]). simpl.
      rewrite blocks_of_app, collected_app, gets_app, last_saved_app, Hb, Hc, Hs.
      simpl. rewrite !app_nil_r, <- !app_assoc. simpl.
      repeat split; auto; try discriminate.
      repeat constructor; [exact Em | apply Hres; reflexivity].
  - unfold bind, ret, log. simpl. intros H; inversion H; subst; clear H.
    exists (Block cur block_end :: new ++ [Pause 5 10]). simpl.
    rewrite blocks_of_app, collected_app, gets_app, last_saved_app, Hb, Hc, Hs.
    simpl. rewrite !app_nil_r, <- !app_assoc. simpl.
    repeat split; auto; discriminate.
Qed.

Lemma window_loop_spec fuel lat lon tinh :
  forall cur w res w',
    window_loop fuel lat lon tinh cur w = (res, w') ->
    exists new,
      trace w' = trace w ++ new
      /\ df_vn w' = df_vn w
      /\ df_blocks w' = df_blocks w ++ collected new
      /\ (exists rest, windows fuel cur = blocks_of new ++ rest)
      /\ (res = inr tt -> blocks_of new = windows fuel cur)
      /\ Forall (fun q => exists s e, In (s, e) (blocks_of new) /\ q = mkRequest lat lon s e)
                (gets new)
      /\ last_saved new = None
      /\ Forall (fetched tinh) (collected new)
      /\ (forall e, res = inl e ->
                    e = RuntimeError "RATE_LIMIT_HARD" \/ exists k, e = KeyError k).
Proof.
  induction fuel as [|fuel IH]; intros cur w res w' H; simpl in H.
  - inversion H; subst. exists []. simpl. rewrite !app_nil_r.
    repeat split; auto; try discriminate. exists []. reflexivity.
  - destruct (cur <=? yesterday) eqn:Hc.
    2:{ inversion H; subst. exists []. simpl. rewrite Hc, !app_nil_r.
        repeat split; auto; try discriminate. exists []. reflexivity. }
    unfold bind in H.
    destruct (window_step lat lon tinh cur (Z.min (cur + 365) yesterday) w) as [r1 w1] eqn:S1.
    apply window_step_spec in S1
      as (new1 & Ht1 & Hv1 & Hb1 & Hw1 & Hg1 & Hs1 & Hf1 & He1).
    destruct r1 as [e|[]].
    + inversion H; subst. exists new1. simpl. rewrite Hc, Hw1.
      repeat split; auto; try discriminate.
      * eexists. reflexivity.
      * eapply Forall_impl; [|exact Hg1]. intros q <-.
        eexists _, _. split; [left; reflexivity | reflexivity].
    + apply IH in H as (new2 & Ht2 & Hv2 & Hb2 & (rest & Hw2) & Hr2 & Hg2 & Hs2 & Hf2 & He2).
      exists (new1 ++ new2). simpl. rewrite Hc.
      rewrite blocks_of_app, collected_app, gets_app, last_saved_app, Hw1, Hs1, Hs2.
      repeat split.
      * rewrite Ht2, Ht1, app_assoc. reflexivity.
      * congruence.
      * rewrite Hb2, Hb1, app_assoc. reflexivity.
      * exists rest. simpl. rewrite Hw2. reflexivity.
      * intros Hres. simpl. rewrite (Hr2 Hres). reflexivity.
      * apply Forall_app. split.
        -- eapply Forall_impl; [|exact Hg1]. intros q <-.
           eexists _, _. split; [left; reflexivity | reflexivity].
        -- eapply Forall_impl; [|exact Hg2]. intros q (s & e & Hin & ->).
           eexists _, _. split; [right; exact Hin | reflexivity].
      * apply Forall_app. split; assumption.
      * exact He2.
Qed.

(** The bound [crawl_region] passes is never the reason the loop stops:
    any larger bound gives the same run. *)
Lemma window_loop_fuel f1 lat lon tinh :
  forall f2 cur w,
    (Z.to_nat (yesterday - cur + 1) <= f1)%nat ->
    (Z.to_nat (yesterday - cur + 1) <= f2)%nat ->
    window_loop f1 lat lon tinh cur w = window_loop f2 lat lon tinh cur w.
Proof.
  induction f1 as [|f1 IH]; intros f2 cur w H1 H2.
  - destruct f2 as [|f2]; [reflexivity|]. simpl.
    destruct (Z.leb_spec cur yesterday); [lia | reflexivity].
  - simpl. destruct (Z.leb_spec cur yesterday) as [Hc|Hc].
    + destruct f2 as [|f2]; [lia|]. simpl.
      apply Z.leb_le in Hc. rewrite Hc. apply Z.leb_le in Hc.
      unfold bind.
      destruct (window_step lat lon tinh cur (Z.min (cur + 365) yesterday) w) as [[e|[]] w1];
        [reflexivity|].
      apply IH; lia.
    + destruct f2 as [|f2]; [reflexivity|]. simpl.
      apply Z.leb_gt in Hc. rewrite Hc. reflexivity.
Qed.

(** ** Keys, duplicates and order *)

Lemma cell_eqb_eq a b : cell_eqb a b = true <-> a = b.
Proof.
  destruct a, b; simpl; split; intros H; try discriminate; try reflexivity;
    try (apply Z.eqb_eq in H; congruence);
    try (apply String.eqb_eq in H; congruence);
    try (inversion H; subst; apply Z.eqb_refl);
    try (inversion H; subst; apply String.eqb_refl).
Qed.

Lemma key_eqb_eq a b : key_eqb a b = true <-> a = b.
Proof.
  unfold key_eqb. destruct a as [a1 a2], b as [b1 b2]. simpl.
  rewrite andb_true_iff, !cell_eqb_eq. split; [intros [-> ->]; reflexivity|].
  intros H; inversion H; auto.
Qed.

Lemma key_eqb_refl a : key_eqb a a = true.
Proof. apply key_eqb_eq. reflexivity. Qed.

Lemma key_eqb_neq a b : key_eqb a b = false <-> a <> b.
Proof.
  split.
  - intros H E. apply key_eqb_eq in E. congruence.
  - intros H. destruct (key_eqb a b) eqn:E; [|reflexivity].
    apply key_eqb_eq in E. contradiction.
Qed.

Lemma seen_spec k seen : existsb (key_eqb k) seen = true <-> In k seen.
Proof.
  rewrite existsb_exists. split.
  - intros (x & Hx & E). apply key_eqb_eq in E. subst. exact Hx.
  - intros H. exists k. split; [exact H | apply key_eqb_refl].
Qed.

Lemma dedup_in rs : forall seen r,
    In r (drop_duplicates_from seen rs) -> In r rs /\ ~ In (key r) seen.
Proof.
  induction rs as [|x rs IH]; intros seen r H; simpl in H; [contradiction|].
  destruct (existsb (key_eqb (key x)) seen) eqn:E.
  - apply IH in H as [H1 H2]. split; [right; exact H1 | exact H2].
  - destruct H as [->|H].
    + split; [left; reflexivity|]. intros Hin. apply seen_spec in Hin. congruence.
    + apply IH in H as [H1 H2]. split; [right; exact H1|].
      intros Hin. apply H2. right. exact Hin.
Qed.

Lemma dedup_nodup rs : forall seen, NoDup (map key (drop_duplicates_from seen rs)).
Proof.
  induction rs as [|x rs IH]; intros seen; simpl; [constructor|].
  destruct (existsb (key_eqb (key x)) seen); [apply IH|].
  simpl. constructor; [|apply IH].
  intros Hin. apply in_map_iff in Hin as (r & Hk & Hr).
  apply dedup_in in Hr as [_ Hr]. apply Hr. left. symmetry. exact Hk.
Qed.

Lemma dedup_first rs : forall seen r,
    In r (drop_duplicates_from seen rs) -> first_with (key r) rs = Some r.
Proof.
  unfold first_with.
  induction rs as [|x rs IH]; intros seen r H; simpl in H; [contradiction|]. simpl.
  destruct (existsb (key_eqb (key x)) seen) eqn:E.
  - pose proof (dedup_in _ _ _ H) as [_ Hn].
    apply seen_spec in E.
    assert (key x <> key r) as N by (intros Eq; rewrite Eq in E; contradiction).
    apply key_eqb_neq in N. rewrite N. eapply IH; eassumption.
  - destruct H as [->|H]; [rewrite key_eqb_refl; reflexivity|].
    pose proof (dedup_in _ _ _ H) as [_ Hn].
    assert (key x <> key r) as N by (intros Eq; apply Hn; left; exact Eq).
    apply key_eqb_neq in N. rewrite N. eapply IH; eassumption.
Qed.

Lemma first_dedup rs : forall seen k r,
    first_with k rs = Some r -> ~ In k seen -> In r (drop_duplicates_from seen rs).
Proof.
  unfold first_with.
  induction rs as [|x rs IH]; intros seen k r H Hn; simpl in H; [discriminate|]. simpl.
  destruct (key_eqb (key x) k) eqn:E.
  - inversion H; subst. apply key_eqb_eq in E. subst k.
    destruct (existsb (key_eqb (key r)) seen) eqn:S; [|left; reflexivity].
    apply seen_spec in S. contradiction.
  - apply key_eqb_neq in E.
    destruct (existsb (key_eqb (key x)) seen).
    + eapply IH; eassumption.
    + right. eapply IH; [eassumption|]. intros [Hin|Hin]; contradiction.
Qed.

Lemma first_with_in k rs r : first_with k rs = Some r -> In r rs /\ key r = k.
Proof.
  unfold first_with. intros H. apply find_some in H as [H1 H2].
  apply key_eqb_eq in H2. auto.
Qed.

Lemma first_with_some rs r : In r rs -> exists r', first_with (key r) rs = Some r'.
Proof.
  unfold first_with. intros H.
  destruct (find (fun x => key_eqb (key x) (key r)) rs) eqn:F; [eauto|].
  exfalso. eapply find_none in F; [|exact H]. simpl in F.
  rewrite key_eqb_refl in F. discriminate.
Qed.


Lemma cell_compare_antisym a b : cell_compare a b = CompOpp (cell_compare b a).
Proof.
  destruct a, b; simpl; try reflexivity;
    try apply Z.compare_antisym; apply String.compare_antisym.
Qed.

Lemma key_leb_total a b : key_leb a b = false -> key_leb b a = true.
Proof.
  unfold key_leb, cell_leb.
  rewrite (cell_compare_antisym (get "Tinh_thanh" b) (get "Tinh_thanh" a)).
  rewrite (cell_compare_antisym (get "Datetime" b) (get "Datetime" a)).
  destruct (cell_compare (get "Tinh_thanh" a) (get "Tinh_thanh" b)); simpl;
    try discriminate; try reflexivity.
  destruct (cell_compare (get "Datetime" a) (get "Datetime" b)); simpl;
    try discriminate; reflexivity.
Qed.

Lemma insert_row_perm r l : Permutation (r :: l) (insert_row r l).
Proof.
  induction l as [|x l IH]; simpl; [reflexivity|].
  destruct (key_leb r x); [reflexivity|].
  rewrite perm_swap. constructor. exact IH.
Qed.

Lemma sort_rows_perm l : Permutation l (sort_rows l).
Proof.
  induction l as [|x l IH]; simpl; [constructor|].
  rewrite <- insert_row_perm. constructor. exact IH.
Qed.

Lemma insert_row_hd r a l :
  key_le a r -> HdRel key_le a l -> HdRel key_le a (insert_row r l).
Proof.
  intros Har H. destruct l as [|x l]; simpl; [constructor; exact Har|].
  destruct (key_leb r x); constructor; [exact Har|].
  inversion H; assumption.
Qed.

Lemma insert_row_sorted r l : Sorted key_le l -> Sorted key_le (insert_row r l).
Proof.
  induction 1 as [|x l Hs IH Hd]; simpl; [repeat constructor|].
  destruct (key_leb r x) eqn:E.
  - constructor; [constructor; assumption|]. constructor. exact E.
  - constructor; [exact IH|]. apply insert_row_hd; [|exact Hd].
    apply key_leb_total. exact E.
Qed.

Lemma sort_rows_sorted l : Sorted key_le (sort_rows l).
Proof.
  induction l as [|x l IH]; simpl; [constructor|].
  apply insert_row_sorted. exact IH.
Qed.

Lemma string_compare_lt_trans a b c :
  String.compare a b = Lt -> String.compare b c = Lt -> String.compare a c = Lt.
Proof.
  intros H1 H2.
  apply OrderedTypeEx.String_as_OT.cmp_lt in H1, H2.
  apply OrderedTypeEx.String_as_OT.cmp_lt.
  eapply OrderedTypeEx.String_as_OT.lt_trans; eassumption.
Qed.

Lemma cell_compare_eq a b : cell_compare a b = Eq -> a = b.
Proof.
  destruct a, b; simpl; intros H; try discriminate; try reflexivity;
    try (apply Z.compare_eq in H; congruence).
  apply String.compare_eq_iff in H. congruence.
Qed.

Lemma cell_compare_lt_trans a b c :
  cell_compare a b = Lt -> cell_compare b c = Lt -> cell_compare a c = Lt.
Proof.
  destruct a, b, c; simpl; intros H1 H2; try discriminate; try reflexivity;
    try (rewrite Z.compare_lt_iff in *; lia).
  eapply string_compare_lt_trans; eassumption.
Qed.

Lemma cell_compare_refl a : cell_compare a a = Eq.
Proof.
  pose proof (cell_compare_antisym a a) as H.
  destruct (cell_compare a a); simpl in H; [reflexivity | discriminate | discriminate].
Qed.

Lemma cell_leb_trans a b c : cell_leb a b = true -> cell_leb b c = true -> cell_leb a c = true.
Proof.
  unfold cell_leb. intros H1 H2.
  destruct (cell_compare a b) eqn:D1; try discriminate;
    destruct (cell_compare b c) eqn:D2; try discriminate.
  - apply cell_compare_eq in D1. subst b. rewrite D2. reflexivity.
  - apply cell_compare_eq in D1. subst b. rewrite D2. reflexivity.
  - apply cell_compare_eq in D2. subst c. rewrite D1. reflexivity.
  - rewrite (cell_compare_lt_trans _ _ _ D1 D2). reflexivity.
Qed.

Lemma key_leb_trans a b c : key_le a b -> key_le b c -> key_le a c.
Proof.
  unfold key_le, key_leb. intros H1 H2.
  destruct (cell_compare (get "Tinh_thanh" a) (get "Tinh_thanh" b)) eqn:R1;
    try discriminate;
    destruct (cell_compare (get "Tinh_thanh" b) (get "Tinh_thanh" c)) eqn:R2;
    try discriminate.
  - apply cell_compare_eq in R1, R2. rewrite R1, R2, cell_compare_refl.
    eapply cell_leb_trans; eassumption.
  - apply cell_compare_eq in R1. rewrite R1, R2. reflexivity.
  - apply cell_compare_eq in R2. rewrite <- R2, R1. reflexivity.
  - rewrite (cell_compare_lt_trans _ _ _ R1 R2). reflexivity.
Qed.

Lemma sort_rows_strongly l : StronglySorted key_le (sort_rows l).
Proof.
  apply Sorted_StronglySorted.
  - intros a b c. apply key_leb_trans.
  - apply sort_rows_sorted.
Qed.

(** ** Rows and columns *)

Lemma mem_spec c l : mem c l = true <-> In c l.
Proof.
  unfold mem. rewrite existsb_exists. split.
  - intros (x & Hx & E). apply String.eqb_eq in E. subst. exact Hx.
  - intros H. exists c. split; [exact H | apply String.eqb_refl].
Qed.

Lemma mem_app c a b : mem c (a ++ b) = mem c a || mem c b.
Proof. unfold mem. apply existsb_app. Qed.

Lemma mem_filter c f l : mem c (filter f l) = f c && mem c l.
Proof.
  induction l as [|x l IH]; simpl; [rewrite andb_false_r; reflexivity|].
  destruct (f x) eqn:Fx; simpl; rewrite IH.
  - destruct (String.eqb_spec c x) as [->|N]; simpl.
    + rewrite Fx. reflexivity.
    + reflexivity.
  - destruct (String.eqb_spec c x) as [->|N]; simpl.
    + rewrite Fx. reflexivity.
    + reflexivity.
Qed.

Lemma get_set_same c v r : get c (set c v r) = v.
Proof.
  induction r as [|[k x] r IH]; simpl.
  - rewrite String.eqb_refl. reflexivity.
  - destruct (String.eqb k c) eqn:E; simpl; rewrite E; [reflexivity | exact IH].
Qed.

Lemma get_set_other c c' v r : c <> c' -> get c' (set c v r) = get c' r.
Proof.
  intros N. induction r as [|[k x] r IH]; simpl.
  - apply String.eqb_neq in N. rewrite N. reflexivity.
  - destruct (String.eqb k c) eqn:E; simpl.
    + apply String.eqb_eq in E. subst k. apply String.eqb_neq in N. rewrite N. reflexivity.
    + rewrite IH. reflexivity.
Qed.

Lemma set_same c v r : get c r = v -> v <> NA -> set c v r = r.
Proof.
  intros H N. induction r as [|[k x] r IH]; simpl in *; [congruence|].
  destruct (String.eqb k c); [congruence|]. rewrite IH; auto.
Qed.

Lemma ordered_cols_order df : column_order (ordered_cols df).
Proof.
  exists (filter (fun c => negb (mem c (["Tinh_thanh"; "Datetime"] ++ special_cols)))
                 (columns df)).
  split.
  - unfold ordered_cols. f_equal. f_equal.
    apply filter_ext_in. intros sc Hsc.
    change (["Tinh_thanh"] ++ ?l) with ("Tinh_thanh" :: l).
    assert (forall c rest, mem c ("Tinh_thanh" :: rest)
                           = String.eqb c "Tinh_thanh" || mem c rest) as Hcons
        by reflexivity.
    rewrite Hcons, !mem_app, !mem_filter.
    simpl in Hsc. destruct Hsc as [<-|[<-|[]]]; cbv beta;
      match goal with
      | |- context [mem ?s (columns df)] => generalize (mem s (columns df))
      end; intros b; destruct b; vm_compute; reflexivity.
  - apply Forall_forall. intros c Hc. apply filter_In in Hc as [_ Hc].
    apply negb_true_iff in Hc. intros Hin. apply mem_spec in Hin. congruence.
Qed.

(** ** The cleaning steps on a frame whose [Datetime] column is typed *)

Lemma timed_cases r :
  timed r = true ->
  (exists t, get "Datetime" r = Stamp t) \/ get "Datetime" r = NA.
Proof.
  unfold timed. destruct (get "Datetime" r); try discriminate; eauto.
Qed.

Lemma stamped_timed r : stamped r = true -> timed r = true.
Proof. unfold stamped, timed. destruct (get "Datetime" r); auto. Qed.

Lemma coerce_dropna_timed l :
  Forall (fun r => timed r = true) l ->
  filter (fun r => negb (is_na (get "Datetime" r)))
         (map (fun r => set "Datetime" (to_datetime (get "Datetime" r)) r) l)
  = filter stamped l.
Proof.
  induction 1 as [|r l Hr _ IH]; simpl; [reflexivity|].
  rewrite get_set_same, IH.
  assert (Hst : stamped r = negb (is_na (to_datetime (get "Datetime" r)))).
  { unfold stamped. destruct (timed_cases _ Hr) as [[t E]|E]; rewrite E; reflexivity. }
  rewrite <- Hst. destruct (stamped r) eqn:S; [|reflexivity].
  unfold stamped in S. destruct (get "Datetime" r) eqn:E; try discriminate.
  simpl. rewrite set_same; [reflexivity | exact E | discriminate].
Qed.

Lemma dedup_timed rs seen :
  Forall (fun r => timed r = true) rs ->
  Forall (fun r => timed r = true) (drop_duplicates_from seen rs).
Proof.
  intros H. apply Forall_forall. intros r Hr.
  apply dedup_in in Hr as [Hr _]. rewrite Forall_forall in H. auto.
Qed.

Lemma reorder_columns_inr df out :
  reorder_columns df = inr out
  <-> keyed df /\ out = mkFrame (ordered_cols df) (rows df).
Proof.
  unfold reorder_columns, keyed.
  destruct (mem "Tinh_thanh" (columns df)); simpl.
  - destruct (mem "Datetime" (columns df)); simpl.
    + split; [intros H; inversion H; auto | intros [_ ->]; reflexivity].
    + split; [discriminate | intros [[_ H] _]; discriminate].
  - split; [discriminate | intros [[H _] _]; discriminate].
Qed.

Lemma cleaned_columns df :
  mem "Datetime" (columns df) = true ->
  columns (sort_values (dropna (coerce_datetime (drop_duplicates df)))) = columns df.
Proof.
  intros H. unfold sort_values, dropna, coerce_datetime, assign, drop_duplicates.
  cbn [columns rows]. rewrite H. reflexivity.
Qed.

Lemma ordered_cols_ext a b : columns a = columns b -> ordered_cols a = ordered_cols b.
Proof. unfold ordered_cols. intros ->. reflexivity. Qed.

Lemma tidy_keyed df out : tidy df = inr out -> keyed df /\ columns out = ordered_cols df.
Proof.
  unfold tidy.
  destruct (mem "Tinh_thanh" (columns df)) eqn:E1; cbn [negb]; [|discriminate].
  destruct (mem "Datetime" (columns df)) eqn:E2; cbn [negb]; [|discriminate].
  intros H. apply reorder_columns_inr in H as [_ ->]. cbn [columns].
  split; [split; assumption|].
  apply ordered_cols_ext. apply cleaned_columns. exact E2.
Qed.

Lemma tidy_spec df :
  keyed df -> Forall (fun r => timed r = true) (rows df) ->
  exists out,
    tidy df = inr out
    /\ rows out = sort_rows (filter stamped (drop_duplicates_from [] (rows df)))
    /\ columns out = ordered_cols df.
Proof.
  intros [K1 K2] Ht. unfold tidy. rewrite K1, K2. cbn [negb].
  eexists. split.
  - apply reorder_columns_inr. split; [|reflexivity].
    unfold keyed. rewrite cleaned_columns by exact K2. auto.
  - cbn [rows columns]. split.
    + unfold sort_values, dropna, coerce_datetime, assign, drop_duplicates.
      cbn [rows columns].
      rewrite coerce_dropna_timed by (apply dedup_timed; exact Ht). reflexivity.
    + apply ordered_cols_ext. apply cleaned_columns. exact K2.
Qed.

Lemma NoDup_map_filter {A B} (f : A -> B) (p : A -> bool) l :
  NoDup (map f l) -> NoDup (map f (filter p l)).
Proof.
  induction l as [|x l IH]; simpl; intros H; [constructor|].
  inversion H; subst. destruct (p x); simpl; [|auto].
  constructor; [|auto]. intros Hin. apply H2.
  apply in_map_iff in Hin as (y & Hy & Hin). apply filter_In in Hin as [Hin _].
  apply in_map_iff. eauto.
Qed.

Lemma cleaned_in rs r :
  In r (sort_rows (filter stamped (drop_duplicates_from [] rs)))
  <-> first_with (key r) rs = Some r /\ stamped r = true.
Proof.
  split.
  - intros H. apply (Permutation_in _ (Permutation_sym (sort_rows_perm _))) in H.
    apply filter_In in H as [H Hs]. split; [|exact Hs].
    eapply dedup_first; eassumption.
  - intros [H Hs]. apply (Permutation_in _ (sort_rows_perm _)).
    apply filter_In. split; [|exact Hs].
    eapply first_dedup; [eassumption | intros []].
Qed.

Lemma cleaned_form rs cols :
  column_order cols ->
  tidy_form (mkFrame cols (sort_rows (filter stamped (drop_duplicates_from [] rs)))).
Proof.
  intros Hc. unfold tidy_form. simpl. repeat split.
  - eapply Permutation_NoDup.
    + apply Permutation_map. apply sort_rows_perm.
    + apply NoDup_map_filter. apply dedup_nodup.
  - eapply Permutation_Forall; [apply sort_rows_perm|].
    apply Forall_forall. intros r Hr. apply filter_In in Hr as [_ Hr]. exact Hr.
  - apply sort_rows_strongly.
  - exact Hc.
Qed.

Lemma tidy_gives_form df out :
  Forall (fun r => timed r = true) (rows df) -> tidy df = inr out -> tidy_form out.
Proof.
  intros Ht H. pose proof (tidy_keyed _ _ H) as [K _].
  destruct (tidy_spec df K Ht) as (out' & H' & Hr & Hc).
  rewrite H in H'. inversion H'; subst out'.
  destruct out as [cols rs]. simpl in *. subst.
  apply cleaned_form. apply ordered_cols_order.
Qed.

(** ** The reshaping of a payload, row by row *)

Lemma hourly_frame_rows data tinh :
  rows (hourly_frame data tinh) = map (hourly_row tinh) (rows (hourly data)).
Proof.
  unfold hourly_frame, assign, drop_column, rename, hourly_row. cbn [rows columns].
  rewrite !map_map. reflexivity.
Qed.

Lemma hm_column_rows c df :
  rows (hm_column c df)
  = map (fun x => if mem c (columns df)
                  then set c (strftime_HM (to_datetime (get c x))) x else x) (rows df).
Proof.
  unfold hm_column. destruct (mem c (columns df)); [reflexivity|].
  rewrite map_id. reflexivity.
Qed.

Lemma daily_frame_rows data :
  rows (daily_frame data) = map (daily_row data) (rows (daily data)).
Proof.
  unfold daily_frame, daily_row. cbv zeta.
  set (df3 := rename DAILY_COLUMN_MAP _).
  rewrite !hm_column_rows, map_map.
  assert (rows df3
          = map (fun r =>
                   map (fun kv : string * cell => (renamed DAILY_COLUMN_MAP (fst kv), snd kv))
                     (filter (fun kv : string * cell => negb (String.eqb (fst kv) "time"))
                        (set "Date" (dt_date (to_datetime (get "time" r))) r)))
                (rows (daily data))) as ->.
  { subst df3. unfold assign, drop_column, rename. cbn [rows columns].
    rewrite !map_map. reflexivity. }
  rewrite map_map. reflexivity.
Qed.

Lemma get_filter_other c c' (r : Row) :
  c <> c' ->
  get c' (filter (fun kv : string * cell => negb (String.eqb (fst kv) c)) r) = get c' r.
Proof.
  intros N. induction r as [|[k x] r IH]; simpl; [reflexivity|].
  destruct (String.eqb_spec k c) as [->|Nk]; simpl.
  - apply String.eqb_neq in N. rewrite N. exact IH.
  - rewrite IH. reflexivity.
Qed.

Lemma get_map_key (f : string -> string) c (r : Row) :
  (forall k, f k = c <-> k = c) ->
  get c (map (fun kv : string * cell => (f (fst kv), snd kv)) r) = get c r.
Proof.
  intros Hf. induction r as [|[k x] r IH]; simpl; [reflexivity|].
  rewrite IH. destruct (String.eqb_spec (f k) c) as [E|E], (String.eqb_spec k c) as [E'|E'];
    try reflexivity.
  - apply (proj1 (Hf k)) in E. contradiction.
  - apply (proj2 (Hf k)) in E'. contradiction.
Qed.

Lemma bound_set_same c v r : bound c (set c v r) = true.
Proof.
  unfold bound. induction r as [|[k x] r IH]; simpl.
  - rewrite String.eqb_refl. reflexivity.
  - destruct (String.eqb_spec k c) as [->|N]; simpl.
    + rewrite String.eqb_refl. reflexivity.
    + rewrite IH. apply orb_true_r.
Qed.

Lemma bound_set_keeps c c' v r : bound c' r = true -> bound c' (set c v r) = true.
Proof.
  unfold bound. induction r as [|[k x] r IH]; simpl; [discriminate|].
  destruct (String.eqb k c); simpl; [auto|].
  destruct (String.eqb c' k); simpl; auto.
Qed.

Lemma bound_filter_other c c' (r : Row) :
  c <> c' ->
  bound c' (filter (fun kv : string * cell => negb (String.eqb (fst kv) c)) r) = bound c' r.
Proof.
  unfold bound. intros N. induction r as [|[k x] r IH]; simpl; [reflexivity|].
  destruct (String.eqb_spec k c) as [->|Nk]; simpl.
  - assert (c' <> c) as N' by congruence.
    apply String.eqb_neq in N'. rewrite N'. exact IH.
  - rewrite IH. reflexivity.
Qed.

Lemma bound_filter_same c (r : Row) :
  bound c (filter (fun kv : string * cell => negb (String.eqb (fst kv) c)) r) = false.
Proof.
  unfold bound. induction r as [|[k x] r IH]; simpl; [reflexivity|].
  destruct (String.eqb_spec k c) as [->|Nk]; simpl; [exact IH|].
  rewrite IH. destruct (String.eqb_spec c k); [congruence | reflexivity].
Qed.

Lemma bound_map_key (f : string -> string) c (r : Row) :
  (forall k, f k = c <-> k = c) ->
  bound c (map (fun kv : string * cell => (f (fst kv), snd kv)) r) = bound c r.
Proof.
  unfold bound. intros Hf. induction r as [|[k x] r IH]; simpl; [reflexivity|].
  rewrite IH. destruct (String.eqb_spec c (f k)) as [E|E], (String.eqb_spec c k) as [E'|E'];
    try reflexivity.
  - symmetry in E. apply (proj1 (Hf k)) in E. congruence.
  - subst k. exfalso. apply E. symmetry. apply (proj2 (Hf c)). reflexivity.
Qed.

Lemma get_app_bound c (a b : Row) : bound c a = true -> get c (a ++ b) = get c a.
Proof.
  unfold bound. induction a as [|[k x] a IH]; simpl; [discriminate|].
  destruct (String.eqb_spec c k) as [->|N]; simpl.
  - rewrite String.eqb_refl. reflexivity.
  - intros H. destruct (String.eqb_spec k c); [congruence | auto].
Qed.

Lemma lookup_in k m v : lookup k m = Some v -> In (k, v) m.
Proof.
  induction m as [|[a b] m IH]; simpl; [discriminate|].
  destruct (String.eqb_spec a k) as [->|N]; [intros H; inversion H; auto | auto].
Qed.

(** A name that is neither a key nor a value of the map is renamed to
    itself and nothing else is renamed to it. *)
Lemma renamed_fixed m c :
  forallb (fun ab : string * string =>
             negb (String.eqb (fst ab) c) && negb (String.eqb (snd ab) c)) m = true ->
  forall k, renamed m k = c <-> k = c.
Proof.
  intros H k. rewrite forallb_forall in H. unfold renamed.
  destruct (lookup k m) as [v|] eqn:L; [|tauto].
  apply lookup_in in L. apply H in L. simpl in L.
  apply andb_true_iff in L as [L1 L2].
  apply negb_true_iff in L1, L2. apply String.eqb_neq in L1, L2. split; congruence.
Qed.

Lemma to_datetime_timed c : to_datetime c = NA \/ exists t, to_datetime c = Stamp t.
Proof.
  unfold to_datetime. destruct c; eauto; destruct (parse _); eauto.
Qed.

Ltac fixed_by_map :=
  apply renamed_fixed; vm_compute; reflexivity.

Lemma hourly_row_datetime tinh r :
  get "Datetime" (hourly_row tinh r) = to_datetime (get "time" r)
  /\ bound "Datetime" (hourly_row tinh r) = true.
Proof.
  unfold hourly_row. cbv zeta. split.
  - rewrite !get_set_other by discriminate.
    rewrite get_map_key by fixed_by_map.
    rewrite get_filter_other by discriminate. apply get_set_same.
  - do 2 apply bound_set_keeps.
    rewrite bound_map_key by fixed_by_map.
    rewrite bound_filter_other by discriminate. apply bound_set_same.
Qed.

Lemma hourly_row_date tinh r :
  get "Date" (hourly_row tinh r) = dt_date (to_datetime (get "time" r)).
Proof.
  pose proof (hourly_row_datetime tinh r) as [H _].
  unfold hourly_row in *. cbv zeta in *. rewrite get_set_same.
  rewrite get_set_other in H by discriminate. rewrite H. reflexivity.
Qed.

Lemma hourly_row_tinh tinh r :
  get "Tinh_thanh" (hourly_row tinh r) = Text tinh
  /\ bound "Tinh_thanh" (hourly_row tinh r) = true.
Proof.
  unfold hourly_row. cbv zeta. split.
  - rewrite get_set_other by discriminate. apply get_set_same.
  - apply bound_set_keeps. apply bound_set_same.
Qed.

Lemma daily_row_date data r :
  get "Date" (daily_row data r) = dt_date (to_datetime (get "time" r)).
Proof.
  unfold daily_row. cbv zeta.
  repeat match goal with
         | |- context [if ?b then _ else _] => destruct b
         end;
    rewrite ?get_set_other by discriminate;
    (rewrite get_map_key by fixed_by_map);
    (rewrite get_filter_other by discriminate); apply get_set_same.
Qed.

Ltac no_suffix H k :=
  repeat (destruct k as [|? k]; simpl in H; [discriminate|]; injection H as _ H);
  destruct k; discriminate.

Lemma suffixed_fixed other key sfx c :
  mem c other = false \/ c = key ->
  (forall k, String.append k sfx <> c) ->
  forall k, suffixed other key sfx k = c <-> k = c.
Proof.
  intros Hc Hs k. unfold suffixed.
  destruct (negb (String.eqb k key) && mem k other) eqn:E; [|tauto].
  split; [intros H; apply Hs in H; contradiction|].
  intros ->. apply andb_true_iff in E as [E1 E2].
  apply negb_true_iff in E1. apply String.eqb_neq in E1.
  destruct Hc; congruence.
Qed.

Lemma x_not_datetime k : String.append k "_x" <> "Datetime".
Proof. intros H. no_suffix H k. Qed.

Lemma y_not_datetime k : String.append k "_y" <> "Datetime".
Proof. intros H. no_suffix H k. Qed.

Lemma x_not_date k : String.append k "_x" <> "Date".
Proof. intros H. no_suffix H k. Qed.

Lemma y_not_date k : String.append k "_y" <> "Date".
Proof. intros H. no_suffix H k. Qed.

Lemma merge_left_rows key L R row :
  In row (rows (merge_left key L R)) ->
  exists l, In l (rows L)
    /\ (row = map (fun kv => (suffixed (columns R) key "_x" (fst kv), snd kv)) l
        \/ exists r, In r (rows R)
             /\ row = map (fun kv => (suffixed (columns R) key "_x" (fst kv), snd kv)) l
                      ++ map (fun kv => (suffixed (columns L) key "_y" (fst kv), snd kv))
                           (filter (fun kv : string * cell => negb (String.eqb (fst kv) key)) r)).
Proof.
  unfold merge_left. cbn [rows]. intros H. apply in_flat_map in H as (l & Hl & H).
  exists l. split; [exact Hl|].
  destruct (filter (fun r => cell_eqb (get key r) (get key l)) (rows R)) as [|m ms] eqn:F.
  - left. destruct H as [<-|[]]. reflexivity.
  - right. rewrite <- F in H. apply in_map_iff in H as (r & <- & Hr).
    apply filter_In in Hr as [Hr _]. exists r. auto.
Qed.

Lemma hourly_frame_has_datetime data tinh :
  mem "Datetime" (columns (hourly_frame data tinh)) = true.
Proof.
  unfold hourly_frame, assign, drop_column, rename. cbn [columns rows].
  set (c1 := if mem "Datetime" (columns (hourly data)) then _ else _).
  assert (H1 : In "Datetime" c1).
  { subst c1. destruct (mem "Datetime" (columns (hourly data))) eqn:E.
    - apply mem_spec. exact E.
    - apply in_or_app. right. left. reflexivity. }
  set (c2 := map (renamed COLUMN_MAP) (filter _ c1)).
  assert (H2 : In "Datetime" c2).
  { subst c2. apply in_map_iff. exists "Datetime". split; [reflexivity|].
    apply filter_In. split; [exact H1 | reflexivity]. }
  set (c3 := if mem "Tinh_thanh" c2 then _ else _).
  assert (H3 : In "Datetime" c3).
  { subst c3. destruct (mem "Tinh_thanh" c2); [exact H2 | apply in_or_app; auto]. }
  destruct (mem "Date" c3); apply mem_spec; [exact H3 | apply in_or_app; auto].
Qed.

(** When the reshaping succeeds the daily table had no [Datetime] column
    of its own (or the suffixes would have hidden the hourly one). *)
Lemma joined_datetime L R :
  mem "Datetime" (columns L) = true ->
  mem "Datetime" (columns (drop_column "Date" (merge_left "Date" L R))) = true ->
  mem "Datetime" (columns R) = false.
Proof.
  intros HL H. destruct (mem "Datetime" (columns R)) eqn:HR; [|reflexivity].
  exfalso. apply mem_spec in H. unfold drop_column, merge_left in H. cbn [columns] in H.
  apply filter_In in H as [H _]. apply in_app_or in H as [H|H];
    apply in_map_iff in H as (c & Hc & Hin); unfold suffixed in Hc.
  - destruct (negb (String.eqb c "Date") && mem c (columns R)) eqn:E.
    + exact (x_not_datetime _ Hc).
    + subst c. rewrite HR in E. discriminate.
  - destruct (negb (String.eqb c "Date") && mem c (columns L)) eqn:E.
    + exact (y_not_datetime _ Hc).
    + subst c. rewrite HL in E. discriminate.
Qed.

Lemma ordered_cols_keyed df rs : keyed (mkFrame (ordered_cols df) rs).
Proof.
  unfold keyed, ordered_cols. cbn [columns]. split; [reflexivity|].
  rewrite !mem_app. cbn. rewrite !orb_true_r. reflexivity.
Qed.

Lemma reshape_inr data tinh df :
  reshape data tinh = inr df ->
  keyed df
  /\ rows df = rows (drop_column "Date"
                       (merge_left "Date" (hourly_frame data tinh) (daily_frame data)))
  /\ mem "Datetime" (columns (daily_frame data)) = false.
Proof.
  unfold reshape.
  destruct (negb (mem "time" (columns (hourly data)))); [discriminate|].
  destruct (negb (mem "time" (columns (daily data)))); [discriminate|].
  intros H. apply reorder_columns_inr in H as [[K1 K2] ->]. cbn [rows columns].
  split; [apply ordered_cols_keyed|]. split; [reflexivity|].
  eapply joined_datetime; [apply hourly_frame_has_datetime | exact K2].
Qed.

Lemma reshape_timed data tinh df :
  reshape data tinh = inr df -> Forall (fun r => timed r = true) (rows df).
Proof.
  intros H. apply reshape_inr in H as (_ & Hr & HD). rewrite Hr. clear Hr.
  apply Forall_forall. intros row Hrow.
  unfold drop_column in Hrow. cbn [rows] in Hrow.
  apply in_map_iff in Hrow as (row' & <- & Hrow').
  apply merge_left_rows in Hrow' as (l & Hl & Hrow').
  rewrite hourly_frame_rows in Hl. apply in_map_iff in Hl as (l0 & <- & _).
  pose proof (hourly_row_datetime tinh l0) as [Hg Hb].
  assert (Hfix : forall k, suffixed (columns (daily_frame data)) "Date" "_x" k = "Datetime"
                           <-> k = "Datetime").
  { apply suffixed_fixed; [left; exact HD | apply x_not_datetime]. }
  assert (Hget : get "Datetime" row' = to_datetime (get "time" l0)).
  { destruct Hrow' as [->|(r & _ & ->)].
    - rewrite get_map_key by exact Hfix. exact Hg.
    - rewrite get_app_bound by (rewrite bound_map_key by exact Hfix; exact Hb).
      rewrite get_map_key by exact Hfix. exact Hg. }
  unfold timed. rewrite get_filter_other by discriminate. rewrite Hget.
  destruct (to_datetime_timed (get "time" l0)) as [->|[t ->]]; reflexivity.
Qed.

Lemma fetched_fragment tinh df : fetched tinh df -> fragment_ok df.
Proof.
  intros [He (data & H)]. unfold fragment_ok. split; [|split].
  - eapply reshape_timed; eassumption.
  - apply reshape_inr in H. tauto.
  - exact He.
Qed.

(** ** Merging the blocks of a region *)

Lemma concat_from_rows ds : forall acc,
    rows (concat_from acc ds) = rows acc ++ flat_map rows ds.
Proof.
  induction ds as [|d ds IH]; intros acc; simpl; [rewrite app_nil_r; reflexivity|].
  rewrite IH. simpl. rewrite app_assoc. reflexivity.
Qed.

Lemma concat_rows ds : rows (concat ds) = flat_map rows ds.
Proof. destruct ds as [|d ds]; [reflexivity|]. simpl. apply concat_from_rows. Qed.

Lemma concat2_keyed_l a b : keyed a -> keyed (concat2 a b).
Proof.
  unfold keyed, concat2. cbn [columns]. rewrite !mem_app. intros [-> ->]. auto.
Qed.

Lemma concat2_keyed_r a b : keyed b -> keyed (concat2 a b).
Proof.
  unfold keyed, concat2. cbn [columns]. rewrite !mem_app, !mem_filter.
  intros [-> ->]. rewrite !andb_true_r.
  split; [destruct (mem "Tinh_thanh" (columns a)) | destruct (mem "Datetime" (columns a))];
    reflexivity.
Qed.

Lemma concat_from_keyed ds : forall acc, keyed acc -> keyed (concat_from acc ds).
Proof.
  induction ds as [|d ds IH]; intros acc H; simpl; [exact H|].
  apply IH. apply concat2_keyed_l. exact H.
Qed.

Lemma concat_keyed ds : ds <> [] -> Forall fragment_ok ds -> keyed (concat ds).
Proof.
  destruct ds as [|d ds]; [congruence|]. intros _ H. inversion H; subst. simpl.
  apply concat_from_keyed. destruct H2 as (_ & K & _). exact K.
Qed.

Lemma dataset_empty df : dataset_ok df -> empty df = true -> rows df = [].
Proof.
  intros [_ [H|[K _]]] He; [exact H|].
  unfold empty in He. destruct (columns df); [discriminate|].
  destruct (rows df); [reflexivity | discriminate].
Qed.

Lemma dataset_keyed df : dataset_ok df -> empty df = false -> keyed df.
Proof.
  intros [_ [H|K]] He; [|exact K].
  unfold empty in He. rewrite H in He. destruct (columns df); discriminate.
Qed.

Lemma merged_rows df blocks :
  dataset_ok df -> rows (merged df blocks) = rows df ++ flat_map rows blocks.
Proof.
  intros H. unfold merged. destruct (empty df) eqn:E.
  - rewrite (dataset_empty _ H E), concat_rows. reflexivity.
  - unfold concat2. cbn [rows]. rewrite concat_rows. reflexivity.
Qed.

Lemma merged_keyed df blocks :
  blocks <> [] -> Forall fragment_ok blocks -> keyed (merged df blocks).
Proof.
  intros Hn Hf. unfold merged. destruct (empty df).
  - apply concat_keyed; assumption.
  - apply concat2_keyed_r. apply concat_keyed; assumption.
Qed.

Lemma merged_timed df blocks :
  dataset_ok df -> Forall fragment_ok blocks ->
  Forall (fun r => timed r = true) (rows (merged df blocks)).
Proof.
  intros Hd Hf. rewrite merged_rows by exact Hd. apply Forall_app. split.
  - destruct Hd as [Hs _]. eapply Forall_impl; [|exact Hs].
    intros r. apply stamped_timed.
  - apply Forall_forall. intros r Hr. apply in_flat_map in Hr as (d & Hd' & Hr).
    rewrite Forall_forall in Hf. destruct (Hf _ Hd') as (Ht & _).
    rewrite Forall_forall in Ht. auto.
Qed.

Lemma tidy_dataset df out :
  Forall (fun r => timed r = true) (rows df) -> tidy df = inr out -> dataset_ok out.
Proof.
  intros Ht H. pose proof (tidy_gives_form _ _ Ht H) as (_ & Hs & _ & _).
  split; [exact Hs|]. right.
  apply tidy_keyed in H as [_ Hc]. destruct out as [cols rs]. simpl in *. subst cols.
  apply ordered_cols_keyed.
Qed.

Lemma ordered_cols_in df c :
  keyed df -> (In c (ordered_cols df) <-> In c (columns df)).
Proof.
  intros [K1 K2]. apply mem_spec in K1, K2. unfold ordered_cols.
  set (other := fun c => negb (mem c (["Tinh_thanh"; "Datetime"] ++ special_cols))).
  rewrite !in_app_iff, !filter_In. split.
  - intros [[<-|[]]|[[_ H]|[[H _]|[<-|[]]]]]; auto. apply mem_spec. exact H.
  - intros H. destruct (other c) eqn:O; [right; right; left; auto|].
    unfold other in O. apply negb_false_iff, mem_spec in O.
    apply in_app_or in O as [[<-|[<-|[]]]|O].
    + left. left. reflexivity.
    + right. right. right. left. reflexivity.
    + right. left. split; [exact O | apply mem_spec; exact H].
Qed.

Lemma concat2_columns_in a b c :
  In c (columns (concat2 a b)) <-> In c (columns a) \/ In c (columns b).
Proof.
  unfold concat2. cbn [columns]. rewrite in_app_iff, filter_In. split.
  - intros [H|[H _]]; auto.
  - intros [H|H]; [auto|].
    destruct (mem c (columns a)) eqn:M; [left; apply mem_spec; exact M | right; auto].
Qed.

Lemma concat_from_columns_in ds :
  forall acc c,
    In c (columns (concat_from acc ds))
    <-> In c (columns acc) \/ exists b, In b ds /\ In c (columns b).
Proof.
  induction ds as [|d ds IH]; intros acc c; simpl.
  - split; [auto | intros [H|(b & [] & _)]; exact H].
  - rewrite IH, concat2_columns_in. split.
    + intros [[H|H]|(b & Hb & H)]; eauto.
    + intros [H|(b & [<-|Hb] & H)]; eauto.
Qed.

(** The columns of the concatenation: those of the dataset (unless it is
    empty, when the blocks replace it) and those of every block. *)
Lemma merged_columns_in df blocks c :
  blocks <> [] ->
  (In c (columns (merged df blocks))
   <-> (empty df = false /\ In c (columns df))
       \/ exists b, In b blocks /\ In c (columns b)).
Proof.
  intros Hn. destruct blocks as [|b0 bs]; [congruence|].
  assert (Hc : In c (columns (concat (b0 :: bs)))
               <-> exists b, In b (b0 :: bs) /\ In c (columns b)).
  { cbn [concat]. rewrite concat_from_columns_in. split.
    - intros [H|(b & Hb & H)]; [exists b0; split; [left; reflexivity | exact H]|].
      exists b. split; [right; exact Hb | exact H].
    - intros (b & [<-|Hb] & H); eauto. }
  unfold merged. destruct (empty df).
  - rewrite Hc. split; [auto | intros [[E _]|H]; [discriminate | exact H]].
  - rewrite concat2_columns_in, Hc. split.
    + intros [H|H]; auto.
    + intros [[_ H]|H]; auto.
Qed.

(** Merging always succeeds on the frames the crawl holds. *)
Lemma merge_tidy df blocks :
  dataset_ok df -> blocks <> [] -> Forall fragment_ok blocks ->
  exists out,
    tidy (merged df blocks) = inr out
    /\ rows out = sort_rows (filter stamped
                              (drop_duplicates_from [] (rows df ++ flat_map rows blocks)))
    /\ tidy_form out /\ dataset_ok out.
Proof.
  intros Hd Hn Hf.
  destruct (tidy_spec (merged df blocks) (merged_keyed _ _ Hn Hf) (merged_timed _ _ Hd Hf))
    as (out & H & Hr & Hc).
  exists out. rewrite merged_rows in Hr by exact Hd.
  split; [exact H|]. split; [exact Hr|]. split.
  - eapply tidy_gives_form; [|exact H]. apply merged_timed; assumption.
  - eapply tidy_dataset; [|exact H]. apply merged_timed; assumption.
Qed.

(** A dataset that is not empty is cleaned without error too. *)
Lemma dataset_tidy df :
  dataset_ok df -> empty df = false ->
  exists out,
    tidy df = inr out
    /\ rows out = sort_rows (filter stamped (drop_duplicates_from [] (rows df)))
    /\ tidy_form out /\ dataset_ok out.
Proof.
  intros Hd He.
  assert (Ht : Forall (fun r => timed r = true) (rows df)).
  { destruct Hd as [Hs _]. eapply Forall_impl; [|exact Hs]. intros r. apply stamped_timed. }
  destruct (tidy_spec df (dataset_keyed _ Hd He) Ht) as (out & H & Hr & Hc).
  exists out. split; [exact H|]. split; [exact Hr|]. split.
  - eapply tidy_gives_form; eassumption.
  - eapply tidy_dataset; eassumption.
Qed.

(** ** One region *)

Lemma contains_hard : contains "RATE_LIMIT_HARD" "RATE_LIMIT_HARD" = true.
Proof. reflexivity. Qed.

Lemma merge_and_persist_nil w : df_blocks w = [] -> merge_and_persist w = (inr tt, w).
Proof.
  intros H. unfold merge_and_persist, bind, read_df_blocks. rewrite H. reflexivity.
Qed.

Lemma merge_and_persist_cons w out :
  df_blocks w <> [] ->
  tidy (merged (df_vn w) (df_blocks w)) = inr out ->
  merge_and_persist w
  = (inr tt, mkWorld out (df_blocks w) (trace w ++ [ToCsv out]) (asked w) (drawn w)).
Proof.
  intros Hn H. unfold merge_and_persist, bind, read_df_blocks.
  destruct (df_blocks w) as [|b bs] eqn:E; [congruence|].
  unfold absorb_blocks, tidy_and_save, bind, read_df_blocks, read_df_vn, write_df_vn, lift.
  cbn [df_vn df_blocks trace asked drawn]. rewrite E.
  unfold merged in H. rewrite H. unfold ret, bind, log, write_df_vn. reflexivity.
Qed.

Lemma hard_stop_nothing w :
  empty (at_hard_stop w) = true ->
  on_runtime_error (RuntimeError "RATE_LIMIT_HARD") w
  = (inl (RuntimeError "RATE_LIMIT_HARD"),
     mkWorld (at_hard_stop w) (df_blocks w) (trace w) (asked w) (drawn w)).
Proof.
  intros He. unfold on_runtime_error. rewrite contains_hard.
  unfold at_hard_stop in *. unfold bind, read_df_blocks.
  destruct (df_blocks w) as [|b bs] eqn:E.
  - unfold ret, read_df_vn, raise. rewrite He. destruct w; simpl in *. subst. reflexivity.
  - unfold absorb_blocks, bind, read_df_blocks, read_df_vn, write_df_vn.
    cbn [df_vn df_blocks trace asked drawn]. rewrite E.
    unfold merged in He. rewrite He. reflexivity.
Qed.

Lemma hard_stop_saves w out :
  empty (at_hard_stop w) = false ->
  tidy (at_hard_stop w) = inr out ->
  on_runtime_error (RuntimeError "RATE_LIMIT_HARD") w
  = (inl (RuntimeError "RATE_LIMIT_HARD"),
     mkWorld out (df_blocks w) (trace w ++ [ToCsv out]) (asked w) (drawn w)).
Proof.
  intros He H. unfold on_runtime_error. rewrite contains_hard.
  unfold at_hard_stop in *. unfold bind, read_df_blocks.
  destruct (df_blocks w) as [|b bs] eqn:E.
  - unfold ret, read_df_vn, raise. rewrite He. cbn [negb].
    unfold tidy_and_save, bind, read_df_vn, lift. rewrite H.
    unfold ret, write_df_vn, log. cbn. rewrite E. reflexivity.
  - unfold absorb_blocks, bind, read_df_blocks, read_df_vn, write_df_vn.
    cbn [df_vn df_blocks trace asked drawn]. rewrite E.
    unfold merged in He, H. rewrite He. cbn [negb].
    unfold tidy_and_save, bind, read_df_vn, lift.
    cbn [df_vn df_blocks trace asked drawn]. rewrite H.
    unfold ret, write_df_vn, log. reflexivity.
Qed.

Lemma keyed_columns df : keyed df -> columns df <> [].
Proof. intros [K _] E. rewrite E in K. discriminate. Qed.

Lemma merged_nonempty df blocks :
  dataset_ok df -> blocks <> [] -> Forall fragment_ok blocks ->
  empty (merged df blocks) = false.
Proof.
  intros Hd Hn Hf. pose proof (keyed_columns _ (merged_keyed df _ Hn Hf)) as Hc.
  unfold empty. destruct (columns (merged df blocks)); [congruence|].
  rewrite merged_rows by exact Hd.
  destruct blocks as [|b bs]; [congruence|]. inversion Hf; subst.
  destruct H1 as (_ & _ & He). unfold empty in He.
  destruct (columns b); [discriminate|].
  destruct (rows b) as [|r rs] eqn:Er; [discriminate|].
  simpl. rewrite Er. destruct (rows df); reflexivity.
Qed.

(** Every way one turn of the region loop can go. *)
Lemma crawl_region_run tinh lat lon w res w' :
  dataset_ok (df_vn w) ->
  crawl_region (tinh, lat, lon) w = (res, w') ->
  (yesterday < resume_date (df_vn w) tinh /\ res = inr tt /\ w' = w)
  \/
  (resume_date (df_vn w) tinh <= yesterday /\
   exists new tail,
     trace w' = trace w ++ new ++ tail
     /\ (exists rest, windows_from (resume_date (df_vn w) tinh) = blocks_of new ++ rest)
     /\ Forall (fun q => exists s e, In (s, e) (blocks_of new) /\ q = mkRequest lat lon s e)
               (gets new)
     /\ last_saved new = None
     /\ Forall (fetched tinh) (collected new)
     /\ ((res = inr tt
          /\ blocks_of new = windows_from (resume_date (df_vn w) tinh)
          /\ collected new = [] /\ df_vn w' = df_vn w /\ tail = [Pause 40 80])
         \/ (res = inr tt
             /\ blocks_of new = windows_from (resume_date (df_vn w) tinh)
             /\ collected new <> []
             /\ tidy (merged (df_vn w) (collected new)) = inr (df_vn w')
             /\ tail = [ToCsv (df_vn w'); Pause 40 80])
         \/ (res = inl (RuntimeError "RATE_LIMIT_HARD")
             /\ collected new = [] /\ empty (df_vn w) = true
             /\ df_vn w' = df_vn w /\ tail = [])
         \/ (res = inl (RuntimeError "RATE_LIMIT_HARD")
             /\ collected new = [] /\ empty (df_vn w) = false
             /\ tidy (df_vn w) = inr (df_vn w') /\ tail = [ToCsv (df_vn w')])
         \/ (res = inl (RuntimeError "RATE_LIMIT_HARD")
             /\ collected new <> []
             /\ tidy (merged (df_vn w) (collected new)) = inr (df_vn w')
             /\ tail = [ToCsv (df_vn w')])
         \/ (exists k, res = inl (KeyError k) /\ df_vn w' = df_vn w /\ tail = []))).
Proof.
  intros Hd H. unfold crawl_region in H. unfold bind at 1 in H. unfold read_df_vn at 1 in H.
  set (start := resume_date (df_vn w) tinh) in *.
  destruct (Z.gtb_spec start yesterday) as [Hs|Hs].
  { left. inversion H; subst. auto. }
  right. split; [exact Hs|].
  unfold bind at 1 in H. unfold write_df_blocks at 1 in H.
  set (w0 := mkWorld (df_vn w) [] (trace w) (asked w) (drawn w)) in *.
  unfold bind at 1 in H. unfold catch in H.
  destruct (window_loop (Z.to_nat (yesterday - start + 1)) lat lon tinh start w0)
    as [r1 w1] eqn:L.
  apply window_loop_spec in L
    as (new & Ht & Hv & Hb & Hpre & Hfull & Hg & Hsv & Hfe & Hex).
  subst w0. cbn [df_vn df_blocks trace] in Ht, Hv, Hb.
  assert (Hfr : Forall fragment_ok (collected new)).
  { eapply Forall_impl; [|exact Hfe]. intros df. apply fetched_fragment. }
  exists new.
  destruct r1 as [e|[]].
  - destruct (Hex e eq_refl) as [->|[k ->]].
    + destruct (collected new) as [|b bs] eqn:Ec.
      * destruct (empty (df_vn w)) eqn:Ee.
        -- rewrite hard_stop_nothing in H
             by (unfold at_hard_stop; rewrite Hb; simpl; rewrite Hv; exact Ee).
           inversion H; subst. exists []. cbn [df_vn trace].
           rewrite app_nil_r. repeat split; auto.
           right; right; left. unfold at_hard_stop. rewrite Hb. simpl. auto.
        -- destruct (dataset_tidy _ Hd Ee) as (out & Hout & _).
           rewrite (hard_stop_saves w1 out) in H
             by (unfold at_hard_stop; rewrite Hb; simpl; rewrite Hv; assumption).
           inversion H; subst. exists [ToCsv out]. cbn [df_vn trace].
           rewrite Ht, <- app_assoc. repeat split; auto.
           right; right; right; left. auto.
      * assert (Hn : collected new <> []) by (rewrite Ec; discriminate).
        rewrite <- Ec in *.
        destruct (merge_tidy _ _ Hd Hn Hfr) as (out & Hout & _).
        assert (Ha : at_hard_stop w1 = merged (df_vn w) (collected new)).
        { unfold at_hard_stop. rewrite Hb, Hv. simpl.
          destruct (collected new); [congruence | reflexivity]. }
        rewrite (hard_stop_saves w1 out) in H
          by (rewrite Ha; first [apply merged_nonempty; assumption | exact Hout]).
        inversion H; subst. exists [ToCsv out]. cbn [df_vn trace].
        rewrite Ht, <- app_assoc. repeat split; auto.
        right; right; right; right; left. auto.
    + simpl in H. unfold raise in H. inversion H; subst. exists [].
      rewrite app_nil_r. repeat split; auto.
      right; right; right; right; right. eauto.
  - specialize (Hfull eq_refl). unfold bind in H.
    destruct (collected new) as [|b bs] eqn:Ec.
    + rewrite merge_and_persist_nil in H by (rewrite Hb; reflexivity).
      unfold log in H. inversion H; subst. exists [Pause 40 80]. cbn [df_vn trace].
      rewrite Ht, <- app_assoc. repeat split; auto.
      left. auto.
    + assert (Hn : collected new <> []) by (rewrite Ec; discriminate).
      rewrite <- Ec in *.
      destruct (merge_tidy _ _ Hd Hn Hfr) as (out & Hout & _).
      rewrite (merge_and_persist_cons w1 out) in H
        by (rewrite Hb, ?Hv; simpl; assumption).
      unfold log in H. inversion H; subst. exists [ToCsv out; Pause 40 80].
      cbn [df_vn trace]. rewrite Ht, <- !app_assoc. repeat split; auto.
      right; left. auto.
Qed.

(** ** The whole run *)

Lemma key_stamped r r' : key r' = key r -> stamped r = true -> stamped r' = true.
Proof.
  unfold key, stamped. intros H. inversion H as [[H1 H2]]. rewrite H2. auto.
Qed.

Lemma cleaned_cover R r :
  In r R -> stamped r = true ->
  exists r', In r' (sort_rows (filter stamped (drop_duplicates_from [] R)))
             /\ key r' = key r.
Proof.
  intros Hin Hs. destruct (first_with_some _ _ Hin) as (r' & F).
  pose proof (first_with_in _ _ _ F) as [_ Hk].
  exists r'. split; [|exact Hk]. apply cleaned_in. rewrite Hk. split; [exact F|].
  eapply key_stamped; eassumption.
Qed.

Lemma cleaned_sub R r :
  In r (sort_rows (filter stamped (drop_duplicates_from [] R))) -> In r R.
Proof.
  intros H. apply cleaned_in in H as [F _]. apply first_with_in in F. tauto.
Qed.

Lemma load_dataset csv df : load csv = inr df -> dataset_ok df.
Proof.
  unfold load. destruct csv as [raw|].
  2:{ intros H; inversion H. split; [constructor | left; reflexivity]. }
  destruct (mem "Datetime" (columns raw)) eqn:ED.
  2:{ intros H; inversion H. split; [constructor | left; reflexivity]. }
  assert (Hc : columns (dropna (coerce_datetime raw)) = columns raw).
  { unfold dropna, coerce_datetime, assign. cbn [columns]. rewrite ED. reflexivity. }
  rewrite Hc. destruct (mem "Tinh_thanh" (columns raw)) eqn:ET; [|discriminate].
  intros H; inversion H; subst; clear H. split.
  - unfold sort_values. cbn [rows].
    eapply Permutation_Forall; [apply sort_rows_perm|].
    unfold dropna, coerce_datetime, assign. cbn [rows].
    apply Forall_forall. intros r Hr. apply filter_In in Hr as [Hr Hn].
    apply in_map_iff in Hr as (r0 & <- & _).
    rewrite get_set_same in Hn. unfold stamped. rewrite get_set_same.
    destruct (to_datetime_timed (get "Datetime" r0)) as [E|[t E]]; rewrite E in *;
      [discriminate | reflexivity].
  - right. unfold keyed, sort_values. cbn [columns]. rewrite Hc. auto.
Qed.

Lemma tail_cases_gets (tail : list event) df :
  tail = [] \/ tail = [Pause 40 80] \/ tail = [ToCsv df] \/ tail = [ToCsv df; Pause 40 80] ->
  gets tail = [] /\ collected tail = [] /\ blocks_of tail = [].
Proof. intros [-> | [-> | [-> | ->]]]; auto. Qed.

Lemma crawl_region_steady row w res w' :
  steady w -> crawl_region row w = (res, w') -> steady w'.
Proof.
  intros (Hd & Hs & Hg) H. destruct row as [[tinh lat] lon].
  destruct (crawl_region_run _ _ _ _ _ _ Hd H)
    as [(_ & _ & ->)|(Hle & new & tail & Ht & (rest & Hpre) & Hq & Hsv & Hfe & Hout)];
    [exact (conj Hd (conj Hs Hg))|].
  assert (Hfr : Forall fragment_ok (collected new)).
  { eapply Forall_impl; [|exact Hfe]. intros df. apply fetched_fragment. }
  assert (Hnew : Forall bounded (gets new)).
  { eapply Forall_impl; [|exact Hq]. intros q (s & e & Hin & ->).
    assert (In (s, e) (windows_from (resume_date (df_vn w) tinh)))
      by (rewrite Hpre; apply in_or_app; left; exact Hin).
    apply windows_bounds in H0. unfold bounded. simpl. lia. }
  assert (Hnos : saves_tidy new).
  { clear - Hsv. unfold saves_tidy. induction new as [|e new IH]; [constructor|].
    simpl in Hsv. destruct (last_saved new) eqn:E; [discriminate|].
    destruct e; try discriminate; constructor; auto. }
  assert (Hmerged : forall out, collected new <> [] ->
                                tidy (merged (df_vn w) (collected new)) = inr out ->
                                tidy_form out /\ dataset_ok out).
  { intros out Hn Ho. destruct (merge_tidy _ _ Hd Hn Hfr) as (out' & Ho' & _ & F & D).
    rewrite Ho in Ho'. inversion Ho'; subst. auto. }
  assert (Hsame : forall out, empty (df_vn w) = false -> tidy (df_vn w) = inr out ->
                              tidy_form out /\ dataset_ok out).
  { intros out He Ho. destruct (dataset_tidy _ Hd He) as (out' & Ho' & _ & F & D).
    rewrite Ho in Ho'. inversion Ho'; subst. auto. }
  assert (Hend : dataset_ok (df_vn w') /\ saves_tidy tail /\ gets tail = []).
  { unfold saves_tidy.
    destruct Hout as [(_ & _ & _ & Hv & ->)
                     |[(_ & _ & Hn & Ho & ->)
                      |[(_ & _ & _ & Hv & ->)
                       |[(_ & _ & He & Ho & ->)
                        |[(_ & Hn & Ho & ->)
                         |(k & _ & Hv & ->)]]]]].
    - rewrite Hv. split; [exact Hd|]. split; [repeat constructor | reflexivity].
    - destruct (Hmerged _ Hn Ho) as [F D].
      split; [exact D|]. split; [constructor; [exact F | repeat constructor] | reflexivity].
    - rewrite Hv. split; [exact Hd|]. split; [constructor | reflexivity].
    - destruct (Hsame _ He Ho) as [F D].
      split; [exact D|]. split; [constructor; [exact F | repeat constructor] | reflexivity].
    - destruct (Hmerged _ Hn Ho) as [F D].
      split; [exact D|]. split; [constructor; [exact F | repeat constructor] | reflexivity].
    - rewrite Hv. split; [exact Hd|]. split; [constructor | reflexivity]. }
  destruct Hend as (D & T & G).
  unfold steady. rewrite Ht, !gets_app, G, app_nil_r. unfold saves_tidy in *.
  rewrite !Forall_app. auto.
Qed.

Lemma crawl_all_steady loc : forall w res w',
    steady w -> crawl_all loc w = (res, w') -> steady w'.
Proof.
  induction loc as [|row loc IH]; intros w res w' Hs H; simpl in H.
  - inversion H; subst. exact Hs.
  - unfold bind in H. destruct (crawl_region row w) as [[e|[]] w1] eqn:R.
    + inversion H; subst. eapply crawl_region_steady; eassumption.
    + eapply IH; [|exact H]. eapply crawl_region_steady; eassumption.
Qed.

Lemma account_step (known held extra : list Row) :
  (forall r, In r known -> stamped r = true -> exists r', In r' held /\ key r' = key r) ->
  (forall r', In r' held -> In r' known) ->
  (forall r, In r (known ++ extra) -> stamped r = true ->
             exists r', In r' (sort_rows (filter stamped
                                           (drop_duplicates_from [] (held ++ extra))))
                        /\ key r' = key r)
  /\ (forall r', In r' (sort_rows (filter stamped
                                     (drop_duplicates_from [] (held ++ extra)))) ->
                 In r' (known ++ extra)).
Proof.
  intros H1 H2. split.
  - intros r Hr Hs. apply in_app_or in Hr as [Hr|Hr].
    + destruct (H1 _ Hr Hs) as (r1 & Hin & Hk).
      destruct (cleaned_cover (held ++ extra) r1) as (r2 & Hin2 & Hk2).
      * apply in_or_app. left. exact Hin.
      * eapply key_stamped; eassumption.
      * exists r2. split; [exact Hin2 | congruence].
    + apply cleaned_cover; [apply in_or_app; right; exact Hr | exact Hs].
  - intros r' Hr'. apply cleaned_sub in Hr'. apply in_app_or in Hr' as [Hr'|Hr'];
      apply in_or_app; [left; auto | right; exact Hr'].
Qed.

Lemma pool_app loaded t new tail :
  collected tail = [] ->
  pool loaded (t ++ new ++ tail) = pool loaded t ++ flat_map rows (collected new).
Proof.
  intros H. unfold pool. rewrite !collected_app, H, app_nil_r, flat_map_app, app_assoc.
  reflexivity.
Qed.

Lemma crawl_region_accounted loaded row w res w' :
  steady w -> accounted loaded w ->
  crawl_region row w = (res, w') ->
  res = inr tt \/ res = inl (RuntimeError "RATE_LIMIT_HARD") ->
  accounted loaded w'
  /\ (res = inl (RuntimeError "RATE_LIMIT_HARD") ->
      rows (df_vn w') = [] \/ last_saved (trace w') = Some (df_vn w')).
Proof.
  intros (Hd & _ & _) (A1 & A2 & A3) H Hres. destruct row as [[tinh lat] lon].
  destruct (crawl_region_run _ _ _ _ _ _ Hd H)
    as [(_ & -> & ->)|(Hle & new & tail & Ht & _ & _ & Hsv & Hfe & Hout)].
  { split; [exact (conj A1 (conj A2 A3)) | discriminate]. }
  assert (Hfr : Forall fragment_ok (collected new)).
  { eapply Forall_impl; [|exact Hfe]. intros df. apply fetched_fragment. }
  assert (Hmerged : forall out, collected new <> [] ->
            tidy (merged (df_vn w) (collected new)) = inr out ->
            rows out = sort_rows (filter stamped (drop_duplicates_from []
                         (rows (df_vn w) ++ flat_map rows (collected new))))).
  { intros out Hn Ho. destruct (merge_tidy _ _ Hd Hn Hfr) as (out' & Ho' & Hr & _).
    rewrite Ho in Ho'. inversion Ho'; subst. exact Hr. }
  assert (Hsame : forall out, empty (df_vn w) = false -> tidy (df_vn w) = inr out ->
            rows out = sort_rows (filter stamped (drop_duplicates_from []
                         (rows (df_vn w) ++ flat_map rows [])))).
  { intros out He Ho. destruct (dataset_tidy _ Hd He) as (out' & Ho' & Hr & _).
    rewrite Ho in Ho'. inversion Ho'; subst. simpl. rewrite app_nil_r. exact Hr. }
  unfold accounted. rewrite Ht.
  destruct Hout as [(-> & _ & Hc & Hv & ->)
                   |[(-> & _ & Hn & Ho & ->)
                    |[(-> & Hc & He & Hv & ->)
                     |[(-> & Hc & He & Ho & ->)
                      |[(-> & Hn & Ho & ->)
                       |(k & -> & _)]]]]];
    try (rewrite pool_app by reflexivity); rewrite ?last_saved_app, ?Hsv; cbn [last_saved].
  - rewrite Hc, Hv. simpl. rewrite app_nil_r.
    split; [exact (conj A1 (conj A2 A3)) | discriminate].
  - rewrite (Hmerged _ Hn Ho).
    split; [|discriminate].
    destruct (account_step _ _ (flat_map rows (collected new)) A1 A2) as [B1 B2].
    split; [exact B1|]. split; [exact B2 | right; reflexivity].
  - rewrite Hc, Hv. simpl. rewrite !app_nil_r.
    split; [exact (conj A1 (conj A2 A3))|]. intros _. left. apply dataset_empty; assumption.
  - rewrite (Hsame _ He Ho), Hc.
    split; [|intros _; right; reflexivity].
    destruct (account_step _ _ (flat_map rows []) A1 A2) as [B1 B2].
    split; [exact B1|]. split; [exact B2 | right; reflexivity].
  - rewrite (Hmerged _ Hn Ho).
    split; [|intros _; right; reflexivity].
    destruct (account_step _ _ (flat_map rows (collected new)) A1 A2) as [B1 B2].
    split; [exact B1|]. split; [exact B2 | right; reflexivity].
  - destruct Hres; discriminate.
Qed.

(** How the loop over the regions can end, and what holds then. *)
Lemma crawl_all_accounted loaded loc : forall w res w',
    steady w -> accounted loaded w ->
    crawl_all loc w = (res, w') ->
    (res = inr tt \/ res = inl (RuntimeError "RATE_LIMIT_HARD")
     \/ exists k, res = inl (KeyError k))
    /\ (res = inr tt -> accounted loaded w')
    /\ (res = inl (RuntimeError "RATE_LIMIT_HARD") ->
        accounted loaded w'
        /\ (rows (df_vn w') = [] \/ last_saved (trace w') = Some (df_vn w'))).
Proof.
  induction loc as [|row loc IH]; intros w res w' Hs Ha H; simpl in H.
  - inversion H; subst. split; [auto|]. split; [auto | discriminate].
  - unfold bind in H. destruct (crawl_region row w) as [r1 w1] eqn:R.
    pose proof (crawl_region_steady _ _ _ _ Hs R) as Hs1.
    assert (Hr1 : r1 = inr tt \/ r1 = inl (RuntimeError "RATE_LIMIT_HARD")
                  \/ exists k, r1 = inl (KeyError k)).
    { destruct Hs as (Hd & _ & _). destruct row as [[tinh lat] lon].
      destruct (crawl_region_run _ _ _ _ _ _ Hd R)
        as [(_ & -> & _)|(_ & new & tail & _ & _ & _ & _ & _ & Hout)]; [auto|].
      destruct Hout as [(-> & _)|[(-> & _)|[(-> & _)|[(-> & _)|[(-> & _)|(k & -> & _)]]]]];
        eauto. }
    destruct Hr1 as [->|[->|(k & ->)]].
    + destruct (crawl_region_accounted loaded _ _ _ _ Hs Ha R (or_introl eq_refl)) as [Ha1 _].
      eapply IH; eassumption.
    + inversion H; subst.
      destruct (crawl_region_accounted loaded _ _ _ _ Hs Ha R (or_intror eq_refl))
        as [Ha1 Hf].
      split; [auto|]. split; [discriminate|]. intros _. split; [exact Ha1 | auto].
    + inversion H; subst. split; [eauto|]. split; discriminate.
Qed.

Lemma initial_steady csv loaded : load csv = inr loaded -> steady (initial loaded).
Proof.
  intros H. split; [eapply load_dataset; exact H|]. split; constructor.
Qed.

Lemma initial_accounted loaded : accounted loaded (initial loaded).
Proof.
  unfold accounted, pool. simpl. rewrite app_nil_r. split; [eauto | auto].
Qed.

(** The script after the load, by how the loop over the regions ended. *)
Lemma main_run csv loc loaded res w1 :
  load csv = inr loaded ->
  crawl_all loc (initial loaded) = (res, w1) ->
  main csv loc
  = match res with
    | inr _ => (0, advance w1 [Print msg_done] 0 0)
    | inl (RuntimeError m) =>
        (0, advance w1 [Print (if contains "RATE_LIMIT_HARD" m
                               then msg_rerun else msg_other)] 0 0)
    | inl (KeyError _) => (1, w1)
    end.
Proof.
  intros HL HC. unfold main. rewrite HL. unfold crawl_guarded, catch, bind. rewrite HC.
  destruct res as [[m|k]|[]]; try reflexivity.
  destruct (contains "RATE_LIMIT_HARD" m); reflexivity.
Qed.

Lemma main_steady csv loc : steady (snd (main csv loc)).
Proof.
  destruct (load csv) as [e|loaded] eqn:HL.
  - unfold main. rewrite HL. simpl. split; [|split; constructor].
    split; [constructor | left; reflexivity].
  - destruct (crawl_all loc (initial loaded)) as [res w1] eqn:HC.
    pose proof (crawl_all_steady _ _ _ _ (initial_steady _ _ HL) HC) as (D & S & G).
    rewrite (main_run _ _ _ _ _ HL HC).
    assert (forall m, steady (advance w1 [Print m] 0 0)).
    { intros m. unfold steady, advance, saves_tidy. cbn [df_vn trace].
      rewrite gets_app, Forall_app. simpl. rewrite app_nil_r.
      split; [exact D|]. split; [|exact G]. split; [exact S | repeat constructor]. }
    destruct res as [[m|k]|[]]; simpl; auto.
    exact (conj D (conj S G)).
Qed.


(** * The claims *)

(** C1.  When the run is stopped by RATE_LIMIT_HARD, the file written just
    before the stop accounts for every row the run has had in hand (the
    rows loaded at the start, the rows of every window collected for the
    regions already completed and for the region under way): every such
    row with a timestamp has its (region, timestamp) key in the file, the
    file holds only such rows, and a row whose key no other row shares is
    in the file itself. *)
Theorem no_loss_on_hard_stop csv loc loaded w1 :
  load csv = inr loaded ->
  crawl_all loc (initial loaded) = (inl (RuntimeError "RATE_LIMIT_HARD"), w1) ->
  main csv loc = (0, advance w1 [Print msg_rerun] 0 0)
  /\ (forall r,
         In r (pool loaded (trace (snd (main csv loc)))) -> stamped r = true ->
         exists file r',
           last_saved (trace (snd (main csv loc))) = Some file
           /\ In r' (rows file) /\ key r' = key r)
  /\ (forall file r',
         last_saved (trace (snd (main csv loc))) = Some file ->
         In r' (rows file) ->
         In r' (pool loaded (trace (snd (main csv loc)))))
  /\ (forall r,
         In r (pool loaded (trace (snd (main csv loc)))) -> stamped r = true ->
         (forall r2, In r2 (pool loaded (trace (snd (main csv loc)))) ->
                     key r2 = key r -> r2 = r) ->
         exists file,
           last_saved (trace (snd (main csv loc))) = Some file /\ In r (rows file)).
Proof.
  intros HL HC. rewrite (main_run _ _ _ _ _ HL HC). rewrite contains_hard.
  cbn [snd]. split; [reflexivity|].
  destruct (crawl_all_accounted loaded loc _ _ _ (initial_steady _ _ HL)
              (initial_accounted loaded) HC) as (_ & _ & Hh).
  destruct (Hh eq_refl) as ((A1 & A2 & A3) & Hfile). clear Hh.
  assert (Hp : pool loaded (trace (advance w1 [Print msg_rerun] 0 0))
               = pool loaded (trace w1)).
  { unfold pool, advance. cbn [trace]. rewrite collected_app. simpl.
    rewrite app_nil_r. reflexivity. }
  assert (Hs : last_saved (trace (advance w1 [Print msg_rerun] 0 0))
               = last_saved (trace w1)).
  { unfold advance. cbn [trace]. rewrite last_saved_app. reflexivity. }
  rewrite Hp, Hs.
  assert (Hkeys : forall r, In r (pool loaded (trace w1)) -> stamped r = true ->
                            exists file r', last_saved (trace w1) = Some file
                                            /\ In r' (rows file) /\ key r' = key r).
  { intros r Hr Hst. destruct (A1 r Hr Hst) as (r' & Hin & Hk).
    destruct Hfile as [He|Hf]; [rewrite He in Hin; contradiction|].
    exists (df_vn w1), r'. auto. }
  assert (Hsub : forall file r', last_saved (trace w1) = Some file ->
                                 In r' (rows file) -> In r' (pool loaded (trace w1))).
  { intros file r' Hf Hin. destruct A3 as [Hnone|Hsame]; [congruence|].
    rewrite Hsame in Hf. inversion Hf; subst. auto. }
  split; [exact Hkeys|]. split; [exact Hsub|].
  intros r Hr Hst Huniq. destruct (Hkeys r Hr Hst) as (file & r' & Hf & Hin & Hk).
  exists file. split; [exact Hf|].
  rewrite <- (Huniq r' (Hsub _ _ Hf Hin) Hk). exact Hin.
Qed.

(** C2 (as the code has it).  When the run is stopped by RATE_LIMIT_HARD
    the dataset in memory, if it has rows, was written to the file, then
    the "run again later" message is printed and the script ends with exit
    status 0; a run that completes all regions prints the completion
    message and ends with exit status 0 as well.  The two ends differ by
    the message, not by the status. *)
Theorem exit_after_hard_stop csv loc loaded res w1 :
  load csv = inr loaded ->
  crawl_all loc (initial loaded) = (res, w1) ->
  (res = inl (RuntimeError "RATE_LIMIT_HARD") ->
   main csv loc = (0, advance w1 [Print msg_rerun] 0 0)
   /\ (rows (df_vn w1) = [] \/ last_saved (trace w1) = Some (df_vn w1)))
  /\ (res = inr tt -> main csv loc = (0, advance w1 [Print msg_done] 0 0)).
Proof.
  intros HL HC. rewrite (main_run _ _ _ _ _ HL HC). split.
  - intros ->. rewrite contains_hard. split; [reflexivity|].
    destruct (crawl_all_accounted loaded loc _ _ _ (initial_steady _ _ HL)
                (initial_accounted loaded) HC) as (_ & _ & Hh).
    destruct (Hh eq_refl) as (_ & Hfile). exact Hfile.
  - intros ->. reflexivity.
Qed.

(** C7.  A merge of new blocks into the dataset (at the end of a region's
    turn, and in the same way at a hard stop) succeeds, leaves in memory and
    writes to the file one frame.  That frame holds exactly the first row
    of every (region, timestamp) key of the dataset followed by the blocks,
    for the keys that have a timestamp: one row per key, no row without a
    timestamp, every key with a timestamp kept, in ascending (region,
    timestamp) order.  Its columns are those of the dataset and of the
    blocks, as [Tinh_thanh], the code columns present, the other columns,
    [Datetime].  Every frame a run ever writes has one row per key, a
    timestamp in every row, that order of rows and that order of
    columns. *)
Theorem merged_dataset_form :
  (forall w tinh,
      dataset_ok (df_vn w) -> df_blocks w <> [] ->
      Forall (fetched tinh) (df_blocks w) ->
      exists out,
        merge_and_persist w
        = (inr tt, mkWorld out (df_blocks w) (trace w ++ [ToCsv out]) (asked w) (drawn w))
        /\ on_runtime_error (RuntimeError "RATE_LIMIT_HARD") w
           = (inl (RuntimeError "RATE_LIMIT_HARD"),
              mkWorld out (df_blocks w) (trace w ++ [ToCsv out]) (asked w) (drawn w))
        /\ tidy_form out
        /\ rows out
           = sort_rows (filter stamped
                          (drop_duplicates_from []
                             (rows (df_vn w) ++ flat_map rows (df_blocks w))))
        /\ (forall r,
               In r (rows out)
               <-> first_with (key r) (rows (df_vn w) ++ flat_map rows (df_blocks w))
                   = Some r
                   /\ stamped r = true)
        /\ (forall r,
               In r (rows (df_vn w) ++ flat_map rows (df_blocks w)) -> stamped r = true ->
               exists r', In r' (rows out) /\ key r' = key r)
        /\ columns out = ordered_cols (merged (df_vn w) (df_blocks w))
        /\ (forall c,
               In c (columns out)
               <-> (empty (df_vn w) = false /\ In c (columns (df_vn w)))
                   \/ exists b, In b (df_blocks w) /\ In c (columns b)))
  /\ (forall csv loc df, In (ToCsv df) (trace (snd (main csv loc))) -> tidy_form df).
Proof.
  split.
  - intros w tinh Hd Hn Hf.
    assert (Hfr : Forall fragment_ok (df_blocks w)).
    { eapply Forall_impl; [|exact Hf]. intros df. apply fetched_fragment. }
    destruct (merge_tidy _ _ Hd Hn Hfr) as (out & Ho & Hr & F & _).
    assert (Ha : at_hard_stop w = merged (df_vn w) (df_blocks w)).
    { unfold at_hard_stop. destruct (df_blocks w); [congruence | reflexivity]. }
    pose proof (tidy_keyed _ _ Ho) as [K Hc].
    exists out. split; [apply merge_and_persist_cons; assumption|].
    split.
    { apply hard_stop_saves; rewrite Ha; [apply merged_nonempty; assumption | exact Ho]. }
    split; [exact F|]. split; [exact Hr|]. split.
    { intros r. rewrite Hr. apply cleaned_in. }
    split.
    { intros r Hin Hs. rewrite Hr. apply cleaned_cover; assumption. }
    split; [exact Hc|].
    intros c. rewrite Hc, (ordered_cols_in _ c K). apply merged_columns_in. exact Hn.
  - intros csv loc df Hin.
    destruct (main_steady csv loc) as (_ & S & _).
    unfold saves_tidy in S. rewrite Forall_forall in S. apply (S _ Hin).
Qed.

(** ** The resume date *)

Lemma maximum_spec t ts :
  In (maximum t ts) (t :: ts) /\ forall x, In x (t :: ts) -> x <= maximum t ts.
Proof.
  revert t. induction ts as [|y ys IH]; intros t; simpl.
  - split; [auto|]. intros x [->|[]]. lia.
  - destruct (IH y) as [Hin Hle]. split.
    + destruct (Z.max_spec t (maximum y ys)) as [[_ ->]|[_ ->]]; [right; exact Hin | auto].
    + intros x [->|Hx]; [lia|]. specialize (Hle x Hx). lia.
Qed.

Lemma latest_stamps t ts : latest (map Stamp (t :: ts)) = Some (maximum t ts).
Proof.
  revert t. induction ts as [|y ys IH]; intros t; [reflexivity|].
  change (latest (map Stamp (t :: y :: ys)))
    with (match latest (map Stamp (y :: ys)) with
          | Some m => Some (Z.max t m)
          | None => Some t
          end).
  rewrite IH. reflexivity.
Qed.

Lemma region_stamps df tinh :
  map (get "Datetime")
      (filter (fun r => negb (is_na (get "Datetime" r)))
         (map (fun r => set "Datetime" (to_datetime (get "Datetime" r)) r)
            (filter (fun r => cell_eqb (get "Tinh_thanh" r) (Text tinh)) (rows df))))
  = map Stamp (stamps_of df tinh).
Proof.
  unfold stamps_of. induction (rows df) as [|r rs IH]; [reflexivity|]. simpl.
  destruct (cell_eqb (get "Tinh_thanh" r) (Text tinh)); [|exact IH]. simpl.
  rewrite get_set_same.
  destruct (to_datetime_timed (get "Datetime" r)) as [E|[t E]]; rewrite E; simpl.
  - exact IH.
  - rewrite get_set_same, IH. reflexivity.
Qed.

Lemma resume_date_spec df tinh :
  columns df <> [] \/ rows df = [] ->
  resume_date df tinh
  = match stamps_of df tinh with
    | [] => start_all
    | t :: ts => date_of (maximum t ts) + 1
    end.
Proof.
  intros Hwf. unfold resume_date.
  destruct (negb (empty df)
            && existsb (fun r => cell_eqb (get "Tinh_thanh" r) (Text tinh)) (rows df)) eqn:C.
  - unfold dropna, coerce_datetime, assign. cbn [rows columns].
    pose proof (region_stamps df tinh) as Hs.
    set (S := filter _ (map _ (filter _ (rows df)))) in *.
    assert (Hempty : forall cols, cols <> [] -> empty (mkFrame cols S)
                                               = match S with [] => true | _ => false end).
    { intros cols Hc. unfold empty. cbn [rows columns]. destruct cols; [congruence|].
      reflexivity. }
    rewrite Hempty.
    2:{ destruct (mem "Datetime" (columns df)).
        - apply andb_true_iff in C as [C _]. unfold empty in C.
          destruct (columns df); [discriminate | discriminate].
        - intros E. apply app_eq_nil in E as [_ E]. discriminate. }
    destruct S as [|s S'].
    + simpl in Hs. destruct (stamps_of df tinh); [reflexivity | discriminate].
    + cbn [negb]. rewrite Hs.
      destruct (stamps_of df tinh) as [|t ts]; [discriminate|].
      rewrite latest_stamps. reflexivity.
  - assert (Hnone : stamps_of df tinh = []).
    { unfold stamps_of. apply andb_false_iff in C as [C|C].
      - apply negb_false_iff in C. unfold empty in C.
        destruct Hwf as [Hc|Hr]; [|rewrite Hr; reflexivity].
        destruct (columns df); [congruence|].
        destruct (rows df); [reflexivity | discriminate].
      - clear Hwf. revert C. induction (rows df) as [|r rs IH]; intros C; [reflexivity|].
        simpl in C |- *. apply orb_false_iff in C as [C1 C2]. rewrite C1.
        apply IH. exact C2. }
    rewrite Hnone. reflexivity.
Qed.

(** C5.  The start date of a region is 2000-01-01 when the dataset has no
    timestamp for it and otherwise the day after the date of the latest
    such timestamp; when that start date is after yesterday the turn of the
    region changes nothing: no request, no write, the same dataset. *)
Theorem resume_and_skip :
  (forall df tinh,
      columns df <> [] \/ rows df = [] ->
      (stamps_of df tinh = [] /\ resume_date df tinh = start_all)
      \/ (exists latest_stamp,
             In latest_stamp (stamps_of df tinh)
             /\ (forall t, In t (stamps_of df tinh) -> t <= latest_stamp)
             /\ resume_date df tinh = date_of latest_stamp + 1))
  /\ (forall tinh lat lon w,
         yesterday < resume_date (df_vn w) tinh ->
         crawl_region (tinh, lat, lon) w = (inr tt, w)).
Proof.
  split.
  - intros df tinh Hwf. rewrite (resume_date_spec df tinh Hwf).
    destruct (stamps_of df tinh) as [|t ts]; [left; auto|]. right.
    exists (maximum t ts). destruct (maximum_spec t ts) as [Hin Hle]. auto.
  - intros tinh lat lon w H. unfold crawl_region, bind, read_df_vn.
    apply Z.gtb_lt in H. rewrite H. reflexivity.
Qed.

(** ** Windows and rows of one region's turn *)


(** The windows and requests of one turn of the region loop. *)
Lemma crawl_region_windows tinh lat lon w res w' :
  dataset_ok (df_vn w) ->
  crawl_region (tinh, lat, lon) w = (res, w') ->
  exists issued,
    trace w' = trace w ++ issued
    /\ (exists rest, windows_from (resume_date (df_vn w) tinh) = blocks_of issued ++ rest)
    /\ (yesterday < resume_date (df_vn w) tinh -> issued = [])
    /\ (res = inr tt -> resume_date (df_vn w) tinh <= yesterday ->
        blocks_of issued = windows_from (resume_date (df_vn w) tinh))
    /\ Forall (fun q => exists s e, In (s, e) (blocks_of issued)
                                    /\ q = mkRequest lat lon s e) (gets issued).
Proof.
  intros Hd H.
  destruct (crawl_region_run _ _ _ _ _ _ Hd H)
    as [(Hlt & -> & ->)|(Hle & new & tail & Ht & Hpre & Hq & _ & _ & Hout)].
  - exists []. rewrite app_nil_r. split; [reflexivity|].
    split; [eexists; reflexivity|]. split; [reflexivity|].
    split; [intros; lia | constructor].
  - exists (new ++ tail).
    assert (Htail : gets tail = [] /\ collected tail = [] /\ blocks_of tail = []).
    { apply (tail_cases_gets tail (df_vn w')).
      destruct Hout as [(_ & _ & _ & _ & ->)
                       |[(_ & _ & _ & _ & ->)
                        |[(_ & _ & _ & _ & ->)
                         |[(_ & _ & _ & _ & ->)
                          |[(_ & _ & _ & ->)
                           |(k & _ & _ & ->)]]]]]; auto. }
    destruct Htail as (G & _ & B).
    rewrite blocks_of_app, gets_app, B, G, !app_nil_r.
    split; [exact Ht|]. split; [exact Hpre|]. split; [intros; lia|].
    split; [|exact Hq].
    intros -> _.
    destruct Hout as [(_ & Hw & _)
                     |[(_ & Hw & _)
                      |[(Hx & _)|[(Hx & _)|[(Hx & _)|(k & Hx & _)]]]]];
      try discriminate; auto.
Qed.



Lemma date_of_mono a b : a <= b -> date_of a <= date_of b.
Proof. intros H. unfold date_of. apply Z.div_le_mono; lia. Qed.

(** C6 (as the code has it).  Every request of a region's turn starts no
    earlier than the region's start date, ends no later than yesterday and
    spans at most 365 days from start to end, and so does every request of
    a whole run.  The start date of a region is 2000-01-01 or later exactly
    when the dataset holds no timestamp of that region or holds one dated
    1999-12-31 or later (the latest one decides); every request of such a
    turn then starts on 2000-01-01 or later. *)
Theorem window_bounds :
  (forall tinh lat lon w res w',
      dataset_ok (df_vn w) ->
      crawl_region (tinh, lat, lon) w = (res, w') ->
      exists issued,
        trace w' = trace w ++ issued
        /\ forall q, In q (gets issued) ->
                     resume_date (df_vn w) tinh <= start_date q /\ bounded q)
  /\ (forall csv loc q, In q (gets (trace (snd (main csv loc)))) -> bounded q)
  /\ (forall df tinh,
         columns df <> [] \/ rows df = [] ->
         (start_all <= resume_date df tinh
          <-> (stamps_of df tinh = []
               \/ exists t, In t (stamps_of df tinh) /\ start_all - 1 <= date_of t)))
  /\ (forall tinh lat lon w res w',
         dataset_ok (df_vn w) ->
         crawl_region (tinh, lat, lon) w = (res, w') ->
         (stamps_of (df_vn w) tinh = []
          \/ exists t, In t (stamps_of (df_vn w) tinh) /\ start_all - 1 <= date_of t) ->
         exists issued,
           trace w' = trace w ++ issued
           /\ forall q, In q (gets issued) -> start_all <= start_date q).
Proof.
  assert (Hreq : forall tinh lat lon w res w',
             dataset_ok (df_vn w) ->
             crawl_region (tinh, lat, lon) w = (res, w') ->
             exists issued,
               trace w' = trace w ++ issued
               /\ forall q, In q (gets issued) ->
                            resume_date (df_vn w) tinh <= start_date q /\ bounded q).
  { intros tinh lat lon w res w' Hd H.
    destruct (crawl_region_windows _ _ _ _ _ _ Hd H)
      as (issued & Ht & (rest & Hpre) & _ & _ & Hq).
    exists issued. split; [exact Ht|]. intros q Hin.
    rewrite Forall_forall in Hq. destruct (Hq q Hin) as (s & e & Hw & ->).
    assert (In (s, e) (windows_from (resume_date (df_vn w) tinh)))
      by (rewrite Hpre; apply in_or_app; left; exact Hw).
    apply windows_bounds in H0. unfold bounded. simpl. lia. }
  assert (Hepoch : forall df tinh,
             columns df <> [] \/ rows df = [] ->
             (start_all <= resume_date df tinh
              <-> (stamps_of df tinh = []
                   \/ exists t, In t (stamps_of df tinh) /\ start_all - 1 <= date_of t))).
  { intros df tinh Hwf. rewrite (resume_date_spec df tinh Hwf).
    destruct (stamps_of df tinh) as [|t ts]; [split; [auto | lia]|].
    destruct (maximum_spec t ts) as [Hin Hmax]. split.
    - intros Hle. right. exists (maximum t ts). split; [exact Hin | lia].
    - intros [E|(x & Hx & Hle)]; [discriminate|].
      apply Hmax in Hx. apply date_of_mono in Hx. lia. }
  split; [exact Hreq|]. split; [|split; [exact Hepoch|]].
  - intros csv loc q Hin. destruct (main_steady csv loc) as (_ & _ & G).
    rewrite Forall_forall in G. auto.
  - intros tinh lat lon w res w' Hd H Hst.
    destruct (Hreq _ _ _ _ _ _ Hd H) as (issued & Ht & Hq).
    exists issued. split; [exact Ht|]. intros q Hin.
    destruct (Hq q Hin) as [Hle _].
    assert (Hwf : columns (df_vn w) <> [] \/ rows (df_vn w) = []).
    { destruct Hd as [_ [E|K]]; [right; exact E | left; apply keyed_columns; exact K]. }
    apply (proj2 (Hepoch _ tinh Hwf)) in Hst. lia.
Qed.



(** ** The join of the hourly and the daily table *)

Lemma reshape_columns data tinh df :
  reshape data tinh = inr df ->
  columns df = ordered_cols (drop_column "Date"
                 (merge_left "Date" (hourly_frame data tinh) (daily_frame data))).
Proof.
  unfold reshape.
  destruct (negb (mem "time" (columns (hourly data)))); [discriminate|].
  destruct (negb (mem "time" (columns (daily data)))); [discriminate|].
  intros H. apply reorder_columns_inr in H as [_ ->]. reflexivity.
Qed.

Lemma no_date_column df : mem "Date" (ordered_cols (drop_column "Date" df)) = false.
Proof.
  unfold ordered_cols, drop_column. cbn [columns].
  change (["Tinh_thanh"] ++ ?l) with ("Tinh_thanh" :: l).
  assert (forall c rest, mem c ("Tinh_thanh" :: rest)
                         = String.eqb c "Tinh_thanh" || mem c rest) as Hcons
      by reflexivity.
  rewrite Hcons, !mem_app, !mem_filter. cbn. reflexivity.
Qed.

Lemma flat_map_single {A B C} (F : B -> list C) (h : A -> B) (k : A -> C)
      (g : C -> C) ls :
  (forall l, In l ls -> map g (F (h l)) = [k l]) ->
  map g (flat_map F (map h ls)) = map k ls.
Proof.
  induction ls as [|l ls IH]; intros H; [reflexivity|]. simpl.
  rewrite map_app, (H l) by (left; reflexivity).
  rewrite IH by (intros; apply H; right; assumption). reflexivity.
Qed.

Lemma joined_rows data tinh d r0 ls :
  (forall l, In l ls -> dt_date (to_datetime (get "time" l)) = Day d) ->
  dt_date (to_datetime (get "time" r0)) = Day d ->
  map (filter (fun kv : string * cell => negb (String.eqb (fst kv) "Date")))
      (flat_map
         (fun l =>
            match filter (fun r => cell_eqb (get "Date" r) (get "Date" l))
                         [daily_row data r0] with
            | [] => [map (fun kv : string * cell =>
                            (suffixed (columns (daily_frame data)) "Date" "_x" (fst kv),
                             snd kv)) l]
            | ms => map (fun r =>
                           map (fun kv : string * cell =>
                                  (suffixed (columns (daily_frame data)) "Date" "_x" (fst kv),
                                   snd kv)) l
                           ++ map (fun kv : string * cell =>
                                     (suffixed (columns (hourly_frame data tinh)) "Date" "_y"
                                               (fst kv), snd kv))
                                (filter (fun kv : string * cell =>
                                           negb (String.eqb (fst kv) "Date")) r)) ms
            end)
         (map (hourly_row tinh) ls))
  = map (fun l => hourly_part data tinh l ++ daily_part data tinh r0) ls.
Proof.
  intros Hh Hd0. apply flat_map_single. intros l Hl.
  cbn [filter]. rewrite hourly_row_date, daily_row_date, Hd0, (Hh l Hl).
  cbn [cell_eqb]. rewrite Z.eqb_refl. cbn [map app].
  unfold hourly_part, daily_part. rewrite filter_app. reflexivity.
Qed.

(** C9.  With 24 hourly rows of one date and one daily row of that date,
    the reshaped frame has 24 rows and no [Date] column; each row is the
    cells of its hourly row followed by the cells of the daily row (the
    same for all 24), none under the name [Date]. *)
Theorem reshape_join data tinh d r0 df :
  List.length (rows (hourly data)) = 24%nat ->
  (forall l, In l (rows (hourly data)) -> dt_date (to_datetime (get "time" l)) = Day d) ->
  rows (daily data) = [r0] ->
  dt_date (to_datetime (get "time" r0)) = Day d ->
  reshape data tinh = inr df ->
  List.length (rows df) = 24%nat
  /\ mem "Date" (columns df) = false
  /\ rows df = map (fun l => hourly_part data tinh l ++ daily_part data tinh r0)
                   (rows (hourly data))
  /\ Forall (fun row => bound "Date" row = false) (rows df)
  /\ (forall row c v,
         In row (rows df) -> In (c, v) (daily_row data r0) -> c <> "Date" ->
         In (suffixed (columns (hourly_frame data tinh)) "Date" "_y" c, v) row).
Proof.
  intros Hlen Hh Hone Hd0 H.
  pose proof (reshape_columns _ _ _ H) as Hc.
  apply reshape_inr in H as (_ & Hr & _).
  assert (Hrows : rows df = map (fun l => hourly_part data tinh l ++ daily_part data tinh r0)
                                (rows (hourly data))).
  { rewrite Hr. unfold drop_column, merge_left. cbn [rows].
    rewrite hourly_frame_rows, daily_frame_rows, Hone. cbn [map].
    apply (joined_rows data tinh d r0); assumption. }
  split; [rewrite Hrows, length_map; exact Hlen|].
  split; [rewrite Hc; apply no_date_column|].
  split; [exact Hrows|]. split.
  - rewrite Hrows. apply Forall_forall. intros row Hrow.
    apply in_map_iff in Hrow as (l & <- & _).
    unfold hourly_part, daily_part. rewrite <- filter_app. apply bound_filter_same.
  - intros row c v Hrow Hcv Hne. rewrite Hrows in Hrow.
    apply in_map_iff in Hrow as (l & <- & _). apply in_or_app. right.
    unfold daily_part. apply filter_In. split.
    + apply in_map_iff. exists (c, v). split; [reflexivity|].
      apply filter_In. split; [exact Hcv|]. simpl.
      apply negb_true_iff. apply String.eqb_neq. exact Hne.
    + simpl. apply negb_true_iff. apply String.eqb_neq. intros E.
      apply (proj1 (suffixed_fixed _ "Date" "_y" "Date" (or_intror eq_refl) y_not_date c)) in E.
      contradiction.
Qed.

(** * Further properties of the code *)

(** ** The retry loop, in general *)

Lemma sleeps_app a b : sleeps (a ++ b) = sleeps a ++ sleeps b.
Proof.
  induction a as [|e a IH]; simpl; [reflexivity|].
  destruct e; simpl; rewrite ?IH; reflexivity.
Qed.

Lemma total_app a b : total (a ++ b) = total a + total b.
Proof.
  unfold total. induction a as [|x a IH]; simpl; [reflexivity|]. rewrite IH. lia.
Qed.

Lemma range1_length n : List.length (range1 n) = n.
Proof. unfold range1. rewrite length_map, length_seq. reflexivity. Qed.

(** One attempt, with the length of its sleep. *)
Lemma attempt_step q tinh base n later w :
  (retryable (server (asked w) q) = true
   /\ exists secs d,
       (secs = 10 * n \/ secs = 20 * n
        \/ exists jitter, 0 <= jitter <= 60 /\ secs = base * n + jitter)
       /\ attempt_loop q tinh base (n :: later) w
          = attempt_loop q tinh base later (advance w [Get q; Sleep secs] 1 d))
  \/ (retryable (server (asked w) q) = false
      /\ attempt_loop q tinh base (n :: later) w
         = (outcome tinh (server (asked w) q), advance w [Get q] 1 0)).
Proof.
  destruct (server (asked w) q) as [|status body] eqn:E.
  - left. split; [reflexivity|]. eexists _, _. split; [left; reflexivity|].
    apply (attempt_connection_error _ _ _ _ _ _ E).
  - destruct (Z.eq_dec status 200) as [->|N200].
    + right. split; [reflexivity|]. apply (attempt_200 _ _ _ _ _ _ _ E).
    + destruct (retryable (Http status body)) eqn:R.
      * left. split; [reflexivity|]. simpl in R. apply orb_true_iff in R as [R|R].
        -- apply Z.eqb_eq in R; subst status. eexists _, _. split.
           ++ right; right. eexists. split; [|reflexivity]. apply randint_range. lia.
           ++ apply (attempt_429 _ _ _ _ _ _ _ E).
        -- eexists _, _. split; [right; left; reflexivity|].
           apply (attempt_5xx _ _ _ _ _ _ _ _ E R).
      * right. split; [reflexivity|].
        rewrite (attempt_other _ _ _ _ _ _ _ _ E N200 R). simpl.
        apply Z.eqb_neq in N200. rewrite N200. reflexivity.
Qed.

Lemma attempt_loop_count q tinh base attempts :
  forall w res w',
    attempt_loop q tinh base attempts w = (res, w') ->
    exists new d,
      w' = advance w new (List.length (gets new)) d
      /\ Forall (eq q) (gets new)
      /\ (List.length (gets new) <= List.length attempts)%nat
      /\ (attempts <> [] -> (1 <= List.length (gets new))%nat)
      /\ (List.length (sleeps new) <= List.length (gets new))%nat
      /\ last_saved new = None /\ collected new = [] /\ blocks_of new = []
      /\ (attempts = [] -> res = inl (RuntimeError "RATE_LIMIT_HARD") /\ new = []).
Proof.
  induction attempts as [|n later IH]; intros w res w' H.
  - simpl in H. inversion H; subst. exists [], O. rewrite advance_nil. simpl.
    repeat split; auto. congruence.
  - destruct (attempt_step q tinh base n later w)
      as [(_ & secs & d & _ & Hs)|(_ & Hs)]; rewrite Hs in H.
    + apply IH in H as (new & d' & -> & Hq & Hle & _ & Hsl & Hsv & Hc & Hb & _).
      exists ([Get q; Sleep secs] ++ new), (d' + d)%nat.
      rewrite advance_advance. simpl.
      rewrite Hsv, Hc, Hb.
      repeat split; auto; try lia; try discriminate.
      f_equal. lia.
    + inversion H; subst. exists [Get q], O. simpl.
      repeat split; auto; try lia; discriminate.
Qed.

(** X1.  A fetch sends one request per attempt it makes: at most
    [max_attempts], at least one when [max_attempts] is not 0, all with the
    same query; it sleeps at most once per request; it does not touch the
    dataset, the collected blocks or the file.  With [max_attempts = 0] it
    raises RATE_LIMIT_HARD without any request. *)
Theorem fetch_request_count lat lon s e tinh max_attempts base w res w' :
  fetch_block lat lon s e tinh max_attempts base w = (res, w') ->
  exists new d,
    w' = advance w new (List.length (gets new)) d
    /\ Forall (eq (mkRequest lat lon s e)) (gets new)
    /\ (List.length (gets new) <= max_attempts)%nat
    /\ (max_attempts <> O -> (1 <= List.length (gets new))%nat)
    /\ (List.length (sleeps new) <= List.length (gets new))%nat
    /\ last_saved new = None /\ collected new = [] /\ blocks_of new = []
    /\ (max_attempts = O -> res = inl (RuntimeError "RATE_LIMIT_HARD") /\ new = []).
Proof.
  unfold fetch_block. intros H.
  apply attempt_loop_count in H
    as (new & d & Hw & Hq & Hle & Hone & Hsl & Hsv & Hc & Hb & Hz).
  rewrite range1_length in Hle.
  exists new, d. repeat split; auto.
  - intros Hn. apply Hone. intros E.
    apply (f_equal (@List.length Z)) in E. rewrite range1_length in E. simpl in E. lia.
  - apply Hz. subst max_attempts. reflexivity.
  - apply Hz. subst max_attempts. reflexivity.
Qed.

Lemma attempt_loop_decided q tinh base attempts :
  forall k w,
    (k < List.length attempts)%nat ->
    (forall j, (j < k)%nat -> retryable (server (j + asked w) q) = true) ->
    retryable (server (k + asked w) q) = false ->
    exists new d,
      attempt_loop q tinh base attempts w
      = (outcome tinh (server (k + asked w) q), advance w new (S k) d)
      /\ gets new = repeat q (S k)
      /\ List.length (sleeps new) = k.
Proof.
  induction attempts as [|n later IH]; intros k w Hk Hre Hlast; simpl in Hk; [lia|].
  destruct (attempt_step q tinh base n later w)
    as [(R & secs & d & _ & Hs)|(R & Hs)]; rewrite Hs.
  - destruct k as [|k]; [simpl in Hlast; congruence|].
    destruct (IH k (advance w [Get q; Sleep secs] 1 d)) as (new & d' & Hrun & Hg & Hsl).
    + lia.
    + intros j Hj. simpl.
      replace (j + S (asked w))%nat with (S j + asked w)%nat by lia. apply Hre. lia.
    + simpl. replace (k + S (asked w))%nat with (S k + asked w)%nat by lia. exact Hlast.
    + exists ([Get q; Sleep secs] ++ new), (d' + d)%nat.
      rewrite Hrun, advance_advance. simpl.
      replace (k + S (asked w))%nat with (S (k + asked w))%nat by lia.
      replace (S (k + 1))%nat with (S (S k)) by lia.
      rewrite Hg, Hsl. auto.
  - destruct k as [|k].
    + exists [Get q], O. simpl. auto.
    + specialize (Hre O ltac:(lia)). simpl in Hre. congruence.
Qed.




Lemma total_cons x l : total (x :: l) = x + total l.
Proof. reflexivity. Qed.

Lemma attempt_loop_sleeps q tinh base attempts :
  forall w res w',
    20 <= base ->
    Forall (fun n => 0 <= n) attempts ->
    attempt_loop q tinh base attempts w = (res, w') ->
    exists new a d,
      w' = advance w new a d
      /\ total (sleeps new) <= total (map (fun n => base * n + 60) attempts)
      /\ 0 <= total (sleeps new).
Proof.
  induction attempts as [|n later IH]; intros w res w' Hb Hpos H.
  - simpl in H. inversion H; subst. exists [], O, O. rewrite advance_nil.
    split; [reflexivity|]. cbn. lia.
  - inversion Hpos as [|? ? Hn Hlater]; subst.
    assert (Hbn : 20 * n <= base * n) by (apply Z.mul_le_mono_nonneg_r; lia).
    cbn [map]. rewrite total_cons.
    destruct (attempt_step q tinh base n later w)
      as [(_ & secs & d & Hsecs & Hs)|(_ & Hs)]; rewrite Hs in H.
    + apply (IH _ _ _ Hb Hlater) in H as (new & a & d' & -> & Hle & H0).
      exists ([Get q; Sleep secs] ++ new), (a + 1)%nat, (d' + d)%nat.
      rewrite advance_advance. split; [reflexivity|].
      change (sleeps ([Get q; Sleep secs] ++ new)) with (secs :: sleeps new).
      rewrite total_cons.
      destruct Hsecs as [->|[->|(j & Hj & ->)]]; lia.
    + inversion H; subst. exists [Get q], 1%nat, O. split; [reflexivity|].
      change (total (sleeps [Get q])) with 0.
      assert (0 <= total (map (fun n0 => base * n0 + 60) later)).
      { clear - Hb Hlater. induction Hlater as [|x l Hx _ IHl]; [cbn; lia|].
        cbn [map]. rewrite total_cons.
        assert (0 <= base * x) by (apply Z.mul_nonneg_nonneg; lia). lia. }
      lia.
Qed.

(** X3.  With the default settings (six attempts, base wait 60 s) the
    sleeps of one fetch add up to at most 1620 seconds, whatever the server
    answers and whatever the random numbers are. *)
Theorem fetch_sleep_budget lat lon s e tinh w res w' :
  fetch_block lat lon s e tinh 6 60 w = (res, w') ->
  exists new a d,
    w' = advance w new a d /\ 0 <= total (sleeps new) <= 1620.
Proof.
  unfold fetch_block. intros H.
  apply attempt_loop_sleeps in H as (new & a & d & Hw & Hle & H0).
  - exists new, a, d. split; [exact Hw|]. split; [exact H0|].
    change (total (map (fun n => 60 * n + 60) (range1 6))) with 1620 in Hle. exact Hle.
  - lia.
  - repeat constructor; discriminate.
Qed.

(** ** The reshaping, in general *)

Lemma x_not_tinh k : String.append k "_x" <> "Tinh_thanh".
Proof. intros H. no_suffix H k. Qed.

Lemma y_not_tinh k : String.append k "_y" <> "Tinh_thanh".
Proof. intros H. no_suffix H k. Qed.

Lemma mem_map_fixed (f : string -> string) c l :
  (forall k, f k = c <-> k = c) -> mem c (map f l) = mem c l.
Proof.
  intros Hf. induction l as [|x l IH]; simpl; [reflexivity|]. rewrite IH.
  destruct (String.eqb_spec c (f x)) as [E|E], (String.eqb_spec c x) as [E'|E'];
    try reflexivity.
  - symmetry in E. apply (proj1 (Hf x)) in E. congruence.
  - subst x. exfalso. apply E. symmetry. apply (proj2 (Hf c)). reflexivity.
Qed.

Lemma hm_column_columns c df : columns (hm_column c df) = columns df.
Proof.
  unfold hm_column, assign. destruct (mem c (columns df)) eqn:E; reflexivity.
Qed.

Lemma mem_assign c c' f df :
  mem c (columns (assign c' f df)) = mem c (columns df) || String.eqb c c'.
Proof.
  unfold assign. cbn [columns]. destruct (mem c' (columns df)) eqn:E.
  - destruct (String.eqb_spec c c') as [Heq|N].
    + subst c. rewrite E. reflexivity.
    + rewrite orb_false_r. reflexivity.
  - rewrite mem_app. simpl. rewrite orb_false_r. reflexivity.
Qed.

(** The daily table keeps a column named [Datetime] or [Tinh_thanh] if the
    payload has one, and gets none otherwise. *)
Lemma daily_frame_columns data c :
  c = "Datetime" \/ c = "Tinh_thanh" ->
  mem c (columns (daily_frame data)) = mem c (columns (daily data)).
Proof.
  intros Hc. unfold daily_frame. rewrite !hm_column_columns.
  unfold rename, drop_column. cbn [columns].
  rewrite mem_map_fixed by (destruct Hc as [->| ->]; fixed_by_map).
  rewrite mem_filter, mem_assign.
  destruct Hc as [->| ->]; cbn; rewrite orb_false_r; reflexivity.
Qed.

Lemma hourly_frame_has_tinh data tinh :
  mem "Tinh_thanh" (columns (hourly_frame data tinh)) = true.
Proof.
  unfold hourly_frame. cbv zeta. rewrite mem_assign, mem_assign.
  rewrite String.eqb_refl, orb_true_r. reflexivity.
Qed.

Lemma joined_missing L R c :
  (c = "Datetime" \/ c = "Tinh_thanh") ->
  mem c (columns L) = true ->
  mem c (columns (drop_column "Date" (merge_left "Date" L R)))
  = negb (mem c (columns R)).
Proof.
  intros Hc HL.
  assert (Hx : forall k, String.append k "_x" <> c)
    by (destruct Hc as [->| ->]; [apply x_not_datetime | apply x_not_tinh]).
  assert (Hy : forall k, String.append k "_y" <> c)
    by (destruct Hc as [->| ->]; [apply y_not_datetime | apply y_not_tinh]).
  assert (Hd : c <> "Date") by (destruct Hc as [->| ->]; discriminate).
  destruct (mem c (columns R)) eqn:HR; cbn [negb].
  - destruct (mem c (columns (drop_column "Date" (merge_left "Date" L R)))) eqn:H;
      [|reflexivity].
    exfalso. apply mem_spec in H. unfold drop_column, merge_left in H. cbn [columns] in H.
    apply filter_In in H as [H _]. apply in_app_or in H as [H|H];
      apply in_map_iff in H as (k & Hk & Hin); unfold suffixed in Hk.
    + destruct (negb (String.eqb k "Date") && mem k (columns R)) eqn:E.
      * exact (Hx _ Hk).
      * subst k. rewrite HR in E. apply String.eqb_neq in Hd. rewrite Hd in E. discriminate.
    + destruct (negb (String.eqb k "Date") && mem k (columns L)) eqn:E.
      * exact (Hy _ Hk).
      * subst k. rewrite HL in E. apply String.eqb_neq in Hd. rewrite Hd in E. discriminate.
  - apply mem_spec. unfold drop_column, merge_left. cbn [columns].
    apply filter_In. split.
    + apply in_or_app. left. apply in_map_iff. exists c. split.
      * unfold suffixed. rewrite HR, andb_false_r. reflexivity.
      * apply mem_spec. exact HL.
    + apply negb_true_iff. apply String.eqb_neq. exact Hd.
Qed.

(** X5.  For a 200 answer in which no step makes two columns of one name
    (the translated hourly names are distinct, the translated daily names
    are distinct, the merged names are distinct; pandas raises ValueError
    or MergeError otherwise, or carries both columns), the reshaping
    succeeds exactly when both tables of the payload have a [time] column
    and the daily table has no column named [Datetime] or [Tinh_thanh]; in
    every other case it raises KeyError. *)
Theorem reshape_succeeds_iff data tinh :
  NoDup (map (renamed COLUMN_MAP) (columns (hourly data))) ->
  NoDup (map (renamed DAILY_COLUMN_MAP) (columns (daily data))) ->
  NoDup (columns (merge_left "Date" (hourly_frame data tinh) (daily_frame data))) ->
  ((exists df, reshape data tinh = inr df)
   <-> (mem "time" (columns (hourly data)) = true
        /\ mem "time" (columns (daily data)) = true
        /\ mem "Datetime" (columns (daily data)) = false
        /\ mem "Tinh_thanh" (columns (daily data)) = false))
  /\ (forall e, reshape data tinh = inl e -> exists k, e = KeyError k).
Proof.
  intros _ _ _.
  split; [|intros e; apply reshape_raises].
  pose proof (joined_missing (hourly_frame data tinh) (daily_frame data) "Datetime"
                (or_introl eq_refl) (hourly_frame_has_datetime data tinh)) as HD.
  pose proof (joined_missing (hourly_frame data tinh) (daily_frame data) "Tinh_thanh"
                (or_intror eq_refl) (hourly_frame_has_tinh data tinh)) as HT.
  rewrite (daily_frame_columns data "Datetime") in HD by auto.
  rewrite (daily_frame_columns data "Tinh_thanh") in HT by auto.
  unfold reshape. split.
  - intros [df H].
    destruct (mem "time" (columns (hourly data))); [|discriminate].
    destruct (mem "time" (columns (daily data))); [|discriminate].
    cbn [negb] in H. apply reorder_columns_inr in H as [[K1 K2] _].
    rewrite HD in K2. rewrite HT in K1.
    apply negb_true_iff in K1, K2. auto.
  - intros (H1 & H2 & H3 & H4). rewrite H1, H2. cbn [negb].
    eexists. apply reorder_columns_inr. split; [|reflexivity].
    split; [rewrite HT, H4 | rewrite HD, H3]; reflexivity.
Qed.

Lemma reshape_daily_free data tinh df :
  reshape data tinh = inr df ->
  mem "Datetime" (columns (daily_frame data)) = false
  /\ mem "Tinh_thanh" (columns (daily_frame data)) = false.
Proof.
  unfold reshape. intros H.
  destruct (mem "time" (columns (hourly data))); [|discriminate].
  destruct (mem "time" (columns (daily data))); [|discriminate].
  cbn [negb] in H. apply reorder_columns_inr in H as [[K1 K2] _].
  rewrite joined_missing in K1 by (auto using hourly_frame_has_tinh).
  rewrite joined_missing in K2 by (auto using hourly_frame_has_datetime).
  apply negb_true_iff in K1, K2. auto.
Qed.

Lemma reshape_row data tinh df row :
  reshape data tinh = inr df -> In row (rows df) ->
  exists l0, In l0 (rows (hourly data))
             /\ get "Datetime" row = to_datetime (get "time" l0)
             /\ get "Tinh_thanh" row = Text tinh.
Proof.
  intros H Hrow.
  destruct (reshape_daily_free _ _ _ H) as [HD HT].
  apply reshape_inr in H as (_ & Hr & _). rewrite Hr in Hrow. clear Hr.
  unfold drop_column in Hrow. cbn [rows] in Hrow.
  apply in_map_iff in Hrow as (row' & <- & Hrow').
  apply merge_left_rows in Hrow' as (l & Hl & Hrow').
  rewrite hourly_frame_rows in Hl. apply in_map_iff in Hl as (l0 & <- & Hl0).
  exists l0. split; [exact Hl0|].
  pose proof (hourly_row_datetime tinh l0) as [Hg Hb].
  pose proof (hourly_row_tinh tinh l0) as [Hg' Hb'].
  assert (HfD : forall k, suffixed (columns (daily_frame data)) "Date" "_x" k = "Datetime"
                          <-> k = "Datetime")
    by (apply suffixed_fixed; [left; exact HD | apply x_not_datetime]).
  assert (HfT : forall k, suffixed (columns (daily_frame data)) "Date" "_x" k = "Tinh_thanh"
                          <-> k = "Tinh_thanh")
    by (apply suffixed_fixed; [left; exact HT | apply x_not_tinh]).
  rewrite !get_filter_other by discriminate.
  destruct Hrow' as [->|(r & _ & ->)].
  - rewrite (get_map_key _ "Datetime") by exact HfD.
    rewrite (get_map_key _ "Tinh_thanh") by exact HfT. auto.
  - rewrite (get_app_bound "Datetime")
      by (rewrite bound_map_key by exact HfD; exact Hb).
    rewrite (get_app_bound "Tinh_thanh")
      by (rewrite bound_map_key by exact HfT; exact Hb').
    rewrite (get_map_key _ "Datetime") by exact HfD.
    rewrite (get_map_key _ "Tinh_thanh") by exact HfT. auto.
Qed.

(** X6.  A reshaped frame has its columns in the order [Tinh_thanh], code
    columns, other columns, [Datetime]; every row carries the name of the
    region it was fetched for and, as its timestamp, the parsed [time] of
    an hourly row of the payload. *)
Theorem reshape_rows_tagged data tinh df :
  reshape data tinh = inr df ->
  column_order (columns df)
  /\ forall row, In row (rows df) ->
                 get "Tinh_thanh" row = Text tinh
                 /\ exists l0, In l0 (rows (hourly data))
                               /\ get "Datetime" row = to_datetime (get "time" l0).
Proof.
  intros H. split.
  - rewrite (reshape_columns _ _ _ H). apply ordered_cols_order.
  - intros row Hrow. destruct (reshape_row _ _ _ _ H Hrow) as (l0 & Hl & Hd & Ht).
    split; [exact Ht | eauto].
Qed.

Lemma flat_map_length_ge {A B} (F : A -> list B) l :
  (forall x, In x l -> F x <> []) -> (List.length l <= List.length (flat_map F l))%nat.
Proof.
  induction l as [|x l IH]; intros H; simpl; [lia|].
  rewrite length_app. specialize (IH (fun y Hy => H y (or_intror Hy))).
  assert (F x <> []) by (apply H; left; reflexivity).
  destruct (F x); [congruence|]. simpl. lia.
Qed.

Lemma flat_map_length_one {A B} (F : A -> list B) l :
  (forall x, In x l -> List.length (F x) = 1%nat) ->
  List.length (flat_map F l) = List.length l.
Proof.
  induction l as [|x l IH]; intros H; simpl; [reflexivity|].
  rewrite length_app, (H x) by (left; reflexivity).
  rewrite IH by (intros; apply H; right; assumption). reflexivity.
Qed.

Lemma filter_unique {A} (f : A -> cell) (v : cell) l :
  NoDup (map f l) ->
  (List.length (filter (fun r => cell_eqb (f r) v) l) <= 1)%nat.
Proof.
  induction l as [|x l IH]; simpl; intros Hn; [lia|].
  inversion Hn; subst. destruct (cell_eqb (f x) v) eqn:E; [|auto].
  apply cell_eqb_eq in E. simpl.
  assert (filter (fun r => cell_eqb (f r) v) l = []) as ->; [|simpl; lia].
  destruct (filter (fun r => cell_eqb (f r) v) l) as [|y ys] eqn:F; [reflexivity|].
  exfalso. assert (Hy : In y (filter (fun r => cell_eqb (f r) v) l))
    by (rewrite F; left; reflexivity).
  apply filter_In in Hy as [Hy Hv]. apply cell_eqb_eq in Hv.
  apply H1. rewrite E, <- Hv. apply in_map. exact Hy.
Qed.

(** X7.  The left merge loses no hourly row: a reshaped frame has at least
    as many rows as the hourly table of the payload, also when the daily
    table has no row for a date; it has exactly as many when no two rows of
    the daily table have the same date. *)
Theorem reshape_keeps_hourly_rows data tinh df :
  reshape data tinh = inr df ->
  (List.length (rows (hourly data)) <= List.length (rows df))%nat
  /\ (NoDup (map (fun r => dt_date (to_datetime (get "time" r))) (rows (daily data))) ->
      List.length (rows df) = List.length (rows (hourly data))).
Proof.
  intros H. apply reshape_inr in H as (_ & Hr & _). rewrite Hr. clear Hr.
  unfold drop_column, merge_left. cbn [rows]. rewrite length_map.
  rewrite hourly_frame_rows. split.
  - rewrite <- (length_map (hourly_row tinh) (rows (hourly data))).
    apply flat_map_length_ge. intros l _.
    destruct (filter _ (rows (daily_frame data))); discriminate.
  - intros Hn.
    transitivity (List.length (map (hourly_row tinh) (rows (hourly data))));
      [|apply length_map].
    apply flat_map_length_one. intros l _.
    assert (Hu : (List.length (filter (fun r => cell_eqb (get "Date" r) (get "Date" l))
                                      (rows (daily_frame data))) <= 1)%nat).
    { apply (filter_unique (get "Date")). rewrite daily_frame_rows, map_map.
      erewrite map_ext; [exact Hn|]. intros r. apply daily_row_date. }
    destruct (filter _ (rows (daily_frame data))) as [|m [|m' ms]]; simpl in *;
      [reflexivity | reflexivity | lia].
Qed.

(** X4.  A 200 answer whose hourly table has no row counts as "no data":
    the reshaped frame has no row, the window loop appends nothing to the
    collected blocks and goes on after its pause. *)
Theorem empty_payload_is_no_data lat lon tinh cur block_end w data df :
  server (asked w) (mkRequest lat lon cur block_end) = Http 200 data ->
  rows (hourly data) = [] ->
  reshape data tinh = inr df ->
  rows df = []
  /\ window_step lat lon tinh cur block_end w
     = (inr tt,
        advance w [Block cur block_end; Get (mkRequest lat lon cur block_end); Pause 5 10]
          1 0).
Proof.
  intros Hs He Hr.
  assert (Hrows : rows df = []).
  { pose proof (reshape_inr _ _ _ Hr) as (_ & Hrows & _). rewrite Hrows.
    unfold drop_column, merge_left. cbn [rows]. rewrite hourly_frame_rows, He.
    reflexivity. }
  split; [exact Hrows|].
  unfold window_step, fetch_block. change (range1 6) with [1; 2; 3; 4; 5; 6].
  unfold bind at 1. unfold log at 1. unfold bind at 1.
  rewrite (attempt_200 _ tinh 60 1 _ _ data) by exact Hs.
  rewrite Hr. cbn [negb].
  assert (Hem : empty df = true).
  { unfold empty. rewrite Hrows. destruct (columns df); reflexivity. }
  rewrite Hem. unfold bind, ret, log, advance. cbn.
  rewrite <- !app_assoc. reflexivity.
Qed.

(** ** Sunrise and sunset *)

Lemma strftime_HM_shape c : hh_mm (strftime_HM c).
Proof.
  destruct c as [z|s|t|d|]; try (left; reflexivity).
  right. exists ((t mod 86400) / 3600), ((t mod 3600) / 60).
  pose proof (Z.mod_pos_bound t 86400 ltac:(lia)) as H1.
  pose proof (Z.mod_pos_bound t 3600 ltac:(lia)) as H2.
  repeat split; try reflexivity.
  - apply Z.div_pos; lia.
  - apply Z.div_lt_upper_bound; lia.
  - apply Z.div_pos; lia.
  - apply Z.div_lt_upper_bound; lia.
Qed.

Lemma hm_column_cell c df row :
  mem c (columns df) = true -> In row (rows (hm_column c df)) -> hh_mm (get c row).
Proof.
  intros Hc Hrow. rewrite hm_column_rows, Hc in Hrow.
  apply in_map_iff in Hrow as (x & <- & _). rewrite get_set_same.
  apply strftime_HM_shape.
Qed.

Lemma hm_column_keeps c c' df row :
  c <> c' -> In row (rows (hm_column c df)) ->
  exists row0, In row0 (rows df) /\ get c' row = get c' row0.
Proof.
  intros N Hrow. rewrite hm_column_rows in Hrow.
  apply in_map_iff in Hrow as (x & <- & Hx). exists x. split; [exact Hx|].
  destruct (mem c (columns df)); [apply get_set_other; exact N | reflexivity].
Qed.

(** X8.  In the daily table the columns of sunrise and sunset, when they
    exist, hold only a time of day: every cell is null or reads HH:MM with
    an hour below 24 and a minute below 60. *)
Theorem sun_times_are_hours_and_minutes data c row :
  c = "Giờ mặt trời mọc" \/ c = "Giờ mặt trời lặn" ->
  mem c (columns (daily_frame data)) = true ->
  In row (rows (daily_frame data)) ->
  hh_mm (get c row).
Proof.
  intros Hc Hm Hrow. unfold daily_frame in *. cbv zeta in *.
  set (df3 := rename DAILY_COLUMN_MAP _) in *.
  rewrite !hm_column_columns in Hm.
  destruct Hc as [-> | ->].
  - apply (hm_column_keeps _ "Giờ mặt trời mọc") in Hrow as (row0 & Hrow0 & ->);
      [|discriminate].
    apply (hm_column_cell _ df3); assumption.
  - apply (hm_column_cell _ (hm_column "Giờ mặt trời mọc" df3)); [|exact Hrow].
    rewrite hm_column_columns. exact Hm.
Qed.

(** ** Loading the consolidated file *)

(** X9.  Loading a file that has a [Datetime] column keeps its columns,
    keeps exactly the rows whose [Datetime] parses (each with the parsed
    timestamp in place of the text, duplicates included) and puts them in
    ascending (region, timestamp) order. *)
Theorem load_keeps_parseable_rows raw df :
  mem "Datetime" (columns raw) = true ->
  load (Some raw) = inr df ->
  columns df = columns raw
  /\ StronglySorted key_le (rows df)
  /\ Forall (fun r => stamped r = true) (rows df)
  /\ Permutation
       (map (fun r => set "Datetime" (to_datetime (get "Datetime" r)) r)
          (filter (fun r => negb (is_na (to_datetime (get "Datetime" r)))) (rows raw)))
       (rows df).
Proof.
  intros ED H. pose proof (load_dataset _ _ H) as [Hs _].
  unfold load in H. rewrite ED in H.
  assert (Hc : columns (dropna (coerce_datetime raw)) = columns raw).
  { unfold dropna, coerce_datetime, assign. cbn [columns]. rewrite ED. reflexivity. }
  rewrite Hc in H. destruct (mem "Tinh_thanh" (columns raw)); [|discriminate].
  inversion H; subst; clear H. unfold sort_values in *. cbn [columns rows] in *.
  split; [exact Hc|]. split; [apply sort_rows_strongly|]. split; [exact Hs|].
  eapply Permutation_trans; [|apply sort_rows_perm].
  unfold dropna, coerce_datetime, assign. cbn [rows].
  clear. induction (rows raw) as [|r l IH]; simpl; [constructor|].
  rewrite get_set_same.
  destruct (is_na (to_datetime (get "Datetime" r))); simpl; [exact IH|].
  constructor. exact IH.
Qed.

(** ** Cleaning twice *)

Lemma dedup_fixed rs :
  forall seen,
    NoDup (map key rs) -> (forall r, In r rs -> ~ In (key r) seen) ->
    drop_duplicates_from seen rs = rs.
Proof.
  induction rs as [|r rs IH]; intros seen Hn Hs; simpl; [reflexivity|].
  inversion Hn as [|? ? Hr Hn']; subst.
  destruct (existsb (key_eqb (key r)) seen) eqn:E.
  - apply seen_spec in E. exfalso. apply (Hs r); [left; reflexivity | exact E].
  - f_equal. apply IH; [exact Hn'|]. intros x Hx [Hk|Hk].
    + apply Hr. rewrite Hk. apply in_map. exact Hx.
    + apply (Hs x); [right; exact Hx | exact Hk].
Qed.

Lemma filter_stamped_fixed rs :
  Forall (fun r => stamped r = true) rs -> filter stamped rs = rs.
Proof.
  induction 1 as [|r rs Hr _ IH]; simpl; [reflexivity|]. rewrite Hr, IH. reflexivity.
Qed.

Lemma sort_rows_fixed rs : StronglySorted key_le rs -> sort_rows rs = rs.
Proof.
  induction 1 as [|r rs Hs IH Hr]; simpl; [reflexivity|]. rewrite IH.
  destruct rs as [|x rs']; [reflexivity|]. simpl.
  inversion Hr as [|? ? Hx _]; subst. unfold key_le in Hx. rewrite Hx. reflexivity.
Qed.

Lemma column_order_fixed df :
  column_order (columns df) -> keyed df /\ ordered_cols df = columns df.
Proof.
  intros (mid & E & Hmid). split.
  - split; apply mem_spec; rewrite E; [apply in_eq|].
    apply in_cons. apply in_or_app. right. apply in_or_app. right. apply in_eq.
  - unfold ordered_cols.
    set (S := filter (fun sc => mem sc (columns df)) special_cols) in *.
    assert (HS : forall x, In x S -> In x special_cols)
      by (intros x Hx; apply filter_In in Hx; tauto).
    clearbody S.
    set (other := fun c => negb (mem c (["Tinh_thanh"; "Datetime"] ++ special_cols))).
    assert (Hf : filter other (columns df) = mid).
    { rewrite E. rewrite !filter_app.
      assert (filter other ["Tinh_thanh"] = []) as -> by reflexivity.
      assert (filter other ["Datetime"] = []) as -> by reflexivity.
      assert (filter other S = []) as ->.
      { clear - HS. induction S as [|x S IH]; [reflexivity|]. simpl.
        assert (other x = false) as ->.
        { unfold other. apply negb_false_iff. apply mem_spec. apply in_or_app. right.
          apply HS. left. reflexivity. }
        apply IH. intros y Hy. apply HS. right. exact Hy. }
      simpl. rewrite app_nil_r.
      clear - Hmid. induction Hmid as [|x mid Hx _ IH]; [reflexivity|]. simpl.
      assert (other x = true) as ->.
      { unfold other. apply negb_true_iff.
        destruct (mem x (["Tinh_thanh"; "Datetime"] ++ special_cols)) eqn:M; [|reflexivity].
        apply mem_spec in M. contradiction. }
      rewrite IH. reflexivity. }
    rewrite Hf. symmetry. exact E.
Qed.

Lemma tidy_fixed df : tidy_form df -> tidy df = inr df.
Proof.
  intros (Hn & Hs & Hsorted & Hc).
  destruct (column_order_fixed _ Hc) as [K Ho].
  assert (Ht : Forall (fun r => timed r = true) (rows df))
    by (eapply Forall_impl; [|exact Hs]; intros r; apply stamped_timed).
  destruct (tidy_spec df K Ht) as (out & H & Hr & Hcols).
  rewrite H. f_equal. destruct out as [cols rs], df as [cols0 rs0]. simpl in *.
  rewrite dedup_fixed, filter_stamped_fixed, sort_rows_fixed in Hr
    by first [assumption | intros ? ? []].
  congruence.
Qed.

(** X11.  Cleaning is idempotent: a frame that came out of the cleaning
    steps (drop duplicates, parse, drop nulls, sort, reorder the columns)
    goes through them again unchanged and without error.  So a hard stop
    that finds no new block writes the file it had read back as it is. *)
Theorem tidy_idempotent df out :
  Forall (fun r => timed r = true) (rows df) ->
  tidy df = inr out ->
  tidy out = inr out.
Proof.
  intros Ht H. apply tidy_fixed. eapply tidy_gives_form; eassumption.
Qed.

(** ** The cost of one region's turn *)

Lemma windows_count fuel :
  forall cur,
    (Z.to_nat (yesterday - cur + 1) <= fuel)%nat ->
    Z.of_nat (List.length (windows fuel cur))
    = if cur <=? yesterday then (yesterday - cur) / 366 + 1 else 0.
Proof.
  induction fuel as [|fuel IH]; intros cur Hf; simpl.
  - destruct (Z.leb_spec cur yesterday); [lia | reflexivity].
  - destruct (Z.leb_spec cur yesterday) as [Hc|Hc]; [|reflexivity].
    cbn [List.length]. rewrite Nat2Z.inj_succ, IH by lia.
    destruct (Z.leb_spec (Z.min (cur + 365) yesterday + 1) yesterday) as [Hn|Hn].
    + replace (Z.min (cur + 365) yesterday) with (cur + 365) in * by lia.
      replace (yesterday - cur) with ((yesterday - (cur + 365 + 1)) + 1 * 366) by lia.
      rewrite Z.div_add by lia. lia.
    + rewrite Z.div_small by lia. lia.
Qed.

Lemma window_step_count lat lon tinh cur block_end w res w' :
  window_step lat lon tinh cur block_end w = (res, w') ->
  exists new,
    trace w' = trace w ++ new
    /\ List.length (blocks_of new) = 1%nat
    /\ (1 <= List.length (gets new) <= 6)%nat.
Proof.
  unfold window_step. unfold bind at 1. unfold log at 1. unfold bind at 1.
  destruct (fetch_block lat lon cur block_end tinh 6 60 _) as [r w2] eqn:F.
  unfold fetch_block in F.
  apply attempt_loop_count in F as (new & d & -> & _ & Hle & Hone & _ & _ & _ & Hb & _).
  rewrite range1_length in Hle.
  assert (H1 : (1 <= List.length (gets new))%nat) by (apply Hone; discriminate).
  assert (Hcount : forall tail, gets tail = [] -> blocks_of tail = [] ->
            List.length (blocks_of (Block cur block_end :: new ++ tail)) = 1%nat
            /\ (1 <= List.length (gets (Block cur block_end :: new ++ tail)) <= 6)%nat).
  { intros tail Hg Ht. simpl. rewrite blocks_of_app, gets_app, Hb, Hg, Ht, !app_nil_r.
    simpl. lia. }
  destruct r as [e|[df|]].
  - intros H; inversion H; subst; clear H.
    exists (Block cur block_end :: new ++ []). split; [|apply Hcount; reflexivity].
    cbn [trace advance]. rewrite app_nil_r, <- app_assoc. reflexivity.
  - destruct (empty df) eqn:Em; simpl.
    + unfold bind, ret, log. simpl. intros H; inversion H; subst; clear H.
      exists (Block cur block_end :: new ++ [Pause 5 10]).
      split; [|apply Hcount; reflexivity].
      cbn [trace]. rewrite <- !app_assoc. reflexivity.
    + unfold bind, ret, log, read_df_blocks, write_df_blocks. simpl.
      intros H; inversion H; subst; clear H.
      exists (Block cur block_end :: new ++ [Collected df; Pause 5 10]).
      split; [|apply Hcount; reflexivity].
      cbn [trace]. rewrite <- !app_assoc. reflexivity.
  - unfold bind, ret, log. simpl. intros H; inversion H; subst; clear H.
    exists (Block cur block_end :: new ++ [Pause 5 10]).
    split; [|apply Hcount; reflexivity].
    cbn [trace]. rewrite <- !app_assoc. reflexivity.
Qed.

Lemma window_loop_count fuel lat lon tinh :
  forall cur w res w',
    window_loop fuel lat lon tinh cur w = (res, w') ->
    exists new,
      trace w' = trace w ++ new
      /\ (List.length (blocks_of new) <= List.length (gets new)
          <= 6 * List.length (blocks_of new))%nat.
Proof.
  induction fuel as [|fuel IH]; intros cur w res w' H; simpl in H.
  - inversion H; subst. exists []. rewrite app_nil_r. simpl. auto.
  - destruct (cur <=? yesterday).
    2:{ inversion H; subst. exists []. rewrite app_nil_r. simpl. auto. }
    unfold bind in H.
    destruct (window_step lat lon tinh cur (Z.min (cur + 365) yesterday) w) as [r1 w1] eqn:S1.
    apply window_step_count in S1 as (new1 & Ht1 & Hb1 & Hg1).
    destruct r1 as [e|[]].
    + inversion H; subst. exists new1. split; [exact Ht1 | lia].
    + apply IH in H as (new2 & Ht2 & Hg2). exists (new1 ++ new2).
      rewrite blocks_of_app, gets_app, !length_app.
      split; [rewrite Ht2, Ht1, app_assoc; reflexivity | lia].
Qed.

(** What the handler and the merge add to the trace: no request, no
    window. *)
Lemma tidy_and_save_trace w r w' :
  tidy_and_save w = (r, w') ->
  exists tail, trace w' = trace w ++ tail /\ gets tail = [] /\ blocks_of tail = [].
Proof.
  unfold tidy_and_save, bind, read_df_vn, lift.
  destruct (tidy (df_vn w)) as [e|out]; intros H; inversion H; subst; clear H.
  - exists []. rewrite app_nil_r. auto.
  - exists [ToCsv out]. auto.
Qed.

Lemma on_runtime_error_trace e w r w' :
  on_runtime_error e w = (r, w') ->
  (exists e', r = inl e')
  /\ exists tail, trace w' = trace w ++ tail /\ gets tail = [] /\ blocks_of tail = [].
Proof.
  assert (Hnil : forall x : World, exists tail,
             trace x = trace x ++ tail /\ gets tail = [] /\ blocks_of tail = [])
    by (intros x; exists []; rewrite app_nil_r; auto).
  unfold on_runtime_error. destruct e as [msg|k].
  2:{ intros H; inversion H; subst. split; [eauto | apply Hnil]. }
  destruct (contains "RATE_LIMIT_HARD" msg).
  2:{ intros H; inversion H; subst. split; [eauto | apply Hnil]. }
  unfold bind at 1. unfold read_df_blocks at 1. unfold bind at 1.
  set (absorbed := match df_blocks w with [] => ret tt | _ => absorb_blocks end w).
  assert (Ha : exists w1, absorbed = (inr tt, w1) /\ trace w1 = trace w).
  { subst absorbed. destruct (df_blocks w); [exists w; auto|].
    unfold absorb_blocks, bind, read_df_blocks, read_df_vn, write_df_vn.
    eexists. split; reflexivity. }
  destruct Ha as (w1 & -> & Ht1).
  unfold bind at 1. unfold read_df_vn at 1. unfold bind.
  destruct (empty (df_vn w1)); cbn [negb].
  - unfold ret, raise. intros H; inversion H; subst.
    split; [eauto|]. rewrite Ht1. apply Hnil.
  - destruct (tidy_and_save w1) as [[e1|[]] w2] eqn:T;
      apply tidy_and_save_trace in T as (tail & Ht & Hg & Hb);
      unfold raise; intros H; inversion H; subst;
      (split; [eauto|]); exists tail; rewrite Ht, Ht1; auto.
Qed.

Lemma merge_and_persist_trace w r w' :
  merge_and_persist w = (r, w') ->
  exists tail, trace w' = trace w ++ tail /\ gets tail = [] /\ blocks_of tail = [].
Proof.
  unfold merge_and_persist, bind at 1. unfold read_df_blocks at 1.
  destruct (df_blocks w).
  - intros H; inversion H; subst. exists []. rewrite app_nil_r. auto.
  - unfold bind. unfold absorb_blocks, bind, read_df_blocks, read_df_vn, write_df_vn.
    match goal with
    | |- context [tidy_and_save ?x] =>
        destruct (tidy_and_save x) as [r1 w2] eqn:T
    end.
    apply tidy_and_save_trace in T as (tail & Ht & Hg & Hb). cbn [trace] in Ht.
    intros H. exists tail. destruct r1 as [e|[]]; inversion H; subst; auto.
Qed.

(** X12.  The cost of one region's turn: with start date [s] the turn
    opens at most [(yesterday - s) / 366 + 1] windows (none when [s] is
    after yesterday), exactly that many when it ends normally, and it
    sends at least one and at most six requests per window opened. *)
Theorem region_turn_cost tinh lat lon w res w' :
  crawl_region (tinh, lat, lon) w = (res, w') ->
  exists issued,
    trace w' = trace w ++ issued
    /\ (List.length (blocks_of issued) <= List.length (gets issued)
        <= 6 * List.length (blocks_of issued))%nat
    /\ Z.of_nat (List.length (blocks_of issued))
       <= (if resume_date (df_vn w) tinh <=? yesterday
           then (yesterday - resume_date (df_vn w) tinh) / 366 + 1 else 0)
    /\ (res = inr tt ->
        Z.of_nat (List.length (blocks_of issued))
        = if resume_date (df_vn w) tinh <=? yesterday
          then (yesterday - resume_date (df_vn w) tinh) / 366 + 1 else 0).
Proof.
  intros H. unfold crawl_region in H. unfold bind at 1 in H. unfold read_df_vn at 1 in H.
  set (start := resume_date (df_vn w) tinh) in *.
  destruct (Z.gtb_spec start yesterday) as [Hs|Hs].
  { inversion H; subst. exists []. rewrite app_nil_r.
    destruct (Z.leb_spec start yesterday); [lia|]. simpl. repeat split; lia. }
  unfold bind at 1 in H. unfold write_df_blocks at 1 in H.
  set (w0 := mkWorld (df_vn w) [] (trace w) (asked w) (drawn w)) in *.
  unfold bind at 1 in H. unfold catch in H.
  destruct (window_loop (Z.to_nat (yesterday - start + 1)) lat lon tinh start w0)
    as [r1 w1] eqn:L.
  pose proof (window_loop_count _ _ _ _ _ _ _ _ L) as (new & Ht & Hcount).
  apply window_loop_spec in L as (new' & Ht' & _ & _ & (rest & Hpre) & Hfull & _).
  rewrite Ht in Ht'. apply app_inv_head in Ht'. subst new'.
  subst w0. cbn [trace] in Ht.
  pose proof (windows_count (Z.to_nat (yesterday - start + 1)) start (Nat.le_refl _)) as Hw.
  rewrite Hpre, length_app, Nat2Z.inj_add in Hw.
  assert (Hend : exists tail, trace w' = trace w1 ++ tail /\ gets tail = []
                              /\ blocks_of tail = [] /\ (res = inr tt -> r1 = inr tt)).
  { destruct r1 as [e|[]].
    - destruct (on_runtime_error e w1) as [r2 w2] eqn:E.
      apply on_runtime_error_trace in E as ((e' & ->) & tail & Ht2 & Hg & Hb).
      inversion H; subst. exists tail. repeat split; auto. discriminate.
    - unfold bind in H. destruct (merge_and_persist w1) as [r2 w2] eqn:E.
      apply merge_and_persist_trace in E as (tail & Ht2 & Hg & Hb).
      destruct r2 as [e|[]]; inversion H; subst.
      + exists tail. auto.
      + exists (tail ++ [Pause 40 80]). cbn [trace].
        rewrite gets_app, blocks_of_app, Hg, Hb, Ht2, <- app_assoc. auto. }
  destruct Hend as (tail & Ht2 & Hg & Hb & Hres).
  exists (new ++ tail). rewrite gets_app, blocks_of_app, Hg, Hb, !app_nil_r.
  split; [rewrite Ht2, Ht, app_assoc; reflexivity|]. split; [exact Hcount|].
  split; [lia|]. intros Hr. specialize (Hfull (Hres Hr)).
  assert (Hlen : List.length (blocks_of new)
                 = (List.length (blocks_of new) + List.length rest)%nat).
  { rewrite <- length_app, <- Hpre, <- Hfull. reflexivity. }
  lia.
Qed.

(** ** Whole runs *)

Lemma crawl_all_skips loc :
  forall w,
    (forall tinh lat lon, In (tinh, lat, lon) loc -> yesterday < resume_date (df_vn w) tinh) ->
    crawl_all loc w = (inr tt, w).
Proof.
  induction loc as [|[[tinh lat] lon] loc IH]; intros w H; cbn [crawl_all];
    [reflexivity|].
  unfold bind at 1.
  assert (Hr : crawl_region (tinh, lat, lon) w = (inr tt, w)).
  { unfold crawl_region, bind, read_df_vn.
    specialize (H tinh lat lon (or_introl eq_refl)).
    destruct (Z.gtb_spec (resume_date (df_vn w) tinh) yesterday); [reflexivity | lia]. }
  rewrite Hr. apply IH. intros t la lo Hin. apply (H t la lo). right. exact Hin.
Qed.

(** X13.  A run that finds every region of the registry up to date does
    nothing but print the completion message: no request is sent, nothing
    is written, the dataset is the one loaded, and the exit status is 0. *)
Theorem caught_up_run_does_nothing csv loc loaded :
  load csv = inr loaded ->
  (forall tinh lat lon, In (tinh, lat, lon) loc -> yesterday < resume_date loaded tinh) ->
  main csv loc = (0, advance (initial loaded) [Print msg_done] 0 0)
  /\ gets (trace (snd (main csv loc))) = []
  /\ last_saved (trace (snd (main csv loc))) = None
  /\ df_vn (snd (main csv loc)) = loaded.
Proof.
  intros HL Hup.
  assert (Hm : main csv loc = (0, advance (initial loaded) [Print msg_done] 0 0)).
  { rewrite (main_run csv loc loaded (inr tt) (initial loaded) HL); [reflexivity|].
    apply crawl_all_skips. exact Hup. }
  rewrite Hm. repeat split; reflexivity.
Qed.

Lemma crawl_region_requests tinh lat lon w res w' :
  dataset_ok (df_vn w) ->
  crawl_region (tinh, lat, lon) w = (res, w') ->
  exists issued,
    trace w' = trace w ++ issued
    /\ Forall (fun q => latitude q = lat /\ longitude q = lon) (gets issued).
Proof.
  intros Hd H.
  destruct (crawl_region_run _ _ _ _ _ _ Hd H)
    as [(_ & _ & ->)|(_ & new & tail & Ht & _ & Hq & _ & _ & Hout)].
  { exists []. rewrite app_nil_r. split; [reflexivity | constructor]. }
  exists (new ++ tail). split; [exact Ht|].
  assert (Hg : gets tail = []).
  { destruct Hout as [(_ & _ & _ & _ & ->)
                     |[(_ & _ & _ & _ & ->)
                      |[(_ & _ & _ & _ & ->)
                       |[(_ & _ & _ & _ & ->)
                        |[(_ & _ & _ & ->)
                         |(k & _ & _ & ->)]]]]]; reflexivity. }
  rewrite gets_app, Hg, app_nil_r.
  eapply Forall_impl; [|exact Hq]. intros q (s & e & _ & ->). split; reflexivity.
Qed.

Lemma crawl_all_requests loc :
  forall w res w',
    steady w -> crawl_all loc w = (res, w') ->
    exists issued per,
      trace w' = trace w ++ issued
      /\ gets issued = List.concat per
      /\ Forall2 (fun (row : string * Z * Z) qs =>
                    Forall (fun q => latitude q = snd (fst row) /\ longitude q = snd row) qs)
                 (firstn (List.length per) loc) per.
Proof.
  induction loc as [|row loc IH]; intros w res w' Hs H; simpl in H.
  - inversion H; subst. exists [], []. rewrite app_nil_r. repeat split; constructor.
  - unfold bind in H. destruct (crawl_region row w) as [r1 w1] eqn:R.
    pose proof (crawl_region_steady _ _ _ _ Hs R) as Hs1.
    destruct Hs as (Hd & _ & _). destruct row as [[tinh lat] lon].
    destruct (crawl_region_requests _ _ _ _ _ _ Hd R) as (new & Ht & Hq).
    destruct r1 as [e|[]].
    + inversion H; subst. exists new, [gets new]. split; [exact Ht|].
      split; [simpl; rewrite app_nil_r; reflexivity|].
      simpl. constructor; [exact Hq | constructor].
    + destruct (IH _ _ _ Hs1 H) as (more & per & Ht2 & Hg & Hper).
      exists (new ++ more), (gets new :: per).
      split; [rewrite Ht2, Ht, app_assoc; reflexivity|].
      split; [rewrite gets_app, Hg; reflexivity|].
      simpl. constructor; [exact Hq | exact Hper].
Qed.

(** X14.  The requests of a run follow the registry: they come in one
    group per region, in the order of the registry, for the regions up to
    the one where the run ended, and every request of a group carries the
    coordinates of its region. *)
Theorem requests_follow_registry csv loc :
  exists per,
    gets (trace (snd (main csv loc))) = List.concat per
    /\ (List.length per <= List.length loc)%nat
    /\ Forall2 (fun (row : string * Z * Z) qs =>
                  Forall (fun q => latitude q = snd (fst row) /\ longitude q = snd row) qs)
               (firstn (List.length per) loc) per.
Proof.
  destruct (load csv) as [e|loaded] eqn:HL.
  - unfold main. rewrite HL. exists []. simpl. repeat split; [lia | constructor].
  - destruct (crawl_all loc (initial loaded)) as [res w1] eqn:HC.
    destruct (crawl_all_requests _ _ _ _ (initial_steady _ _ HL) HC)
      as (issued & per & Ht & Hg & Hper).
    exists per.
    assert (Hgets : gets (trace (snd (main csv loc))) = gets issued).
    { rewrite (main_run _ _ _ _ _ HL HC). cbn [initial trace] in Ht.
      destruct res as [[m|k]|[]]; cbn [snd advance trace];
        rewrite ?gets_app, Ht; simpl; rewrite ?app_nil_r; reflexivity. }
    rewrite Hgets. split; [exact Hg|]. split; [|exact Hper].
    apply Forall2_length in Hper. rewrite length_firstn in Hper. lia.
Qed.

Lemma crawl_region_synced loaded row w w' :
  steady w -> synced loaded w ->
  crawl_region row w = (inr tt, w') ->
  synced loaded w'.
Proof.
  intros (Hd & _ & _) Hsync H. destruct row as [[tinh lat] lon].
  destruct (crawl_region_run _ _ _ _ _ _ Hd H)
    as [(_ & _ & ->)|(_ & new & tail & Ht & _ & _ & Hsv & _ & Hout)]; [exact Hsync|].
  unfold synced. rewrite Ht, !collected_app, !last_saved_app.
  destruct Hout as [(_ & _ & Hc & Hv & ->)
                   |[(_ & _ & Hn & _ & ->)
                    |[(Hr & _)|[(Hr & _)|[(Hr & _)|(k & Hr & _)]]]]];
    try discriminate; cbn [last_saved collected].
  - rewrite Hc, Hsv, Hv, !app_nil_r. exact Hsync.
  - right. split; [|reflexivity].
    intros E. apply app_eq_nil in E as [_ E]. apply app_eq_nil in E as [E _]. contradiction.
Qed.

Lemma crawl_all_synced loaded loc :
  forall w w',
    steady w -> synced loaded w ->
    crawl_all loc w = (inr tt, w') ->
    synced loaded w'.
Proof.
  induction loc as [|row loc IH]; intros w w' Hs Hsync H; cbn [crawl_all] in H.
  - inversion H; subst. exact Hsync.
  - unfold bind in H. destruct (crawl_region row w) as [[e|[]] w1] eqn:R; [discriminate|].
    eapply IH; [| |exact H].
    + eapply crawl_region_steady; eassumption.
    + eapply crawl_region_synced; eassumption.
Qed.

(** X15.  When the run completes all regions, the dataset in memory
    accounts for every row the run has had in hand (the key of every such
    row with a timestamp is in it, and it holds only such rows); if any
    block was collected the file holds exactly that dataset, and if none
    was, the run wrote nothing and the dataset is the one loaded. *)
Theorem completed_run_is_saved csv loc loaded w1 :
  load csv = inr loaded ->
  crawl_all loc (initial loaded) = (inr tt, w1) ->
  (forall r, In r (pool loaded (trace w1)) -> stamped r = true ->
             exists r', In r' (rows (df_vn w1)) /\ key r' = key r)
  /\ (forall r', In r' (rows (df_vn w1)) -> In r' (pool loaded (trace w1)))
  /\ (collected (trace w1) <> [] -> last_saved (trace w1) = Some (df_vn w1))
  /\ (collected (trace w1) = [] -> last_saved (trace w1) = None /\ df_vn w1 = loaded).
Proof.
  intros HL HC.
  pose proof (initial_steady _ _ HL) as Hs.
  destruct (crawl_all_accounted loaded _ _ _ _ Hs (initial_accounted loaded) HC)
    as (_ & Ha & _).
  destruct (Ha eq_refl) as (A1 & A2 & _).
  assert (Hsync : synced loaded (initial loaded)) by (left; repeat split).
  pose proof (crawl_all_synced loaded _ _ _ Hs Hsync HC) as [(Hc & Hsv & Hv)|(Hc & Hsv)].
  - split; [exact A1|]. split; [exact A2|]. split; [contradiction | auto].
  - split; [exact A1|]. split; [exact A2|]. split; [auto | contradiction].
Qed.

(** ** A payload that does not reshape *)

Lemma attempt_loop_keyerror q tinh base attempts :
  forall w k w',
    attempt_loop q tinh base attempts w = (inl (KeyError k), w') ->
    exists n data,
      asked w' = S n
      /\ server n q = Http 200 data
      /\ reshape data tinh = inl (KeyError k).
Proof.
  induction attempts as [|a later IH]; intros w k w' H.
  - simpl in H. inversion H.
  - destruct (attempt_step q tinh base a later w)
      as [(_ & secs & d & _ & Hs)|(_ & Hs)]; rewrite Hs in H.
    + apply IH in H. exact H.
    + inversion H as [[Hout Hw]]. exists (asked w).
      destruct (server (asked w) q) as [|status data]; [discriminate|].
      simpl in Hout. destruct (status =? 200) eqn:E; [|discriminate].
      apply Z.eqb_eq in E. subst status. exists data.
      split; [reflexivity|]. split; [reflexivity|].
      destruct (reshape data tinh); inversion Hout; reflexivity.
Qed.

Lemma window_step_keyerror lat lon tinh cur block_end w k w' :
  window_step lat lon tinh cur block_end w = (inl (KeyError k), w') ->
  exists n data,
    asked w' = S n
    /\ server n (mkRequest lat lon cur block_end) = Http 200 data
    /\ reshape data tinh = inl (KeyError k).
Proof.
  unfold window_step. unfold bind at 1. unfold log at 1. unfold bind at 1.
  destruct (fetch_block lat lon cur block_end tinh 6 60 _) as [r w2] eqn:F.
  unfold fetch_block in F. destruct r as [e|[df|]].
  - intros H; inversion H; subst. eapply attempt_loop_keyerror. exact F.
  - destruct (empty df); simpl;
      unfold bind, ret, log, read_df_blocks, write_df_blocks; simpl; discriminate.
  - unfold bind, ret, log. simpl. discriminate.
Qed.

Lemma window_loop_keyerror fuel lat lon tinh :
  forall cur w k w',
    window_loop fuel lat lon tinh cur w = (inl (KeyError k), w') ->
    exists n s e data,
      asked w' = S n
      /\ server n (mkRequest lat lon s e) = Http 200 data
      /\ reshape data tinh = inl (KeyError k).
Proof.
  induction fuel as [|fuel IH]; intros cur w k w' H; simpl in H; [discriminate|].
  destruct (cur <=? yesterday); [|discriminate].
  unfold bind in H.
  destruct (window_step lat lon tinh cur (Z.min (cur + 365) yesterday) w) as [[e|[]] w1] eqn:S1.
  - inversion H; subst. apply window_step_keyerror in S1 as (n & data & Hn).
    exists n, cur, (Z.min (cur + 365) yesterday), data. exact Hn.
  - eapply IH. exact H.
Qed.

(** The handler and the merge do not fail on the frames the crawl holds. *)
Lemma hard_stop_raises_hard w :
  dataset_ok (df_vn w) -> Forall fragment_ok (df_blocks w) ->
  exists w2,
    on_runtime_error (RuntimeError "RATE_LIMIT_HARD") w
    = (inl (RuntimeError "RATE_LIMIT_HARD"), w2).
Proof.
  intros Hd Hf.
  assert (Hcases : empty (at_hard_stop w) = true
                   \/ (empty (at_hard_stop w) = false
                       /\ exists out, tidy (at_hard_stop w) = inr out)).
  { unfold at_hard_stop. destruct (df_blocks w) as [|b bs] eqn:E.
    - destruct (empty (df_vn w)) eqn:Ee; [auto|]. right. split; [reflexivity|].
      destruct (dataset_tidy _ Hd Ee) as (out & Hout & _). eauto.
    - right. rewrite <- E in *.
      assert (Hn : df_blocks w <> []) by (rewrite E; discriminate).
      split; [apply merged_nonempty; assumption|].
      destruct (merge_tidy _ _ Hd Hn Hf) as (out & Hout & _). eauto. }
  destruct Hcases as [He|(He & out & Hout)].
  - rewrite hard_stop_nothing by exact He. eauto.
  - rewrite (hard_stop_saves w out) by assumption. eauto.
Qed.

Lemma merge_and_persist_succeeds w :
  dataset_ok (df_vn w) -> Forall fragment_ok (df_blocks w) ->
  exists w2, merge_and_persist w = (inr tt, w2).
Proof.
  intros Hd Hf. destruct (df_blocks w) as [|b bs] eqn:E.
  - rewrite merge_and_persist_nil by exact E. eauto.
  - rewrite <- E in *.
    assert (Hn : df_blocks w <> []) by (rewrite E; discriminate).
    destruct (merge_tidy _ _ Hd Hn Hf) as (out & Hout & _).
    rewrite (merge_and_persist_cons w out) by assumption. eauto.
Qed.

Lemma crawl_region_keyerror tinh lat lon w k w' :
  dataset_ok (df_vn w) ->
  crawl_region (tinh, lat, lon) w = (inl (KeyError k), w') ->
  exists n s e data,
    asked w' = S n
    /\ server n (mkRequest lat lon s e) = Http 200 data
    /\ reshape data tinh = inl (KeyError k).
Proof.
  intros Hd H. unfold crawl_region in H. unfold bind at 1 in H. unfold read_df_vn at 1 in H.
  set (start := resume_date (df_vn w) tinh) in *.
  destruct (start >? yesterday); [discriminate|].
  unfold bind at 1 in H. unfold write_df_blocks at 1 in H.
  set (w0 := mkWorld (df_vn w) [] (trace w) (asked w) (drawn w)) in *.
  unfold bind at 1 in H. unfold catch in H.
  destruct (window_loop (Z.to_nat (yesterday - start + 1)) lat lon tinh start w0)
    as [r1 w1] eqn:L.
  pose proof (window_loop_spec _ _ _ _ _ _ _ _ L)
    as (new & _ & Hv & Hb & _ & _ & _ & _ & Hfe & Hex).
  subst w0. cbn [df_vn df_blocks] in Hv, Hb.
  assert (Hd1 : dataset_ok (df_vn w1)) by (rewrite Hv; exact Hd).
  assert (Hf1 : Forall fragment_ok (df_blocks w1)).
  { rewrite Hb. simpl. eapply Forall_impl; [|exact Hfe]. intros df. apply fetched_fragment. }
  destruct r1 as [e|[]].
  - destruct (Hex e eq_refl) as [->|[k' ->]].
    + destruct (hard_stop_raises_hard w1 Hd1 Hf1) as (w2 & E). rewrite E in H. discriminate.
    + simpl in H. unfold raise in H. inversion H; subst.
      eapply window_loop_keyerror. exact L.
  - unfold bind in H.
    destruct (merge_and_persist_succeeds w1 Hd1 Hf1) as (w2 & E). rewrite E in H.
    unfold log in H. discriminate.
Qed.

(** X16.  A turn that ends with a KeyError got it from a 200 answer whose
    payload does not reshape, the last answer received; the turn leaves the
    dataset in memory and the file as they were before it, so the blocks it
    had collected are not saved.  A run whose region loop ends that way ends
    with the traceback (exit status 1) and prints no closing message. *)
Theorem keyerror_ends_turn_unsaved tinh lat lon w k w' :
  dataset_ok (df_vn w) ->
  crawl_region (tinh, lat, lon) w = (inl (KeyError k), w') ->
  df_vn w' = df_vn w
  /\ last_saved (trace w') = last_saved (trace w)
  /\ (exists n s e data,
         asked w' = S n
         /\ server n (mkRequest lat lon s e) = Http 200 data
         /\ reshape data tinh = inl (KeyError k))
  /\ (forall csv loc loaded,
         load csv = inr loaded ->
         crawl_all loc (initial loaded) = (inl (KeyError k), w') ->
         main csv loc = (1, w')).
Proof.
  intros Hd H.
  destruct (crawl_region_run _ _ _ _ _ _ Hd H)
    as [(_ & E & _)|(_ & new & tail & Ht & _ & _ & Hsv & _ & Hout)]; [discriminate|].
  destruct Hout as [(E & _)|[(E & _)|[(E & _)|[(E & _)|[(E & _)|(x & _ & Hv & ->)]]]]];
    try discriminate.
  split; [exact Hv|]. split.
  - rewrite Ht, app_nil_r, last_saved_app, Hsv. reflexivity.
  - split; [eapply crawl_region_keyerror; eassumption|].
    intros csv loc loaded HL HC. rewrite (main_run _ _ _ _ _ HL HC). reflexivity.
Qed.

(** ** One region's turn and the other regions *)

(** The dataset after a turn: the one before, or the cleaning of the one
    before followed by rows that carry the name of the turn's region. *)
Lemma crawl_region_rows tinh lat lon w res w' :
  dataset_ok (df_vn w) ->
  crawl_region (tinh, lat, lon) w = (res, w') ->
  df_vn w' = df_vn w
  \/ exists extra,
       (forall r, In r extra -> get "Tinh_thanh" r = Text tinh)
       /\ rows (df_vn w')
          = sort_rows (filter stamped (drop_duplicates_from [] (rows (df_vn w) ++ extra)))
       /\ dataset_ok (df_vn w').
Proof.
  intros Hd H.
  destruct (crawl_region_run _ _ _ _ _ _ Hd H)
    as [(_ & _ & ->)|(_ & new & tail & _ & _ & _ & _ & Hfe & Hout)]; [left; reflexivity|].
  assert (Hfr : Forall fragment_ok (collected new)).
  { eapply Forall_impl; [|exact Hfe]. intros df. apply fetched_fragment. }
  assert (Htag : forall r, In r (flat_map rows (collected new)) ->
                           get "Tinh_thanh" r = Text tinh).
  { intros r Hr. apply in_flat_map in Hr as (df & Hdf & Hr).
    rewrite Forall_forall in Hfe. destruct (Hfe _ Hdf) as (_ & data & Hdata).
    destruct (reshape_row _ _ _ _ Hdata Hr) as (_ & _ & _ & Ht). exact Ht. }
  destruct Hout as [(_ & _ & _ & Hv & _)
                   |[(_ & _ & Hn & Ho & _)
                    |[(_ & _ & _ & Hv & _)
                     |[(_ & _ & He & Ho & _)
                      |[(_ & Hn & Ho & _)
                       |(x & _ & Hv & _)]]]]];
    try (left; exact Hv); right.
  - destruct (merge_tidy _ _ Hd Hn Hfr) as (out & Ho' & Hr & _ & Hd').
    rewrite Ho in Ho'. inversion Ho'; subst out. eauto.
  - destruct (dataset_tidy _ Hd He) as (out & Ho' & Hr & _ & Hd').
    rewrite Ho in Ho'. inversion Ho'; subst out.
    exists []. rewrite app_nil_r. split; [intros r []|]. auto.
  - destruct (merge_tidy _ _ Hd Hn Hfr) as (out & Ho' & Hr & _ & Hd').
    rewrite Ho in Ho'. inversion Ho'; subst out. eauto.
Qed.

(** X17.  A region's turn adds rows under its own name only: every row of
    the dataset after the turn was in the dataset before it or carries the
    name of the turn's region; and no key gets lost: every row the dataset
    held has its (region, timestamp) key in the dataset afterwards. *)
Theorem turn_adds_own_rows_only tinh lat lon w res w' :
  dataset_ok (df_vn w) ->
  crawl_region (tinh, lat, lon) w = (res, w') ->
  (forall r, In r (rows (df_vn w')) ->
             In r (rows (df_vn w)) \/ get "Tinh_thanh" r = Text tinh)
  /\ (forall r, In r (rows (df_vn w)) ->
                exists r', In r' (rows (df_vn w')) /\ key r' = key r).
Proof.
  intros Hd H.
  destruct (crawl_region_rows _ _ _ _ _ _ Hd H) as [->|(extra & Htag & Hr & _)];
    [split; eauto|].
  rewrite Hr. split.
  - intros r Hin. apply cleaned_sub in Hin. apply in_app_or in Hin as [Hin|Hin]; auto.
  - intros r Hin. apply cleaned_cover; [apply in_or_app; left; exact Hin|].
    destruct Hd as [Hs _]. rewrite Forall_forall in Hs. auto.
Qed.

Lemma stamps_of_in df tinh t :
  In t (stamps_of df tinh)
  <-> exists r, In r (rows df) /\ get "Tinh_thanh" r = Text tinh
                /\ to_datetime (get "Datetime" r) = Stamp t.
Proof.
  unfold stamps_of. rewrite in_flat_map. split.
  - intros (r & Hr & Hin). exists r. split; [exact Hr|].
    destruct (cell_eqb (get "Tinh_thanh" r) (Text tinh)) eqn:E; [|contradiction].
    apply cell_eqb_eq in E. split; [exact E|].
    destruct (to_datetime (get "Datetime" r)); try contradiction.
    destruct Hin as [->|[]]. reflexivity.
  - intros (r & Hr & Ht & Hd). exists r. split; [exact Hr|].
    rewrite Ht, Hd. assert (cell_eqb (Text tinh) (Text tinh) = true) as ->
        by (apply cell_eqb_eq; reflexivity).
    left. reflexivity.
Qed.

Lemma resume_by_stamps l1 l2 :
  (forall t : Z, In t l1 <-> In t l2) ->
  match l1 with [] => start_all | t :: ts => date_of (maximum t ts) + 1 end
  = match l2 with [] => start_all | t :: ts => date_of (maximum t ts) + 1 end.
Proof.
  intros H. destruct l1 as [|a l1], l2 as [|b l2]; [reflexivity | | |].
  - exfalso. apply (proj2 (H b)). left. reflexivity.
  - exfalso. apply (proj1 (H a)). left. reflexivity.
  - destruct (maximum_spec a l1) as [Ha1 Ha2], (maximum_spec b l2) as [Hb1 Hb2].
    apply (proj1 (H _)) in Ha1. apply (proj2 (H _)) in Hb1.
    apply Ha2 in Hb1. apply Hb2 in Ha1.
    replace (maximum a l1) with (maximum b l2) by lia. reflexivity.
Qed.

(** X18.  The regions do not interfere: the turn of one region leaves the
    start date of every other region as it was, whatever was fetched. *)
Theorem other_regions_keep_their_start tinh lat lon w res w' other :
  dataset_ok (df_vn w) ->
  crawl_region (tinh, lat, lon) w = (res, w') ->
  other <> tinh ->
  resume_date (df_vn w') other = resume_date (df_vn w) other.
Proof.
  intros Hd H Hne.
  destruct (crawl_region_rows _ _ _ _ _ _ Hd H) as [->|(extra & Htag & Hr & Hd')];
    [reflexivity|].
  assert (Hwf : forall df, dataset_ok df -> columns df <> [] \/ rows df = []).
  { intros df [_ [E|K]]; [right; exact E | left; apply keyed_columns; exact K]. }
  rewrite !resume_date_spec by (apply Hwf; assumption).
  apply resume_by_stamps. intros t. rewrite !stamps_of_in. split.
  - intros (r & Hin & Ht & Hs). rewrite Hr in Hin. apply cleaned_sub in Hin.
    apply in_app_or in Hin as [Hin|Hin]; [eauto|].
    apply Htag in Hin. rewrite Hin in Ht. inversion Ht. congruence.
  - intros (r & Hin & Ht & Hs).
    assert (Hst : stamped r = true)
      by (destruct Hd as [Hall _]; rewrite Forall_forall in Hall; auto).
    destruct (cleaned_cover (rows (df_vn w) ++ extra) r) as (r' & Hin' & Hk);
      [apply in_or_app; left; exact Hin | exact Hst |].
    rewrite <- Hr in Hin'. exists r'. split; [exact Hin'|].
    unfold key in Hk. inversion Hk as [[Hk1 Hk2]]. rewrite Hk1, Hk2. auto.
Qed.

(** ** The column block *)

Lemma ordered_cols_nodup df : NoDup (columns df) -> NoDup (ordered_cols df).
Proof.
  intros Hn. unfold ordered_cols.
  set (other := fun c => negb (mem c (["Tinh_thanh"; "Datetime"] ++ special_cols))).
  assert (Hsp : forall x, In x special_cols -> other x = false /\ x <> "Tinh_thanh"
                                               /\ x <> "Datetime").
  { intros x [<-|[<-|[]]]; repeat split; discriminate. }
  assert (Hspn : NoDup special_cols).
  { unfold special_cols. constructor; [intros [E|[]]; discriminate E|].
    constructor; [intros []|constructor]. }
  change (["Tinh_thanh"] ++ ?l) with ("Tinh_thanh" :: l). constructor.
  - rewrite !in_app_iff, !filter_In. intros [[H _]|[[_ H]|[H|[]]]].
    + apply Hsp in H. tauto.
    + discriminate H.
    + discriminate H.
  - apply NoDup_app.
    + apply NoDup_filter. exact Hspn.
    + apply NoDup_app.
      * apply NoDup_filter. exact Hn.
      * constructor; [intros []|constructor].
      * intros x Hx [<-|[]]. apply filter_In in Hx as [_ Hx]. discriminate Hx.
    + intros x Hx Hin. apply filter_In in Hx as [Hx _]. apply Hsp in Hx as (Ho & _ & Hd).
      apply in_app_or in Hin as [Hin|[Hin|[]]]; [|congruence].
      apply filter_In in Hin as [_ Hin]. congruence.
Qed.

(** X19.  Reordering the columns loses and invents nothing: it fails only
    when [Tinh_thanh] or [Datetime] is missing, and otherwise the new frame
    has the same rows and the same column names, each once when the names
    of the frame are distinct. *)
Theorem reorder_keeps_every_column df :
  ((exists out, reorder_columns df = inr out) <-> keyed df)
  /\ forall out,
       reorder_columns df = inr out ->
       rows out = rows df
       /\ (forall c, In c (columns out) <-> In c (columns df))
       /\ (NoDup (columns df) -> Permutation (columns df) (columns out)).
Proof.
  split.
  - split.
    + intros [out H]. apply reorder_columns_inr in H. tauto.
    + intros K. eexists. apply reorder_columns_inr. split; [exact K | reflexivity].
  - intros out H. apply reorder_columns_inr in H as [K ->]. cbn [rows columns].
    split; [reflexivity|]. split; [intros c; apply ordered_cols_in; exact K|].
    intros Hn. apply NoDup_Permutation; [exact Hn | apply ordered_cols_nodup; exact Hn|].
    intros c. symmetry. apply ordered_cols_in. exact K.
Qed.

(** X20.  Progress is never lost: once the dataset holds a timestamp of a
    region, no turn (of that region or of another, ended normally or not)
    moves that region's start date back. *)
Theorem start_date_never_goes_back tinh lat lon w res w' region :
  dataset_ok (df_vn w) ->
  crawl_region (tinh, lat, lon) w = (res, w') ->
  stamps_of (df_vn w) region <> [] ->
  resume_date (df_vn w) region <= resume_date (df_vn w') region.
Proof.
  intros Hd H Hne.
  destruct (crawl_region_rows _ _ _ _ _ _ Hd H) as [->|(extra & _ & Hr & Hd')]; [lia|].
  assert (Hwf : forall df, dataset_ok df -> columns df <> [] \/ rows df = []).
  { intros df [_ [E|K]]; [right; exact E | left; apply keyed_columns; exact K]. }
  rewrite !resume_date_spec by (apply Hwf; assumption).
  assert (Hsub : forall t, In t (stamps_of (df_vn w) region) ->
                           In t (stamps_of (df_vn w') region)).
  { intros t. rewrite !stamps_of_in. intros (r & Hin & Ht & Hs).
    assert (Hst : stamped r = true)
      by (destruct Hd as [Hall _]; rewrite Forall_forall in Hall; auto).
    destruct (cleaned_cover (rows (df_vn w) ++ extra) r) as (r' & Hin' & Hk);
      [apply in_or_app; left; exact Hin | exact Hst |].
    rewrite <- Hr in Hin'. exists r'. split; [exact Hin'|].
    unfold key in Hk. inversion Hk as [[Hk1 Hk2]]. rewrite Hk1, Hk2. auto. }
  destruct (stamps_of (df_vn w) region) as [|a l]; [congruence|].
  destruct (maximum_spec a l) as [Ha _]. apply Hsub in Ha.
  destruct (stamps_of (df_vn w') region) as [|b l2]; [contradiction|].
  destruct (maximum_spec b l2) as [_ Hb]. apply Hb in Ha.
  apply date_of_mono in Ha. lia.
Qed.

(** ** A window that brings data *)

(** X21.  A window whose request is answered, after [k] answers that are
    retried ([k] below six), by a 200 whose payload reshapes to a frame
    with rows: the frame is appended to the collected blocks, once; the
    dataset is not touched; the window has cost [k + 1] requests and ends
    with its pause. *)
Theorem window_collects_after_retries lat lon tinh cur block_end k w data df :
  (k < 6)%nat ->
  (forall j, (j < k)%nat ->
             retryable (server (j + asked w) (mkRequest lat lon cur block_end)) = true) ->
  server (k + asked w) (mkRequest lat lon cur block_end) = Http 200 data ->
  reshape data tinh = inr df ->
  empty df = false ->
  exists new w',
    window_step lat lon tinh cur block_end w = (inr tt, w')
    /\ trace w' = trace w ++ [Block cur block_end] ++ new ++ [Collected df; Pause 5 10]
    /\ gets new = repeat (mkRequest lat lon cur block_end) (S k)
    /\ collected new = []
    /\ df_blocks w' = df_blocks w ++ [df]
    /\ df_vn w' = df_vn w
    /\ asked w' = (S k + asked w)%nat.
Proof.
  intros Hk Hre Hs Hr He.
  set (q := mkRequest lat lon cur block_end) in *.
  set (w0 := mkWorld (df_vn w) (df_blocks w) (trace w ++ [Block cur block_end])
               (asked w) (drawn w)).
  destruct (attempt_loop_decided q tinh 60 (range1 6) k w0) as (new & d & Hrun & Hg & _).
  - rewrite range1_length. exact Hk.
  - exact Hre.
  - cbn [asked w0]. rewrite Hs. reflexivity.
  - assert (Hc : collected new = []).
    { pose proof (attempt_loop_count _ _ _ _ _ _ _ Hrun)
        as (new' & d' & Hw' & _ & _ & _ & _ & _ & Hc' & _).
      apply (f_equal trace) in Hw'. cbn [trace advance] in Hw'.
      apply app_inv_head in Hw'. subst new'. exact Hc'. }
    assert (Ho : outcome tinh (Http 200 data) = inr (Some df))
      by (unfold outcome; rewrite Z.eqb_refl, Hr; reflexivity).
    cbn [asked w0] in Hrun. rewrite Hs, Ho in Hrun.
    exists new. eexists. split.
    + unfold window_step, fetch_block. unfold bind at 1. unfold log at 1. unfold bind at 1.
      fold q. fold w0. rewrite Hrun. rewrite He. cbn [negb].
      unfold bind, ret, log, read_df_blocks, write_df_blocks. cbn. reflexivity.
    + cbn [trace df_blocks df_vn asked advance w0].
      rewrite <- !app_assoc. repeat split; auto.
Qed.

(** ** The two column maps *)

Lemma distinct_nodup l : distinct l = true -> NoDup l.
Proof.
  induction l as [|c l IH]; simpl; intros H; [constructor|].
  apply andb_true_iff in H as [H1 H2]. constructor; [|auto].
  intros Hin. apply mem_spec in Hin. rewrite Hin in H1. discriminate.
Qed.

(** X22.  The two column maps fit together: for an answer that has the
    variables the request names (the keys of [COLUMN_MAP] as hourly columns,
    those of [DAILY_COLUMN_MAP] as daily columns, a [time] column each) the
    reshaping succeeds and gives 45 columns with distinct names:
    [Tinh_thanh], the two weather-code columns, the other translated hourly
    and daily names, [Datetime].  The variables both tables have
    ([weather_code], [sunshine_duration], [et0_fao_evapotranspiration]) get
    different names, so the merge adds no [_x] or [_y] suffix. *)
Theorem requested_variables_get_distinct_names data tinh :
  columns (hourly data) = "time" :: map fst COLUMN_MAP ->
  columns (daily data) = "time" :: map fst DAILY_COLUMN_MAP ->
  exists df,
    reshape data tinh = inr df
    /\ columns df
       = ["Tinh_thanh"] ++ special_cols
           ++ filter (fun c => negb (mem c special_cols))
                (map snd COLUMN_MAP ++ map snd DAILY_COLUMN_MAP)
           ++ ["Datetime"]
    /\ NoDup (columns df)
    /\ List.length (columns df) = 45%nat.
Proof.
  intros Hh Hd.
  assert (HL : columns (hourly_frame data tinh)
               = map snd COLUMN_MAP ++ ["Datetime"; "Tinh_thanh"; "Date"]).
  { unfold hourly_frame, assign, drop_column, rename. cbv zeta. cbn [columns].
    rewrite Hh. vm_compute. reflexivity. }
  assert (HR : columns (daily_frame data) = map snd DAILY_COLUMN_MAP ++ ["Date"]).
  { unfold daily_frame. cbv zeta. rewrite !hm_column_columns.
    unfold assign, drop_column, rename. cbn [columns].
    rewrite Hd. vm_compute. reflexivity. }
  assert (Hcols : columns (drop_column "Date"
                             (merge_left "Date" (hourly_frame data tinh) (daily_frame data)))
                  = filter (fun c => negb (String.eqb c "Date"))
                      (map snd COLUMN_MAP ++ ["Datetime"; "Tinh_thanh"; "Date"]
                         ++ map snd DAILY_COLUMN_MAP)).
  { unfold drop_column, merge_left. cbn [columns]. rewrite HL, HR.
    vm_compute. reflexivity. }
  assert (Ht1 : mem "time" (columns (hourly data)) = true) by (rewrite Hh; reflexivity).
  assert (Ht2 : mem "time" (columns (daily data)) = true) by (rewrite Hd; reflexivity).
  unfold reshape. rewrite Ht1, Ht2. cbn [negb]. cbv zeta.
  eexists. split.
  - apply reorder_columns_inr. split; [|reflexivity].
    split; rewrite Hcols; vm_compute; reflexivity.
  - cbn [columns]. unfold ordered_cols. rewrite Hcols.
    split; [vm_compute; reflexivity|].
    split; [apply distinct_nodup|]; vm_compute; reflexivity.
Qed.

End Crawler.

(** * The claims on sample runs *)

(** An Giang is fetched, then Bắc Giang meets six 429 in a row: the file
    written before the stop holds the key of An Giang's first row. *)
Lemma no_loss_on_hard_stop_witness :
  exists file r',
    last_saved (trace (snd (main Demo.parse Demo.throttled_after_one Demo.entropy 10958
                              None Demo.regions))) = Some file
    /\ In r' (rows file)
    /\ key r' = (Text "An Giang", Stamp (10957 * 86400)).
Proof.
  assert (H : crawl_all Demo.parse Demo.throttled_after_one Demo.entropy 10958 Demo.regions
                (initial empty_frame)
              = (inl (RuntimeError "RATE_LIMIT_HARD"),
                 snd (crawl_all Demo.parse Demo.throttled_after_one Demo.entropy 10958
                        Demo.regions (initial empty_frame)))).
  { vm_compute. reflexivity. }
  apply (proj1 (proj2 (no_loss_on_hard_stop Demo.parse Demo.throttled_after_one Demo.entropy
                         10958 None Demo.regions empty_frame _ eq_refl H))
           [("Nhiệt độ (°C)", Num 25); ("Mã thời tiết", Num 3);
            ("Datetime", Stamp (10957 * 86400)); ("Tinh_thanh", Text "An Giang");
            ("Mã thời tiết ngày", Num 61); ("Nhiệt độ tối đa ngày (°C)", Num 31);
            ("Giờ mặt trời mọc", Text "05:07")]).
  - vm_compute. left. reflexivity.
  - reflexivity.
Defined.

(** The same run ends with status 0 and the dataset on disk. *)
Lemma exit_after_hard_stop_witness :
  fst (main Demo.parse Demo.throttled_after_one Demo.entropy 10958 None Demo.regions) = 0.
Proof.
  assert (H : crawl_all Demo.parse Demo.throttled_after_one Demo.entropy 10958 Demo.regions
                (initial empty_frame)
              = (inl (RuntimeError "RATE_LIMIT_HARD"),
                 snd (crawl_all Demo.parse Demo.throttled_after_one Demo.entropy 10958
                        Demo.regions (initial empty_frame)))).
  { vm_compute. reflexivity. }
  destruct (proj1 (exit_after_hard_stop Demo.parse Demo.throttled_after_one Demo.entropy
                     10958 None Demo.regions empty_frame _ _ eq_refl H) eq_refl) as [-> _].
  reflexivity.
Defined.

(** C2, as stated, fails: six 429 in a row stop the run, the "run again
    later" message is printed, and the exit status is 0. *)
Lemma exit_status_counterexample :
  In (Print msg_rerun)
     (trace (snd (main Demo.parse Demo.always_429 Demo.entropy 10958 None Demo.regions)))
  /\ ~ fst (main Demo.parse Demo.always_429 Demo.entropy 10958 None Demo.regions) <> 0.
Proof.
  split.
  - vm_compute. repeat (first [left; reflexivity | right]).
  - intros H. apply H. vm_compute. reflexivity.
Qed.

Lemma backoff_on_429_witness :
  (exists jitter,
      0 <= jitter <= 60
      /\ attempt_loop Demo.parse Demo.always_429 Demo.entropy
           (mkRequest 105216 1051259 10957 10958) "An Giang" 60 [4; 5; 6]
           (initial empty_frame)
         = attempt_loop Demo.parse Demo.always_429 Demo.entropy
             (mkRequest 105216 1051259 10957 10958) "An Giang" 60 [5; 6]
             (advance (initial empty_frame)
                [Get (mkRequest 105216 1051259 10957 10958); Sleep (60 * 4 + jitter)] 1 1))
  /\ exists s1 s2,
    60 <= s1 <= 120 /\ 120 <= s2 <= 180
    /\ fetch_block Demo.parse Demo.throttled_twice Demo.entropy
         105216 1051259 10957 10958 "An Giang" 6 60 (initial empty_frame)
       = (match reshape Demo.parse (Demo.day_payload 10957 2) "An Giang" with
          | inr df => inr (Some df)
          | inl x => inl x
          end,
          advance (initial empty_frame)
            [Get (mkRequest 105216 1051259 10957 10958); Sleep s1;
             Get (mkRequest 105216 1051259 10957 10958); Sleep s2;
             Get (mkRequest 105216 1051259 10957 10958)] 3 2).
Proof.
  split.
  - exact (proj1 (backoff_on_429 Demo.parse Demo.always_429 Demo.entropy)
             (mkRequest 105216 1051259 10957 10958) "An Giang" 4 [5; 6]
             (initial empty_frame) Demo.no_payload eq_refl).
  - exact (proj2 (backoff_on_429 Demo.parse Demo.throttled_twice Demo.entropy)
             105216 1051259 10957 10958 "An Giang" (initial empty_frame)
             Demo.no_payload Demo.no_payload (Demo.day_payload 10957 2)
             eq_refl eq_refl eq_refl).
Defined.

Lemma asymmetric_failure_classes_witness :
  attempt_loop Demo.parse Demo.forbidden Demo.entropy
    (mkRequest 105216 1051259 10957 10958) "An Giang" 60 [1; 2; 3; 4; 5; 6]
    (initial empty_frame)
  = (inr None, advance (initial empty_frame) [Get (mkRequest 105216 1051259 10957 10958)] 1 0)
  /\ window_loop Demo.parse Demo.forbidden Demo.entropy 11957 3 105216 1051259 "An Giang"
       10957 (initial empty_frame)
     = window_loop Demo.parse Demo.forbidden Demo.entropy 11957 2 105216 1051259 "An Giang"
         (Z.min (10957 + 365) 11957 + 1)
         (advance
            (advance (initial empty_frame)
               [Block 10957 11322; Get (mkRequest 105216 1051259 10957 11322)] 1 0)
            [Pause 5 10] 0 0)
  /\ exists w',
      fetch_block Demo.parse Demo.always_429 Demo.entropy
        105216 1051259 10957 10958 "An Giang" 6 60 (initial empty_frame)
      = (inl (RuntimeError "RATE_LIMIT_HARD"), w').
Proof.
  split; [|split].
  - apply (proj1 (asymmetric_failure_classes Demo.parse Demo.forbidden Demo.entropy 10958)
             (mkRequest 105216 1051259 10957 10958) "An Giang" 60 1 [2; 3; 4; 5; 6]
             (initial empty_frame) 403 Demo.no_payload eq_refl).
    simpl. intros [H|[H|[H|[H|[H|[H|[]]]]]]]; discriminate.
  - apply (proj1 (proj2 (asymmetric_failure_classes Demo.parse Demo.forbidden
                           Demo.entropy 11957))
             2%nat 105216 1051259 "An Giang" 10957 (initial empty_frame)).
    + vm_compute. discriminate.
    + vm_compute. reflexivity.
  - apply (proj1 (proj2 (proj2 (asymmetric_failure_classes Demo.parse Demo.always_429
                                  Demo.entropy 10958))
                   105216 1051259 10957 10958 "An Giang" (initial empty_frame))).
    intros k Hk. reflexivity.
Defined.

(** A file whose last row of An Giang is dated yesterday: the region is
    skipped. *)
Lemma resume_and_skip_witness :
  ((stamps_of Demo.parse
      (mkFrame ["Tinh_thanh"; "Datetime"]
         [[("Tinh_thanh", Text "An Giang"); ("Datetime", Stamp (11000 * 86400))]])
      "Bắc Giang" = []
    /\ resume_date Demo.parse
         (mkFrame ["Tinh_thanh"; "Datetime"]
            [[("Tinh_thanh", Text "An Giang"); ("Datetime", Stamp (11000 * 86400))]])
         "Bắc Giang" = start_all)
   \/ exists latest_stamp,
       In latest_stamp
          (stamps_of Demo.parse
             (mkFrame ["Tinh_thanh"; "Datetime"]
                [[("Tinh_thanh", Text "An Giang"); ("Datetime", Stamp (11000 * 86400))]])
             "Bắc Giang")
       /\ (forall t,
              In t (stamps_of Demo.parse
                      (mkFrame ["Tinh_thanh"; "Datetime"]
                         [[("Tinh_thanh", Text "An Giang");
                           ("Datetime", Stamp (11000 * 86400))]])
                      "Bắc Giang") -> t <= latest_stamp)
       /\ resume_date Demo.parse
            (mkFrame ["Tinh_thanh"; "Datetime"]
               [[("Tinh_thanh", Text "An Giang"); ("Datetime", Stamp (11000 * 86400))]])
            "Bắc Giang" = date_of latest_stamp + 1)
  /\ crawl_region Demo.parse Demo.always_ok Demo.entropy 11000 ("An Giang", 105216, 1051259)
       (initial (mkFrame ["Tinh_thanh"; "Datetime"]
                   [[("Tinh_thanh", Text "An Giang"); ("Datetime", Stamp (11000 * 86400))]]))
     = (inr tt,
        initial (mkFrame ["Tinh_thanh"; "Datetime"]
                   [[("Tinh_thanh", Text "An Giang"); ("Datetime", Stamp (11000 * 86400))]])).
Proof.
  split.
  - apply (proj1 (resume_and_skip Demo.parse Demo.always_ok Demo.entropy 11000)).
    left. discriminate.
  - apply (proj2 (resume_and_skip Demo.parse Demo.always_ok Demo.entropy 11000)).
    vm_compute. reflexivity.
Defined.

(** C6, as stated, fails: with a row of An Giang dated 1997-05-19 in the
    file, the first request of the run starts on 1997-05-20, before
    2000-01-01. *)
Lemma window_bounding_counterexample :
  exists q,
    In q (gets (trace (snd (main Demo.parse Demo.always_ok Demo.entropy 11000
                              (Demo.file_with 10000) Demo.regions))))
    /\ ~ start_all <= start_date q.
Proof.
  exists (mkRequest 105216 1051259 10001 10366). split.
  - vm_compute. left. reflexivity.
  - vm_compute. intros H. apply H. reflexivity.
Qed.

Lemma window_bounds_witness :
  bounded 11000 (mkRequest 105216 1051259 10001 10366)
  /\ start_all <= resume_date Demo.parse
                    (mkFrame ["Tinh_thanh"; "Datetime"]
                       [[("Tinh_thanh", Text "An Giang"); ("Datetime", Stamp (7500 * 86400))];
                        [("Tinh_thanh", Text "An Giang"); ("Datetime", Stamp (12784 * 86400))]])
                    "An Giang"
  /\ (exists issued,
         trace (snd (crawl_region Demo.parse Demo.always_ok Demo.entropy 11957
                       ("An Giang", 105216, 1051259) (initial empty_frame)))
         = trace (initial empty_frame) ++ issued
         /\ forall q, In q (gets issued) ->
                      resume_date Demo.parse (df_vn (initial empty_frame)) "An Giang"
                      <= start_date q
                      /\ bounded 11957 q)
  /\ exists issued,
      trace (snd (crawl_region Demo.parse Demo.always_ok Demo.entropy 11000
                    ("An Giang", 105216, 1051259) (initial (Demo.held 10998))))
      = trace (initial (Demo.held 10998)) ++ issued
      /\ forall q, In q (gets issued) -> start_all <= start_date q.
Proof.
  split; [|split; [|split]].
  - apply (proj1 (proj2 (window_bounds Demo.parse Demo.always_ok Demo.entropy 11000))
             (Demo.file_with 10000) Demo.regions).
    vm_compute. left. reflexivity.
  - pose proof (proj1 (proj2 (proj2 (window_bounds Demo.parse Demo.always_ok
                                       Demo.entropy 11000)))
                  (mkFrame ["Tinh_thanh"; "Datetime"]
                     [[("Tinh_thanh", Text "An Giang"); ("Datetime", Stamp (7500 * 86400))];
                      [("Tinh_thanh", Text "An Giang");
                       ("Datetime", Stamp (12784 * 86400))]])
                  "An Giang") as H.
    assert (Hwf : columns (mkFrame ["Tinh_thanh"; "Datetime"]
                             [[("Tinh_thanh", Text "An Giang");
                               ("Datetime", Stamp (7500 * 86400))];
                              [("Tinh_thanh", Text "An Giang");
                               ("Datetime", Stamp (12784 * 86400))]]) <> []
                  \/ rows (mkFrame ["Tinh_thanh"; "Datetime"]
                             [[("Tinh_thanh", Text "An Giang");
                               ("Datetime", Stamp (7500 * 86400))];
                              [("Tinh_thanh", Text "An Giang");
                               ("Datetime", Stamp (12784 * 86400))]]) = [])
      by (left; discriminate).
    apply (proj2 (H Hwf)).
    right. exists (12784 * 86400). split; [right; left; reflexivity|].
    vm_compute. discriminate.
  - apply (proj1 (window_bounds Demo.parse Demo.always_ok Demo.entropy 11957)
             "An Giang" 105216 1051259 (initial empty_frame)
             (fst (crawl_region Demo.parse Demo.always_ok Demo.entropy 11957
                     ("An Giang", 105216, 1051259) (initial empty_frame)))).
    + split; [constructor | left; reflexivity].
    + apply surjective_pairing.
  - apply (proj2 (proj2 (proj2 (window_bounds Demo.parse Demo.always_ok Demo.entropy 11000)))
             "An Giang" 105216 1051259 (initial (Demo.held 10998))
             (fst (crawl_region Demo.parse Demo.always_ok Demo.entropy 11000
                     ("An Giang", 105216, 1051259) (initial (Demo.held 10998))))).
    + split; [repeat constructor | right; split; reflexivity].
    + apply surjective_pairing.
    + right. exists (10998 * 86400). split; [left; reflexivity|].
      vm_compute. discriminate.
Defined.

(** The frame a run over two regions leaves in memory and on disk. *)
Lemma merged_dataset_form_witness :
  tidy_form
    (df_vn (snd (main Demo.parse Demo.always_ok Demo.entropy 10958 None Demo.regions)))
  /\ match reshape Demo.parse (Demo.day_payload 10957 2) "An Giang" with
     | inr df =>
         exists out,
           merge_and_persist Demo.parse (mkWorld (Demo.held 10000) [df] [] 1 0)
           = (inr tt, mkWorld out [df] ([] ++ [ToCsv out]) 1 0)
           /\ tidy_form out
           /\ List.length (rows out) = 3%nat
           /\ In "Nhiệt độ (°C)" (columns out)
     | inl _ => False
     end.
Proof.
  split.
  - apply (proj2 (merged_dataset_form Demo.parse Demo.always_ok Demo.entropy 10958)
             None Demo.regions).
    vm_compute. repeat (first [left; reflexivity | right]).
  - destruct (reshape Demo.parse (Demo.day_payload 10957 2) "An Giang") as [e|df] eqn:H;
      [vm_compute in H; discriminate|].
    destruct (proj1 (merged_dataset_form Demo.parse Demo.always_ok Demo.entropy 10958)
                (mkWorld (Demo.held 10000) [df] [] 1 0) "An Giang")
      as (out & Hm & _ & F & Hr & _ & _ & _ & Hcols).
    + split; [repeat constructor | right; split; reflexivity].
    + discriminate.
    + constructor; [|constructor]. split.
      * vm_compute in H. inversion H. reflexivity.
      * exists (Demo.day_payload 10957 2). exact H.
    + exists out. split; [exact Hm|]. split; [exact F|].
      vm_compute in H. inversion H. subst. split.
      * rewrite Hr. vm_compute. reflexivity.
      * apply (proj2 (Hcols _)). right. eexists. split; [left; reflexivity|].
        vm_compute. repeat (first [left; reflexivity | right]).
Defined.


(** 24 hours of 2000-02-13 and the day itself. *)
Lemma reshape_join_witness :
  match reshape Demo.parse (Demo.day_payload 11000 24) "An Giang" with
  | inr df =>
      List.length (rows df) = 24%nat
      /\ mem "Date" (columns df) = false
      /\ Forall (fun row => bound "Date" row = false) (rows df)
      /\ Forall (fun row => In ("Nhiệt độ tối đa ngày (°C)", Num 31) row
                            /\ In ("Giờ mặt trời mọc", Text "05:07") row) (rows df)
  | inl _ => False
  end.
Proof.
  destruct (reshape Demo.parse (Demo.day_payload 11000 24) "An Giang") as [e|df] eqn:H;
    [vm_compute in H; discriminate|].
  destruct (reshape_join Demo.parse (Demo.day_payload 11000 24) "An Giang" 11000
              (Demo.day_record 11000) df) as (L & C & _ & B & V).
  - reflexivity.
  - intros l Hl. simpl in Hl.
    repeat (destruct Hl as [<-|Hl]; [vm_compute; reflexivity|]). contradiction.
  - reflexivity.
  - vm_compute. reflexivity.
  - exact H.
  - split; [exact L|]. split; [exact C|]. split; [exact B|].
    apply Forall_forall. intros row Hrow. split.
    + apply (V row "Nhiệt độ tối đa ngày (°C)" (Num 31) Hrow).
      * vm_compute. repeat (first [left; reflexivity | right]).
      * discriminate.
    + apply (V row "Giờ mặt trời mọc" (Text "05:07") Hrow).
      * vm_compute. repeat (first [left; reflexivity | right]).
      * discriminate.
Defined.


(** * The further properties on sample runs *)

(** Two 429, then a 200: three requests. *)
Lemma fetch_request_count_witness :
  exists new d,
    snd (fetch_block Demo.parse Demo.throttled_twice Demo.entropy
           105216 1051259 10957 10958 "An Giang" 6 60 (initial empty_frame))
    = advance (initial empty_frame) new (List.length (gets new)) d
    /\ (1 <= List.length (gets new) <= 6)%nat
    /\ collected new = [].
Proof.
  destruct (fetch_request_count Demo.parse Demo.throttled_twice Demo.entropy
              105216 1051259 10957 10958 "An Giang" 6 60 (initial empty_frame)
              _ _ (surjective_pairing _))
    as (new & d & Hw & _ & Hle & Hone & _ & _ & Hc & _).
  exists new, d. split; [exact Hw|]. split; [|exact Hc].
  split; [apply Hone; discriminate | exact Hle].
Defined.


(** Six 429 in a row: the sleeps stay within the budget. *)
Lemma fetch_sleep_budget_witness :
  exists new a d,
    snd (fetch_block Demo.parse Demo.always_429 Demo.entropy
           105216 1051259 10957 10958 "An Giang" 6 60 (initial empty_frame))
    = advance (initial empty_frame) new a d
    /\ 0 <= total (sleeps new) <= 1620.
Proof.
  exact (fetch_sleep_budget Demo.parse Demo.always_429 Demo.entropy
           105216 1051259 10957 10958 "An Giang" (initial empty_frame)
           _ _ (surjective_pairing _)).
Defined.

Lemma empty_payload_is_no_data_witness :
  window_step Demo.parse Demo.always_blank Demo.entropy
    105216 1051259 "An Giang" 10957 10958 (initial empty_frame)
  = (inr tt,
     advance (initial empty_frame)
       [Block 10957 10958; Get (mkRequest 105216 1051259 10957 10958); Pause 5 10] 1 0).
Proof.
  destruct (reshape Demo.parse Demo.blank "An Giang") as [e|df] eqn:H;
    [vm_compute in H; discriminate|].
  exact (proj2 (empty_payload_is_no_data Demo.parse Demo.always_blank Demo.entropy
                  105216 1051259 "An Giang" 10957 10958 (initial empty_frame)
                  Demo.blank df eq_refl eq_refl H)).
Defined.

(** One day with two hours: all names distinct, the reshaping succeeds. *)
Lemma reshape_succeeds_iff_witness :
  exists df, reshape Demo.parse (Demo.day_payload 10957 2) "An Giang" = inr df.
Proof.
  apply (proj2 (proj1 (reshape_succeeds_iff Demo.parse (Demo.day_payload 10957 2) "An Giang"
                         ltac:(apply distinct_nodup; vm_compute; reflexivity)
                         ltac:(apply distinct_nodup; vm_compute; reflexivity)
                         ltac:(apply distinct_nodup; vm_compute; reflexivity)))).
  repeat split; reflexivity.
Defined.

Lemma reshape_rows_tagged_witness :
  match reshape Demo.parse (Demo.day_payload 10957 2) "An Giang" with
  | inr df =>
      column_order (columns df)
      /\ get "Tinh_thanh" (nth 1 (rows df) []) = Text "An Giang"
  | inl _ => False
  end.
Proof.
  destruct (reshape Demo.parse (Demo.day_payload 10957 2) "An Giang") as [e|df] eqn:H;
    [vm_compute in H; discriminate|].
  destruct (reshape_rows_tagged Demo.parse (Demo.day_payload 10957 2) "An Giang" df H)
    as [Hc Hrows].
  split; [exact Hc|]. apply Hrows.
  vm_compute in H. inversion H. right. left. reflexivity.
Defined.

Lemma reshape_keeps_hourly_rows_witness :
  match reshape Demo.parse (Demo.day_payload 10957 2) "An Giang" with
  | inr df => List.length (rows df) = 2%nat
  | inl _ => False
  end.
Proof.
  destruct (reshape Demo.parse (Demo.day_payload 10957 2) "An Giang") as [e|df] eqn:H;
    [vm_compute in H; discriminate|].
  apply (proj2 (reshape_keeps_hourly_rows Demo.parse (Demo.day_payload 10957 2)
                  "An Giang" df H)).
  vm_compute. constructor; [intros [] | constructor].
Defined.

Lemma sun_times_are_hours_and_minutes_witness :
  hh_mm (get "Giờ mặt trời mọc"
           (nth 0 (rows (daily_frame Demo.parse (Demo.day_payload 10957 2))) [])).
Proof.
  apply (sun_times_are_hours_and_minutes Demo.parse (Demo.day_payload 10957 2)).
  - left. reflexivity.
  - vm_compute. reflexivity.
  - vm_compute. left. reflexivity.
Defined.

Lemma load_keeps_parseable_rows_witness :
  match load Demo.parse (Demo.file_with 10957) with
  | inr df =>
      columns df = ["Tinh_thanh"; "Nhiệt độ (°C)"; "Datetime"]
      /\ StronglySorted key_le (rows df)
      /\ Forall (fun r => stamped r = true) (rows df)
  | inl _ => False
  end.
Proof.
  destruct (load Demo.parse (Demo.file_with 10957)) as [e|df] eqn:H;
    [vm_compute in H; discriminate|].
  destruct (load_keeps_parseable_rows Demo.parse
              (mkFrame ["Tinh_thanh"; "Nhiệt độ (°C)"; "Datetime"]
                 [[("Tinh_thanh", Text "An Giang"); ("Nhiệt độ (°C)", Num 24);
                   ("Datetime", Num (10957 * 86400))]])
              df eq_refl H) as (Hc & Hs & Hst & _).
  split; [exact Hc|]. split; [exact Hs | exact Hst].
Defined.

Lemma tidy_idempotent_witness :
  match tidy Demo.parse Demo.untidy with
  | inr out => tidy Demo.parse out = inr out /\ List.length (rows out) = 2%nat
  | inl _ => False
  end.
Proof.
  destruct (tidy Demo.parse Demo.untidy) as [e|out] eqn:H;
    [vm_compute in H; discriminate|].
  split.
  - apply (tidy_idempotent Demo.parse Demo.untidy out); [|exact H].
    repeat constructor.
  - vm_compute in H. inversion H. reflexivity.
Defined.

(** From an empty dataset up to day 11957: three windows, one request
    each. *)
Lemma region_turn_cost_witness :
  exists issued,
    trace (snd (crawl_region Demo.parse Demo.always_ok Demo.entropy 11957
                  ("An Giang", 105216, 1051259) (initial empty_frame)))
    = trace (initial empty_frame) ++ issued
    /\ (List.length (gets issued) <= 6 * List.length (blocks_of issued))%nat
    /\ Z.of_nat (List.length (blocks_of issued)) = 3.
Proof.
  destruct (region_turn_cost Demo.parse Demo.always_ok Demo.entropy 11957
              "An Giang" 105216 1051259 (initial empty_frame) _ _ (surjective_pairing _))
    as (issued & Ht & [_ Hg] & _ & Hn).
  exists issued. split; [exact Ht|]. split; [exact Hg|].
  rewrite Hn; [reflexivity|]. vm_compute. reflexivity.
Defined.

(** An Giang is on file up to yesterday. *)
Lemma caught_up_run_does_nothing_witness :
  fst (main Demo.parse Demo.always_429 Demo.entropy 11000
         (Demo.file_with 11000) [("An Giang", 105216, 1051259)]) = 0
  /\ gets (trace (snd (main Demo.parse Demo.always_429 Demo.entropy 11000
                         (Demo.file_with 11000) [("An Giang", 105216, 1051259)]))) = [].
Proof.
  destruct (load Demo.parse (Demo.file_with 11000)) as [e|loaded] eqn:H;
    [vm_compute in H; discriminate|].
  destruct (caught_up_run_does_nothing Demo.parse Demo.always_429 Demo.entropy 11000
              (Demo.file_with 11000) [("An Giang", 105216, 1051259)] loaded H)
    as (Hm & Hg & _).
  - intros tinh lat lon [E|[]]. inversion E; subst.
    vm_compute in H. inversion H. vm_compute. reflexivity.
  - split; [rewrite Hm; reflexivity | exact Hg].
Defined.

(** Both regions fetched: the file holds the dataset. *)
Lemma completed_run_is_saved_witness :
  last_saved (trace (snd (crawl_all Demo.parse Demo.always_ok Demo.entropy 10958
                            Demo.regions (initial empty_frame))))
  = Some (df_vn (snd (crawl_all Demo.parse Demo.always_ok Demo.entropy 10958
                        Demo.regions (initial empty_frame)))).
Proof.
  assert (H : crawl_all Demo.parse Demo.always_ok Demo.entropy 10958 Demo.regions
                (initial empty_frame)
              = (inr tt,
                 snd (crawl_all Demo.parse Demo.always_ok Demo.entropy 10958
                        Demo.regions (initial empty_frame)))).
  { vm_compute. reflexivity. }
  apply (proj1 (proj2 (proj2 (completed_run_is_saved Demo.parse Demo.always_ok Demo.entropy
                                10958 None Demo.regions empty_frame _ eq_refl H)))).
  vm_compute. discriminate.
Defined.

(** A 200 without [time]: the turn ends with KeyError and nothing is
    written. *)
Lemma keyerror_ends_turn_unsaved_witness :
  last_saved (trace (snd (crawl_region Demo.parse Demo.always_malformed Demo.entropy 10958
                            ("An Giang", 105216, 1051259) (initial empty_frame))))
  = None
  /\ exists n s e data,
      asked (snd (crawl_region Demo.parse Demo.always_malformed Demo.entropy 10958
                    ("An Giang", 105216, 1051259) (initial empty_frame))) = S n
      /\ Demo.always_malformed n (mkRequest 105216 1051259 s e) = Http 200 data
      /\ reshape Demo.parse data "An Giang" = inl (KeyError "time").
Proof.
  assert (H : crawl_region Demo.parse Demo.always_malformed Demo.entropy 10958
                ("An Giang", 105216, 1051259) (initial empty_frame)
              = (inl (KeyError "time"),
                 snd (crawl_region Demo.parse Demo.always_malformed Demo.entropy 10958
                        ("An Giang", 105216, 1051259) (initial empty_frame)))).
  { vm_compute. reflexivity. }
  assert (Hd : dataset_ok (df_vn (initial empty_frame))).
  { split; [constructor | left; reflexivity]. }
  destruct (keyerror_ends_turn_unsaved Demo.parse Demo.always_malformed Demo.entropy 10958
              "An Giang" 105216 1051259 (initial empty_frame) "time" _ Hd H)
    as (_ & Hs & Hn & _).
  split; [exact Hs | exact Hn].
Defined.

(** An Giang is on file up to day 10998; its turn fetches 10999..11000. *)
Lemma turn_adds_own_rows_only_witness :
  exists r',
    In r' (rows (df_vn (snd (crawl_region Demo.parse Demo.always_ok Demo.entropy 11000
                               ("An Giang", 105216, 1051259)
                               (initial (Demo.held 10998))))))
    /\ key r' = (Text "An Giang", Stamp (10998 * 86400)).
Proof.
  assert (Hd : dataset_ok (df_vn (initial (Demo.held 10998)))).
  { split; [repeat constructor | right; split; reflexivity]. }
  apply (proj2 (turn_adds_own_rows_only Demo.parse Demo.always_ok Demo.entropy 11000
                  "An Giang" 105216 1051259 (initial (Demo.held 10998)) _ _
                  Hd (surjective_pairing _))
           [("Tinh_thanh", Text "An Giang"); ("Datetime", Stamp (10998 * 86400))]).
  left. reflexivity.
Defined.

Lemma other_regions_keep_their_start_witness :
  resume_date Demo.parse
    (df_vn (snd (crawl_region Demo.parse Demo.always_ok Demo.entropy 11000
                   ("Bắc Giang", 212731, 1061946) (initial (Demo.held 10998)))))
    "An Giang"
  = resume_date Demo.parse (df_vn (initial (Demo.held 10998))) "An Giang".
Proof.
  assert (Hd : dataset_ok (df_vn (initial (Demo.held 10998)))).
  { split; [repeat constructor | right; split; reflexivity]. }
  apply (other_regions_keep_their_start Demo.parse Demo.always_ok Demo.entropy 11000
           "Bắc Giang" 212731 1061946 (initial (Demo.held 10998)) _ _ "An Giang"
           Hd (surjective_pairing _)).
  discriminate.
Defined.

Lemma reorder_keeps_every_column_witness :
  Permutation ["Datetime"; "Nhiệt độ (°C)"; "Tinh_thanh"]
              ["Tinh_thanh"; "Nhiệt độ (°C)"; "Datetime"]
  /\ exists out, reorder_columns Demo.untidy = inr out.
Proof.
  split.
  - apply (proj2 (proj2 (proj2 (reorder_keeps_every_column Demo.untidy)
                           (mkFrame ["Tinh_thanh"; "Nhiệt độ (°C)"; "Datetime"]
                              (rows Demo.untidy))
                           eq_refl))).
    repeat constructor; simpl; intuition discriminate.
  - apply (proj2 (proj1 (reorder_keeps_every_column Demo.untidy))).
    split; reflexivity.
Defined.

Lemma start_date_never_goes_back_witness :
  resume_date Demo.parse (df_vn (initial (Demo.held 10998))) "An Giang"
  <= resume_date Demo.parse
       (df_vn (snd (crawl_region Demo.parse Demo.always_ok Demo.entropy 11000
                      ("An Giang", 105216, 1051259) (initial (Demo.held 10998)))))
       "An Giang".
Proof.
  assert (Hd : dataset_ok (df_vn (initial (Demo.held 10998)))).
  { split; [repeat constructor | right; split; reflexivity]. }
  apply (start_date_never_goes_back Demo.parse Demo.always_ok Demo.entropy 11000
           "An Giang" 105216 1051259 (initial (Demo.held 10998)) _ _ "An Giang"
           Hd (surjective_pairing _)).
  vm_compute. discriminate.
Defined.

(** Two 429, then a 200 with two rows: the block is collected. *)
Lemma window_collects_after_retries_witness :
  match reshape Demo.parse (Demo.day_payload 10957 2) "An Giang" with
  | inr df =>
      exists new w',
        window_step Demo.parse Demo.throttled_twice Demo.entropy
          105216 1051259 "An Giang" 10957 10958 (initial empty_frame)
        = (inr tt, w')
        /\ gets new = repeat (mkRequest 105216 1051259 10957 10958) 3
        /\ df_blocks w' = [df]
        /\ asked w' = 3%nat
  | inl _ => False
  end.
Proof.
  destruct (reshape Demo.parse (Demo.day_payload 10957 2) "An Giang") as [e|df] eqn:H;
    [vm_compute in H; discriminate|].
  destruct (window_collects_after_retries Demo.parse Demo.throttled_twice Demo.entropy
              105216 1051259 "An Giang" 10957 10958 2 (initial empty_frame)
              (Demo.day_payload 10957 2) df)
    as (new & w' & Hrun & _ & Hg & _ & Hb & _ & Ha).
  - lia.
  - intros j Hj. destruct j as [|[|j]]; [reflexivity | reflexivity | lia].
  - reflexivity.
  - exact H.
  - vm_compute in H. inversion H. reflexivity.
  - exists new, w'. split; [exact Hrun|]. split; [exact Hg|].
    split; [exact Hb | exact Ha].
Defined.

(** An answer with every requested variable. *)
Lemma requested_variables_get_distinct_names_witness :
  match reshape Demo.parse Demo.requested "An Giang" with
  | inr df => List.length (columns df) = 45%nat /\ NoDup (columns df)
  | inl _ => False
  end.
Proof.
  destruct (requested_variables_get_distinct_names Demo.parse Demo.requested "An Giang"
              eq_refl eq_refl) as (df & H & _ & Hn & Hl).
  rewrite H. split; assumption.
Defined.
